(** * Solana MCP gateway: connection management and request dispatch

    A shallow embedding of the JavaScript sources of the gateway
    (solana-api.js, solana.js, mcp.js, routes.js, mcp-server-new.js,
    config.js, pumpfun.js and the keypair helper) together with the
    properties of its connection manager, its three front-ends and its
    transfer and token-minting flows.

    Conventions of the embedding:
    - a JavaScript value is a [Json] term; an object is a finite map from
      property names to values;
    - a JavaScript number is an exact rational or [NaN]; the rounding of
      IEEE doubles and the infinities are outside the model;
    - an [async] function is run to completion as one atomic computation in
      a state-and-exception monad; [await]ing a remote call appends it to
      the list of calls of the [World] and asks the [Remote] oracle for the
      reply; promise callbacks that the source does not await run after the
      synchronous code that registered them;
    - [console.error] output is an external sink and is not modelled;
    - strings are sequences of ASCII characters;
    - left out: [getTokenBalance], [uploadToIPFS] and what [createToken]
      does once it holds its keys (kept abstract), the [server] part of
      the configuration and the bootstrap of the two servers;
    - what the file system answers to a write is an oracle, like the
      replies of the ledger. *)

From Stdlib Require Import ZArith QArith Qabs Qround String Ascii List Bool Lia.
From stdpp Require Import base strings gmap pretty.
Import ListNotations.

Set Warnings "-register-all".

#[local] Open Scope string_scope.
#[local] Open Scope Z_scope.

(** ** JavaScript values *)

Inductive Number := Fin (q : Q) | NaN.

Definition num (z : Z) : Number := Fin (inject_Z z).

Inductive Json :=
| JUndefined
| JNull
| JBool (b : bool)
| JNum (n : Number)
| JStr (s : string)
| JArr (l : list Json)
| JObj (o : gmap string Json).

(** ToBoolean. *)
Definition truthy (v : Json) : bool :=
  match v with
  | JUndefined | JNull => false
  | JBool b => b
  | JNum (Fin q) => negb (Qeq_bool q (inject_Z 0))
  | JNum NaN => false
  | JStr s => negb (String.eqb s "")
  | JArr _ | JObj _ => true
  end.

(** [a || b] *)
Definition js_or (a b : Json) : Json := if truthy a then a else b.

(** Property read [o.k] and optional chaining [o?.k]: a missing property and
    a property of [undefined] or [null] read as [undefined]. *)
Definition prop (o : Json) (k : string) : Json :=
  match o with
  | JObj m => default JUndefined (m !! k)
  | _ => JUndefined
  end.

Definition jnum (z : Z) : Json := JNum (num z).

(** [x * y] and [x / y] on numbers. *)
Definition Nmul (x y : Number) : Number :=
  match x, y with
  | Fin a, Fin b => Fin (Qred (a * b))
  | _, _ => NaN
  end.

Definition Ndiv (x : Number) (d : Z) : Number :=
  match x with
  | Fin a => Fin (Qred (a / inject_Z d))
  | NaN => NaN
  end.

Definition is_integer (q : Q) : bool := (Qden (Qred q) =? 1)%positive.

Definition LAMPORTS_PER_SOL : Z := 1000000000.

(** ** Base58, as the [bs58] package decodes and encodes it *)

Definition ALPHABET : string :=
  "123456789ABCDEFGHJKLMNPQRSTUVWXYZabcdefghijkmnopqrstuvwxyz".

Fixpoint index_from (i : Z) (c : ascii) (s : string) : option Z :=
  match s with
  | EmptyString => None
  | String d s' => if Ascii.eqb c d then Some i else index_from (i + 1) c s'
  end.

Definition digit58 (c : ascii) : option Z := index_from 0 c ALPHABET.

Fixpoint leading_ones (s : string) : nat * string :=
  match s with
  | String "1" s' => let '(n, r) := leading_ones s' in (S n, r)
  | _ => (O, s)
  end.

Fixpoint value58 (acc : Z) (s : string) : option Z :=
  match s with
  | EmptyString => Some acc
  | String c s' =>
      match digit58 c with
      | Some d => value58 (acc * 58 + d) s'
      | None => None
      end
  end.

Fixpoint be_bytes (fuel : nat) (n : Z) (acc : list Z) : list Z :=
  match fuel with
  | O => acc
  | S fuel' => if n =? 0 then acc else be_bytes fuel' (n / 256) (n mod 256 :: acc)
  end.

(** [bs58.decode]: [None] stands for the error 'Non-base58 character'. *)
Definition bs58_decode (s : string) : option (list Z) :=
  let '(zeros, rest) := leading_ones s in
  match value58 0 rest with
  | Some v => Some (repeat 0 zeros ++ be_bytes (String.length rest) v [])%list
  | None => None
  end.

Fixpoint leading_zeros (l : list Z) : nat * list Z :=
  match l with
  | b :: l' => if b =? 0 then let '(n, r) := leading_zeros l' in (S n, r) else (O, l)
  | [] => (O, [])
  end.

Definition char58 (d : Z) : string :=
  match String.get (Z.to_nat d) ALPHABET with
  | Some c => String c EmptyString
  | None => EmptyString
  end.

Fixpoint digits58 (fuel : nat) (n : Z) (acc : string) : string :=
  match fuel with
  | O => acc
  | S fuel' => if n =? 0 then acc else digits58 fuel' (n / 58) (char58 (n mod 58) +:+ acc)
  end.

Fixpoint ones (n : nat) : string :=
  match n with
  | O => EmptyString
  | S n' => String "1" (ones n')
  end.

(** [bs58.encode] *)
Definition bs58_encode (bytes : list Z) : string :=
  let '(zeros, rest) := leading_zeros bytes in
  let v := fold_left (fun acc b => acc * 256 + b) rest 0 in
  ones zeros +:+ digits58 (2 * List.length rest) v EmptyString.

(** ** Outcomes and the monad of the embedding *)

(** A JavaScript call returns a value or throws; every error the sources
    throw or catch is used through its [message] only. *)
Inductive Outcome (A : Type) :=
| Returned (a : A)
| Thrown (message : string).
Arguments Returned {A} a.
Arguments Thrown {A} message.

Definition M (S A : Type) : Type := S -> Outcome A * S.

Definition ret {S A} (a : A) : M S A := fun s => (Returned a, s).
Definition throw {S A} (message : string) : M S A := fun s => (Thrown message, s).
Definition bind {S A B} (c : M S A) (k : A -> M S B) : M S B :=
  fun s => match c s with
           | (Returned a, s') => k a s'
           | (Thrown m, s') => (Thrown m, s')
           end.
(** [try { c } catch (error) { h error.message }] *)
Definition try_catch {S A} (c : M S A) (h : string -> M S A) : M S A :=
  fun s => match c s with
           | (Returned a, s') => (Returned a, s')
           | (Thrown m, s') => h m s'
           end.
Definition get {S} : M S S := fun s => (Returned s, s).
Definition modify {S} (f : S -> S) : M S unit := fun s => (Returned tt, f s).
Definition lift {S A} (o : Outcome A) : M S A := fun s => (o, s).

Declare Scope js_scope.
Delimit Scope js_scope with js.
Notation "'let*' x ':=' c 'in' k" := (bind c (fun x => k))
  (at level 10, x name, c at level 100, k at level 200) : js_scope.
Notation "'do' c 'then' k" := (bind c (fun _ => k))
  (at level 10, c at level 100, k at level 200) : js_scope.
#[local] Open Scope js_scope.

(** ** The SDK and the remote ledger *)

Record PublicKey := { pk_bytes : list Z }.

Definition toBase58 (p : PublicKey) : string := bs58_encode (pk_bytes p).

(** [new PublicKey(address)] for a string argument. *)
Definition PublicKey_new (address : string) : Outcome PublicKey :=
  match bs58_decode address with
  | None => Thrown "Non-base58 character"
  | Some bytes =>
      if (List.length bytes =? 32)%nat then Returned {| pk_bytes := bytes |}
      else Thrown "Invalid public key input"
  end.

Record Keypair := { publicKey : PublicKey; secretKey : list Z }.

Record AccountInfo := {
  owner : PublicKey;
  lamports : Z;
  executable : bool;
  rentEpoch : Z;
  data_length : Z
}.

Record SigInfo := {
  sig_signature : string;
  sig_slot : Z;
  sig_blockTime : option Z;
  sig_err : Json;
  sig_memo : Json;
  sig_confirmationStatus : Json
}.

Record TokenAccount := {
  ta_pubkey : PublicKey;
  ta_mint : string;
  ta_owner : string;
  ta_uiAmount : Json;
  ta_decimals : Z
}.

(** A transfer transaction: the one instruction the gateway builds, the
    fields it sets afterwards and the keys it is signed with. *)
Record Tx := {
  tx_from : PublicKey;
  tx_to : PublicKey;
  tx_lamports : Number;
  tx_recentBlockhash : option string;
  tx_feePayer : option PublicKey;
  tx_signers : list PublicKey
}.

Inductive RpcCall :=
| getSlot
| getVersion
| getBlockTime (slot : Z)
| getHealth
| getSupply
| getBalance (pubkey : PublicKey)
| getAccountInfo (pubkey : PublicKey)
| getSignaturesForAddress (pubkey : PublicKey) (limit : Json)
| getLatestBlockhash
| sendRawTransaction (tx : Tx)
| sendTransaction (tx : Tx)
| confirmTransaction (signature : string)
| getParsedTokenAccountsByOwner (pubkey : PublicKey).

(** The remote ledger service.  Every reply may depend on the endpoint asked
    and on [n], the number of remote calls made before this one, so an
    endpoint that is down at one moment may be up at a later one.
    [elapsed n] is the time in milliseconds the [n]-th call takes. *)
Record Remote := {
  r_getSlot : nat -> string -> Outcome Z;
  r_getVersion : nat -> string -> Outcome Json;
  r_getBlockTime : nat -> string -> Z -> Outcome (option Z);
  r_getHealth : nat -> string -> Outcome string;
  r_getSupply : nat -> string -> Outcome (Z * Z);
  r_getBalance : nat -> string -> PublicKey -> Outcome Z;
  r_getAccountInfo : nat -> string -> PublicKey -> Outcome (option AccountInfo);
  r_getSignaturesForAddress : nat -> string -> PublicKey -> Json -> Outcome (list SigInfo);
  r_getLatestBlockhash : nat -> string -> Outcome (string * Z);
  r_send : nat -> string -> Tx -> Outcome string;
  r_confirmTransaction : nat -> string -> string -> Outcome unit;
  r_getParsedTokenAccountsByOwner : nat -> string -> PublicKey -> Outcome (list TokenAccount);
  elapsed : nat -> Z
}.

(** The parts of [@solana/web3.js] and of the runtime that are cryptography,
    encoding or text: key derivation and generation (the [n]-th key
    generated), the encoding of a transfer instruction, signature
    verification at serialization, the text of a date and of a value
    ([String(v)]), the number a text denotes, [path.resolve] of a folder
    and a file name, and [JSON.parse] of the text of an array of bytes. *)
Record Sdk := {
  Keypair_fromSecretKey : list Z -> Outcome Keypair;
  Keypair_generate : nat -> Keypair;
  SystemProgram_transfer : PublicKey -> PublicKey -> Number -> Outcome unit;
  signAndSerialize : Tx -> Outcome unit;
  formatISO : Z -> string;
  toText : Json -> string;
  parseFloat : string -> Number;
  path_resolve : string -> string -> string;
  JSON_parse : string -> Outcome (list Z)
}.

(** What a run of the gateway can observe and change outside its own
    objects: the remote calls made so far (oldest first), the clock read by
    [Date.now()], the number of keypairs generated, and the file system. *)
Record World := {
  calls : list (string * RpcCall);
  clock : Z;
  generated : nat;
  files : gmap string string;
  dirs : gset string
}.

Definition record_call (e : string) (c : RpcCall) (dt : Z) (w : World) : World :=
  {| calls := (calls w ++ [(e, c)])%list; clock := clock w + dt;
     generated := generated w; files := files w; dirs := dirs w |}.

Definition next_keypair (w : World) : World :=
  {| calls := calls w; clock := clock w; generated := S (generated w);
     files := files w; dirs := dirs w |}.

(** ** Builtins of the runtime *)

Definition is_space (c : ascii) : bool :=
  let n := Z.of_nat (nat_of_ascii c) in (n =? 32) || ((9 <=? n) && (n <=? 13)).

Fixpoint skip_spaces (s : string) : string :=
  match s with
  | String c s' => if is_space c then skip_spaces s' else s
  | EmptyString => s
  end.

Definition digit_value (c : ascii) : option Z :=
  let n := Z.of_nat (nat_of_ascii c) in
  if (48 <=? n) && (n <=? 57) then Some (n - 48)
  else if (97 <=? n) && (n <=? 122) then Some (n - 87)
  else if (65 <=? n) && (n <=? 90) then Some (n - 55)
  else None.

(** The longest prefix of digits of radix [R], read as a number. *)
Fixpoint parse_digits (R : Z) (s : string) (acc : option Z) : option Z :=
  match s with
  | String c s' =>
      match digit_value c with
      | Some d => if d <? R then parse_digits R s' (Some (default 0 acc * R + d)) else acc
      | None => acc
      end
  | EmptyString => acc
  end.

(** [parseInt(s)] with no radix, on a string of ASCII characters. *)
Definition parseInt (s : string) : Number :=
  let s1 := skip_spaces s in
  let '(sign, s2) :=
    match s1 with
    | String "-" r => (-1, r)
    | String "+" r => (1, r)
    | _ => (1, s1)
    end in
  let '(R, s3) :=
    match s2 with
    | String "0" (String "x" r) => (16, r)
    | String "0" (String "X" r) => (16, r)
    | _ => (10, s2)
    end in
  match parse_digits R s3 None with
  | Some v => num (sign * v)
  | None => NaN
  end.

(** [new Date(ms).toISOString()]: a time value beyond 8.64e15 ms is an
    invalid date, for which [toISOString] throws a RangeError. *)
Definition toISOString (sdk : Sdk) (ms : Number) : Outcome string :=
  match ms with
  | Fin q =>
      if Qle_bool (Qabs q) (inject_Z 8640000000000000)
      then Returned (formatISO sdk (Qfloor q))
      else Thrown "Invalid time value"
  | NaN => Thrown "Invalid time value"
  end.

(** An object literal. *)
Definition obj (l : list (string * Json)) : Json := JObj (list_to_map l).

(** ** config.js *)

(** [process.env.K || d] *)
Definition env_or (env : gmap string string) (k d : string) : string :=
  match env !! k with
  | Some v => if String.eqb v "" then d else v
  | None => d
  end.

Record SolanaConfig := {
  cfg_network : string;
  cfg_endpoints : gmap string (list string);
  cfg_commitment : string
}.

Record Config := {
  solana : SolanaConfig;
  pumpfun_privateKey : string
}.

Definition config (env : gmap string string) : Config :=
  {| solana :=
       {| cfg_network := env_or env "SOLANA_NETWORK" "devnet";
          cfg_endpoints :=
            list_to_map
              [ ("mainnet-beta",
                 [ env_or env "MAINNET_RPC_URL" "https://api.mainnet-beta.solana.com";
                   "https://solana-api.projectserum.com";
                   "https://rpc.ankr.com/solana" ]);
                ("devnet",
                 [ env_or env "DEVNET_RPC_URL" "https://api.devnet.solana.com";
                   "https://devnet.genesysgo.net" ]);
                ("testnet",
                 [ env_or env "TESTNET_RPC_URL" "https://api.testnet.solana.com" ]);
                ("localnet", [ "http://localhost:8899" ]) ];
          cfg_commitment := env_or env "SOLANA_COMMITMENT" "confirmed" |};
     pumpfun_privateKey := env_or env "PUMPFUN_PRIVATE_KEY" "" |}.

(** ** Connections *)

Definition Object_prototype_keys : list string :=
  [ "constructor"; "hasOwnProperty"; "isPrototypeOf"; "propertyIsEnumerable";
    "toLocaleString"; "toString"; "valueOf"; "__proto__";
    "__defineGetter__"; "__defineSetter__"; "__lookupGetter__"; "__lookupSetter__" ].

(** [endpoints[network] || endpoints['devnet']], as the [for ... of] loop
    can use it: [None] when the value is not iterable, which is the case
    when neither key is present and when [network] names a property that
    the object literal inherits from [Object.prototype]. *)
Definition select_endpoints (endpoints : gmap string (list string)) (net : string)
    : option (list string) :=
  match endpoints !! net with
  | Some l => Some l
  | None =>
      if bool_decide (net ∈ Object_prototype_keys) then None
      else endpoints !! "devnet"
  end.

Record Connection := { rpcEndpoint : string; commitment : string }.

(** [new Connection(endpoint, commitment)] refuses a URL that does not match
    [/^https?:/]. *)
Definition Connection_new (endpoint commitment : string) : Outcome Connection :=
  if String.prefix "http:" endpoint || String.prefix "https:" endpoint
  then Returned {| rpcEndpoint := endpoint; commitment := commitment |}
  else Thrown "Endpoint URL must start with `http:` or `https:`.".

Section Calls.
Context {X : Type}.
Variable remote : Remote.

(** [await connection.method(...)] on the connection held in a variable
    that may still be [null]. *)
Definition rpc {A} (conn : option Connection) (method : string) (c : RpcCall)
    (reply : nat -> string -> Outcome A) : M (X * World) A :=
  fun '(x, w) =>
    match conn with
    | None =>
        (Thrown ("Cannot read properties of null (reading '" +:+ method +:+ "')"), (x, w))
    | Some cn =>
        let n := List.length (calls w) in
        (reply n (rpcEndpoint cn),
         (x, record_call (rpcEndpoint cn) c (elapsed remote n) w))
    end.

(** [Date.now()] *)
Definition Date_now : M (X * World) Z := fun '(x, w) => (Returned (clock w), (x, w)).

Definition this : M (X * World) X := fun '(x, w) => (Returned x, (x, w)).
Definition update (f : X -> X) : M (X * World) unit := fun '(x, w) => (Returned tt, (f x, w)).
End Calls.

(** ** solana-api.js: the [SolanaAPI] singleton *)

Module SolanaAPI.

Record t := {
  connection : option Connection;
  network : string;
  connected : bool;
  lastConnectionCheck : Z
}.

Definition set_connection (c : option Connection) (a : t) : t :=
  {| connection := c; network := network a; connected := connected a;
     lastConnectionCheck := lastConnectionCheck a |}.
Definition set_connected (b : bool) (a : t) : t :=
  {| connection := connection a; network := network a; connected := b;
     lastConnectionCheck := lastConnectionCheck a |}.
Definition set_lastConnectionCheck (z : Z) (a : t) : t :=
  {| connection := connection a; network := network a; connected := connected a;
     lastConnectionCheck := z |}.

(** The fields the constructor sets before it starts [initConnection]. *)
Definition constructor : t :=
  {| connection := None;
     network := "mainnet-beta";
     connected := false;
     lastConnectionCheck := 0 |}.

Section Methods.
Variable cfg : Config.
Variable remote : Remote.
Variable sdk : Sdk.

#[local] Abbreviation State := (t * World)%type.

(** [config.solana.endpoints[network] || config.solana.endpoints['devnet']] *)
Definition endpoints_for (net : string) : option (list string) :=
  select_endpoints (cfg_endpoints (solana cfg)) net.

(** [await this.connection.method(...)] *)
Definition call {A} (method : string) (c : RpcCall)
    (reply : nat -> string -> Outcome A) : M State A :=
  let* self := this in rpc remote (connection self) method c reply.

(** One turn of the loop of [initConnection]; [true] is [break]. *)
Definition try_endpoint (endpoint : string) : M State bool :=
  try_catch
    (let* c := lift (Connection_new endpoint (cfg_commitment (solana cfg))) in
     do update (set_connection (Some c)) then
     let* _ := call "getSlot" getSlot (r_getSlot remote) in
     do update (set_connected true) then
     let* now := Date_now in
     do update (set_lastConnectionCheck now) then
     ret true)
    (fun _ => ret false).

Fixpoint connect_loop (endpoints : list string) : M State unit :=
  match endpoints with
  | [] => ret tt
  | endpoint :: rest =>
      let* stop := try_endpoint endpoint in
      if stop then ret tt else connect_loop rest
  end.

Definition initConnection : M State unit :=
  let* self := this in
  match endpoints_for (network self) with
  | Some endpoints => connect_loop endpoints
  | None => throw "endpoints is not iterable"
  end.

Definition checkConnectionHealth : M State unit :=
  let* now := Date_now in
  let* self := this in
  if now - lastConnectionCheck self <? 10000 then ret tt
  else
    do try_catch
         (let* _ := call "getSlot" getSlot (r_getSlot remote) in
          update (set_connected true))
         (fun _ =>
            do update (set_connected false) then
            initConnection) then
    let* now' := Date_now in
    update (set_lastConnectionCheck now').

(** [blockTime ? new Date(blockTime * 1000).toISOString() : null] *)
Definition isoOrNull (blockTime : option Z) : Outcome Json :=
  match blockTime with
  | Some bt =>
      if truthy (jnum bt)
      then match toISOString sdk (Nmul (num bt) (num 1000)) with
           | Returned s => Returned (JStr s)
           | Thrown m => Thrown m
           end
      else Returned JNull
  | None => Returned JNull
  end.

Definition optnum (o : option Z) : Json :=
  match o with Some z => jnum z | None => JNull end.

(** The four blocks of [getNetworkStatus] that have a [try] of their own:
    the value each leaves in its variables. *)
Definition queryVersion : M State Json :=
  try_catch (call "getVersion" getVersion (r_getVersion remote))
            (fun _ => ret JNull).

Definition querySlotAndTime : M State (option Z * option Z) :=
  try_catch
    (let* slot := call "getSlot" getSlot (r_getSlot remote) in
     if truthy (jnum slot) then
       let* blockTime :=
         try_catch
           (call "getBlockTime" (getBlockTime slot)
              (fun n e => r_getBlockTime remote n e slot))
           (fun _ => ret None) in
       ret (Some slot, blockTime)
     else ret (Some slot, None))
    (fun _ => ret (None, None)).

Definition queryHealth : M State Json :=
  try_catch (let* h := call "getHealth" getHealth (r_getHealth remote) in
             ret (JStr h))
            (fun _ => ret (JStr "unknown")).

Definition querySupply : M State (Json * Json) :=
  try_catch
    (let* info := call "getSupply" getSupply (r_getSupply remote) in
     ret (JNum (Ndiv (num (fst info)) LAMPORTS_PER_SOL),
          JNum (Ndiv (num (snd info)) LAMPORTS_PER_SOL)))
    (fun _ => ret (jnum 0, jnum 0)).

Definition getNetworkStatus : M State Json :=
  try_catch
    (let* self := this in
     let* giveUp :=
       (if negb (connected self) then
          do initConnection then
          let* self := this in
          ret (negb (connected self))
        else ret false) in
     let* self := this in
     if giveUp : bool then
       ret (obj [ ("network", JStr (network self));
                  ("connected", JBool false);
                  ("error", JStr "Failed to connect to Solana network") ])
     else
       let* version := queryVersion in
       let* slotTime := querySlotAndTime in
       let* health := queryHealth in
       let* supply := querySupply in
       let* self := this in
       let* blockTime := lift (isoOrNull (snd slotTime)) in
       ret (obj [ ("network", JStr (network self));
                  ("connected", JBool (connected self));
                  ("version", version);
                  ("currentSlot", optnum (fst slotTime));
                  ("blockTime", blockTime);
                  ("health", health);
                  ("totalSupply", fst supply);
                  ("circulatingSupply", snd supply) ]))
    (fun message =>
       let* self := this in
       ret (obj [ ("network", JStr (network self));
                  ("connected", JBool (connected self));
                  ("error", JStr ("Failed to get complete network status: " +:+ message)) ])).

Definition getBalance (address : string) : M State Json :=
  try_catch
    (let* pubkey := lift (PublicKey_new address) in
     let* balance := call "getBalance" (getBalance pubkey)
                       (fun n e => r_getBalance remote n e pubkey) in
     ret (obj [ ("address", JStr address);
                ("balanceInLamports", jnum balance);
                ("balanceInSol", JNum (Ndiv (num balance) LAMPORTS_PER_SOL)) ]))
    (fun message => throw ("Failed to get balance: " +:+ message)).

Definition getAccountInfo (address : string) : M State Json :=
  try_catch
    (let* pubkey := lift (PublicKey_new address) in
     let* accountInfo := call "getAccountInfo" (getAccountInfo pubkey)
                           (fun n e => r_getAccountInfo remote n e pubkey) in
     match accountInfo with
     | None => ret (obj [ ("exists", JBool false); ("address", JStr address) ])
     | Some info =>
         ret (obj [ ("exists", JBool true);
                    ("address", JStr address);
                    ("owner", JStr (toBase58 (owner info)));
                    ("lamports", jnum (lamports info));
                    ("sol", JNum (Ndiv (num (lamports info)) LAMPORTS_PER_SOL));
                    ("executable", JBool (executable info));
                    ("rentEpoch", jnum (rentEpoch info));
                    ("dataSize", jnum (data_length info)) ])
     end)
    (fun message => throw ("Failed to get account info: " +:+ message)).

Definition sigJson (sig : SigInfo) : Outcome Json :=
  match isoOrNull (sig_blockTime sig) with
  | Returned blockTime =>
      Returned (obj [ ("signature", JStr (sig_signature sig));
                      ("slot", jnum (sig_slot sig));
                      ("blockTime", blockTime);
                      ("err", sig_err sig);
                      ("memo", sig_memo sig);
                      ("confirmationStatus", sig_confirmationStatus sig) ])
  | Thrown m => Thrown m
  end.

(** [signatures.map(f)] for an [f] that may throw. *)
Fixpoint mapOutcome {A B} (f : A -> Outcome B) (l : list A) : Outcome (list B) :=
  match l with
  | [] => Returned []
  | a :: l' =>
      match f a with
      | Returned b =>
          match mapOutcome f l' with
          | Returned bs => Returned (b :: bs)
          | Thrown m => Thrown m
          end
      | Thrown m => Thrown m
      end
  end.

(** [getTransactions(address, limit = 10)] *)
Definition getTransactions (address : string) (limit : Json) : M State Json :=
  let limit := match limit with JUndefined => jnum 10 | _ => limit end in
  try_catch
    (let* pubkey := lift (PublicKey_new address) in
     let* signatures :=
       call "getSignaturesForAddress" (getSignaturesForAddress pubkey limit)
         (fun n e => r_getSignaturesForAddress remote n e pubkey limit) in
     let* rows := lift (mapOutcome sigJson signatures) in
     ret (JArr rows))
    (fun message => throw ("Failed to get transactions: " +:+ message)).

(** [bs58.decode(privateKey)] *)
Definition decodeKey (privateKey : string) : Outcome (list Z) :=
  match bs58_decode privateKey with
  | Some bytes => Returned bytes
  | None => Thrown "Non-base58 character"
  end.

Definition transferSol (fromAddress toAddress : string) (amount : Number)
    (privateKey : string) : M State Json :=
  try_catch
    (let* fromPubkey := lift (PublicKey_new fromAddress) in
     let* toPubkey := lift (PublicKey_new toAddress) in
     let lamports := Nmul amount (num LAMPORTS_PER_SOL) in
     let* secretKey := lift (decodeKey privateKey) in
     let* fromKeypair := lift (Keypair_fromSecretKey sdk secretKey) in
     if negb (String.eqb (toBase58 (publicKey fromKeypair)) fromAddress)
     then throw "Private key does not match sender address"
     else
       do lift (SystemProgram_transfer sdk fromPubkey toPubkey lamports) then
       let* latest := call "getLatestBlockhash" getLatestBlockhash
                        (r_getLatestBlockhash remote) in
       let tx := {| tx_from := fromPubkey; tx_to := toPubkey; tx_lamports := lamports;
                    tx_recentBlockhash := Some (fst latest);
                    tx_feePayer := Some fromPubkey;
                    tx_signers := [publicKey fromKeypair] |} in
       do lift (signAndSerialize sdk tx) then
       let* signature := call "sendRawTransaction" (sendRawTransaction tx)
                           (fun n e => r_send remote n e tx) in
       do call "confirmTransaction" (confirmTransaction signature)
            (fun n e => r_confirmTransaction remote n e signature) then
       ret (obj [ ("success", JBool true);
                  ("signature", JStr signature);
                  ("from", JStr fromAddress);
                  ("to", JStr toAddress);
                  ("amount", JNum amount);
                  ("lamports", JNum lamports) ]))
    (fun message => throw ("Failed to transfer SOL: " +:+ message)).

(** [Keypair.generate()] *)
Definition generate : M State Keypair :=
  fun '(x, w) => (Returned (Keypair_generate sdk (generated w)), (x, next_keypair w)).

Definition createWallet : M State Json :=
  try_catch
    (let* keypair := generate in
     ret (obj [ ("publicKey", JStr (toBase58 (publicKey keypair)));
                ("privateKey", JStr (bs58_encode (secretKey keypair))) ]))
    (fun message => throw ("Failed to create wallet: " +:+ message)).
End Methods.
End SolanaAPI.

(** ** solana.js: [initialize] and the functions it returns *)

Module Legacy.

(** The module-level variables [connection] and [network]. *)
Record t := {
  connection : option Connection;
  network : string
}.

Definition boot : t := {| connection := None; network := "devnet" |}.

Definition set_connection (c : option Connection) (a : t) : t :=
  {| connection := c; network := network a |}.
Definition set_network (n : string) (a : t) : t :=
  {| connection := connection a; network := n |}.

Definition rpcEndpoints (env : gmap string string) : gmap string (list string) :=
  list_to_map
    [ ("mainnet-beta",
       [ env_or env "MAINNET_RPC_URL" "https://api.mainnet-beta.solana.com";
         "https://solana-api.projectserum.com";
         "https://rpc.ankr.com/solana" ]);
      ("devnet",
       [ env_or env "DEVNET_RPC_URL" "https://api.devnet.solana.com";
         "https://devnet.genesysgo.net" ]);
      ("testnet",
       [ env_or env "TESTNET_RPC_URL" "https://api.testnet.solana.com" ]);
      ("localnet", [ "http://localhost:8899" ]) ].

Section Functions.
Variable env : gmap string string.
Variable remote : Remote.
Variable sdk : Sdk.

#[local] Abbreviation State := (t * World)%type.

(** The locals [connected] and [connectionError] of [initialize]. *)
Record Locals := { connected : bool; connectionError : option string }.

(** A promise callback waiting to run. *)
Definition Callback : Type := Locals -> Locals.

(** [connection.getSlot().then(...).catch(...)]: the request is sent and the
    promise is not awaited.  The reply decides which of the two callbacks
    will run, and it runs only after the synchronous code of [initialize]
    has returned. *)
Definition send_probe (c : Connection) : M State Callback :=
  fun '(x, w) =>
    let n := List.length (calls w) in
    (Returned
       (fun l =>
          match r_getSlot remote n (rpcEndpoint c) with
          | Returned _ => {| connected := true; connectionError := connectionError l |}
          | Thrown m => {| connected := connected l; connectionError := Some m |}
          end),
     (x, record_call (rpcEndpoint c) getSlot 0 w)).

(** The loop of [initialize]: the locals as the loop leaves them and the
    callbacks it has queued, oldest first. *)
Fixpoint connect_loop (l : Locals) (queue : list Callback) (endpoints : list string)
    : M State (Locals * list Callback) :=
  match endpoints with
  | [] => ret (l, queue)
  | endpoint :: rest =>
      if connected l then ret (l, queue)
      else
        let* step :=
          try_catch
            (let* c := lift (Connection_new endpoint "confirmed") in
             do update (set_connection (Some c)) then
             let* cb := send_probe c in
             ret (l, (queue ++ [cb])%list))
            (fun message =>
               ret ({| connected := connected l; connectionError := Some message |}, queue)) in
        connect_loop (fst step) (snd step) rest
  end.

(** [initialize(networkName = process.env.SOLANA_NETWORK || 'devnet')] up to
    the definition of the functions it returns; [None] is a call without
    argument.  The result is the queue of callbacks still to run. *)
Definition initialize (networkName : option string) : M State (Locals * list Callback) :=
  let networkName := default (env_or env "SOLANA_NETWORK" "devnet") networkName in
  do update (set_network (if String.eqb networkName "" then "devnet" else networkName)) then
  let* self := this in
  match select_endpoints (rpcEndpoints env) (network self) with
  | Some endpoints =>
      connect_loop {| connected := false; connectionError := None |} [] endpoints
  | None => throw "endpoints is not iterable"
  end.

(** The locals once every queued callback has run. *)
Definition settle (r : Locals * list Callback) : Locals :=
  fold_left (fun l (cb : Callback) => cb l) (snd r) (fst r).

Definition call {A} (method : string) (c : RpcCall)
    (reply : nat -> string -> Outcome A) : M State A :=
  let* self := this in rpc remote (connection self) method c reply.

Definition getNetworkStatus : M State Json :=
  try_catch
    (let* version := call "getVersion" getVersion (r_getVersion remote) in
     let* slot := call "getSlot" getSlot (r_getSlot remote) in
     let* blockTime := call "getBlockTime" (getBlockTime slot)
                         (fun n e => r_getBlockTime remote n e slot) in
     let* supply := call "getSupply" getSupply (r_getSupply remote) in
     let* iso := lift (toISOString sdk (Nmul (num (default 0 blockTime)) (num 1000))) in
     let* self := this in
     ret (obj [ ("network", JStr (network self));
                ("version", version);
                ("currentSlot", jnum slot);
                ("blockTime", JStr iso);
                ("totalSupply", JNum (Ndiv (num (fst supply)) LAMPORTS_PER_SOL));
                ("circulatingSupply", JNum (Ndiv (num (snd supply)) LAMPORTS_PER_SOL)) ]))
    (fun message => throw ("Failed to get network status: " +:+ message)).

Definition getBalance (address : string) : M State Json :=
  try_catch
    (let* pubkey := lift (PublicKey_new address) in
     let* balance := call "getBalance" (getBalance pubkey)
                       (fun n e => r_getBalance remote n e pubkey) in
     ret (obj [ ("address", JStr address);
                ("balanceInLamports", jnum balance);
                ("balanceInSol", JNum (Ndiv (num balance) LAMPORTS_PER_SOL)) ]))
    (fun message => throw ("Failed to get balance: " +:+ message)).

(** [getTransactions(address, limit = 10)] *)
Definition getTransactions (address : string) (limit : Json) : M State Json :=
  let limit := match limit with JUndefined => jnum 10 | _ => limit end in
  try_catch
    (let* pubkey := lift (PublicKey_new address) in
     let* transactions :=
       call "getSignaturesForAddress" (getSignaturesForAddress pubkey limit)
         (fun n e => r_getSignaturesForAddress remote n e pubkey limit) in
     let* rows := lift (SolanaAPI.mapOutcome (SolanaAPI.sigJson sdk) transactions) in
     ret (JArr rows))
    (fun message => throw ("Failed to get transactions: " +:+ message)).

Definition getAccountInfo (address : string) : M State Json :=
  try_catch
    (let* pubkey := lift (PublicKey_new address) in
     let* accountInfo := call "getAccountInfo" (getAccountInfo pubkey)
                           (fun n e => r_getAccountInfo remote n e pubkey) in
     match accountInfo with
     | None => ret (obj [ ("exists", JBool false); ("address", JStr address) ])
     | Some info =>
         ret (obj [ ("exists", JBool true);
                    ("address", JStr address);
                    ("owner", JStr (toBase58 (owner info)));
                    ("lamports", jnum (lamports info));
                    ("sol", JNum (Ndiv (num (lamports info)) LAMPORTS_PER_SOL));
                    ("executable", JBool (executable info));
                    ("rentEpoch", jnum (rentEpoch info));
                    ("dataSize", jnum (data_length info)) ])
     end)
    (fun message => throw ("Failed to get account info: " +:+ message)).

(** [web3.sendAndConfirmTransaction(connection, transaction, signers)]: the
    submission and the wait for its confirmation. *)
Definition sendAndConfirmTransaction (tx : Tx) : M State string :=
  let* signature := call "sendTransaction" (sendTransaction tx)
                      (fun n e => r_send remote n e tx) in
  do call "confirmTransaction" (confirmTransaction signature)
       (fun n e => r_confirmTransaction remote n e signature) then
  ret signature.

Definition transferSol (fromAddress toAddress : string) (amount : Number)
    (privateKey : string) : M State Json :=
  try_catch
    (let* fromPubkey := lift (PublicKey_new fromAddress) in
     let* toPubkey := lift (PublicKey_new toAddress) in
     let lamports := Nmul amount (num LAMPORTS_PER_SOL) in
     let* secretKey := lift (SolanaAPI.decodeKey privateKey) in
     let* fromKeypair := lift (Keypair_fromSecretKey sdk secretKey) in
     if negb (String.eqb (toBase58 (publicKey fromKeypair)) fromAddress)
     then throw "Private key does not match sender address"
     else
       do lift (SystemProgram_transfer sdk fromPubkey toPubkey lamports) then
       let* latest := call "getLatestBlockhash" getLatestBlockhash
                        (r_getLatestBlockhash remote) in
       let tx := {| tx_from := fromPubkey; tx_to := toPubkey; tx_lamports := lamports;
                    tx_recentBlockhash := Some (fst latest);
                    tx_feePayer := Some fromPubkey;
                    tx_signers := [publicKey fromKeypair] |} in
       let* signature := sendAndConfirmTransaction tx in
       ret (obj [ ("success", JBool true);
                  ("signature", JStr signature);
                  ("from", JStr fromAddress);
                  ("to", JStr toAddress);
                  ("amount", JNum amount);
                  ("lamports", JNum lamports) ]))
    (fun message => throw ("Failed to transfer SOL: " +:+ message)).

End Functions.
End Legacy.

(** ** mcp.js: the dispatcher behind the WebSocket channel and
    [POST /api/mcp/execute] *)

(** The parameters of a request.  Addresses and keys are strings when
    present, and an amount is a number; [limit] is any JSON value. *)
Record Parameters := {
  p_address : option string;
  p_limit : Json;
  p_from : option string;
  p_to : option string;
  p_amount : option Number;
  p_privateKey : option string
}.

Record Request := {
  action : option string;
  parameters : option Parameters;
  requestId : Json
}.

(** [!!x] for a string that may be absent, and for a number that may be. *)
Definition given (o : option string) : bool :=
  match o with Some s => negb (String.eqb s "") | None => false end.

Definition givenNumber (o : option Number) : bool :=
  match o with Some n => truthy (JNum n) | None => false end.

Definition optstr (o : option string) : Json :=
  match o with Some s => JStr s | None => JUndefined end.

(** [parameters?.field] *)
Definition param {A} (r : Request) (f : Parameters -> option A) : option A :=
  match parameters r with Some p => f p | None => None end.

Definition param_limit (r : Request) : Json :=
  match parameters r with Some p => p_limit p | None => JUndefined end.

(** [Math.round] *)
Definition Nround (x : Number) : Number :=
  match x with
  | Fin q => num (Qfloor (q + (1 # 2)))
  | NaN => NaN
  end.

Module Mcp.
Section Tools.
Variable remote : Remote.
Variable sdk : Sdk.

#[local] Abbreviation State := (Legacy.t * World)%type.

Definition tokenAccountJson (a : TokenAccount) : Json :=
  obj [ ("pubkey", JStr (toBase58 (ta_pubkey a)));
        ("mint", JStr (ta_mint a));
        ("owner", JStr (ta_owner a));
        ("amount", ta_uiAmount a);
        ("decimals", jnum (ta_decimals a)) ].

Definition generate : M State Keypair :=
  fun '(x, w) => (Returned (Keypair_generate sdk (generated w)), (x, next_keypair w)).

Definition processRequest (request : Request) : M State Json :=
  match action request with
  | None => throw "Missing action parameter"
  | Some act =>
    if String.eqb act "" then throw "Missing action parameter"
    else if String.eqb act "getNetworkStatus" then
      Legacy.getNetworkStatus remote sdk
    else if String.eqb act "getBalance" then
      match param request p_address with
      | Some address =>
          if negb (given (Some address)) then throw "Missing address parameter"
          else
            let* balance := Legacy.getBalance remote address in
            ret (obj [ ("action", JStr act); ("address", JStr address); ("balance", balance) ])
      | None => throw "Missing address parameter"
      end
    else if String.eqb act "getTransactions" then
      match param request p_address with
      | Some address =>
          if negb (given (Some address)) then throw "Missing address parameter"
          else
            let* transactions :=
              Legacy.getTransactions remote sdk address
                (js_or (param_limit request) (jnum 10)) in
            ret (obj [ ("action", JStr act); ("address", JStr address);
                       ("transactions", transactions) ])
      | None => throw "Missing address parameter"
      end
    else if String.eqb act "createWallet" then
      let* keypair := generate in
      ret (obj [ ("action", JStr act);
                 ("publicKey", JStr (toBase58 (publicKey keypair)));
                 ("privateKey", JStr (bs58_encode (secretKey keypair))) ])
    else if String.eqb act "transferSol" then
      match param request p_from, param request p_to,
            param request p_amount, param request p_privateKey with
      | Some from, Some to, Some amount, Some privateKey =>
          if negb (given (Some from) && given (Some to) &&
                   givenNumber (Some amount) && given (Some privateKey))
          then throw "Missing required parameters for transfer"
          else
            try_catch
              (let lamports := Nround (Nmul amount (num 1000000000)) in
               let* secretKey := lift (SolanaAPI.decodeKey privateKey) in
               let* fromKeypair := lift (Keypair_fromSecretKey sdk secretKey) in
               let* toPublicKey := lift (PublicKey_new to) in
               do lift (SystemProgram_transfer sdk (publicKey fromKeypair) toPublicKey lamports) then
               let tx := {| tx_from := publicKey fromKeypair; tx_to := toPublicKey;
                            tx_lamports := lamports;
                            tx_recentBlockhash := None;
                            tx_feePayer := None;
                            tx_signers := [publicKey fromKeypair] |} in
               let* signature := Legacy.call remote "sendTransaction" (sendTransaction tx)
                                   (fun n e => r_send remote n e tx) in
               do Legacy.call remote "confirmTransaction" (confirmTransaction signature)
                    (fun n e => r_confirmTransaction remote n e signature) then
               ret (obj [ ("action", JStr act);
                          ("success", JBool true);
                          ("signature", JStr signature);
                          ("message",
                           JStr ("Transferred " +:+ toText sdk (JNum amount) +:+ " SOL from "
                                 +:+ toBase58 (publicKey fromKeypair) +:+ " to " +:+ to)) ]))
              (fun message => throw ("Transfer failed: " +:+ message))
      | _, _, _, _ => throw "Missing required parameters for transfer"
      end
    else if String.eqb act "getAccountInfo" then
      match param request p_address with
      | Some address =>
          if negb (given (Some address)) then throw "Missing address parameter"
          else
            try_catch
              (let* pubkey := lift (PublicKey_new address) in
               let* accountInfo := Legacy.call remote "getAccountInfo" (getAccountInfo pubkey)
                                     (fun n e => r_getAccountInfo remote n e pubkey) in
               let* balance := Legacy.getBalance remote address in
               ret (obj [ ("action", JStr act);
                          ("address", JStr address);
                          ("balance", balance);
                          ("exists", JBool (bool_decide (is_Some accountInfo)));
                          ("executable",
                           match accountInfo with
                           | Some info => JBool (executable info) | None => JNull end);
                          ("owner",
                           match accountInfo with
                           | Some info => JStr (toBase58 (owner info)) | None => JNull end);
                          ("rentEpoch",
                           match accountInfo with
                           | Some info => jnum (rentEpoch info) | None => JNull end);
                          ("dataSize",
                           match accountInfo with
                           | Some info => jnum (data_length info) | None => JNull end) ]))
              (fun message => throw ("Failed to get account info: " +:+ message))
      | None => throw "Missing address parameter"
      end
    else if String.eqb act "getTokenAccounts" then
      match param request p_address with
      | Some address =>
          if negb (given (Some address)) then throw "Missing address parameter"
          else
            try_catch
              (let* pubkey := lift (PublicKey_new address) in
               let* tokenAccounts :=
                 Legacy.call remote "getParsedTokenAccountsByOwner"
                   (getParsedTokenAccountsByOwner pubkey)
                   (fun n e => r_getParsedTokenAccountsByOwner remote n e pubkey) in
               ret (obj [ ("action", JStr act);
                          ("address", JStr address);
                          ("tokenAccounts", JArr (map tokenAccountJson tokenAccounts)) ]))
              (fun message => throw ("Failed to get token accounts: " +:+ message))
      | None => throw "Missing address parameter"
      end
    else throw ("Unsupported action: " +:+ act)
  end.

(** [handleWebSocketMessage(ws, message)]: the value given to [ws.send]. *)
Definition handleWebSocketMessage (message : Request) : M State Json :=
  try_catch
    (let* response := processRequest message in
     ret (obj [ ("type", JStr "response");
                ("requestId", requestId message);
                ("data", response) ]))
    (fun error =>
       ret (obj [ ("type", JStr "error");
                  ("requestId", requestId message);
                  ("error", JStr error) ])).

End Tools.
End Mcp.

(** ** routes.js: the HTTP front-end *)

Record Response := { status : Z; body : Json }.

Definition json (b : Json) : Response := {| status := 200; body := b |}.
Definition failure (code : Z) (message : string) : Response :=
  {| status := code; body := obj [ ("error", JStr message) ] |}.

Module Routes.
Section Handlers.
Variable remote : Remote.
Variable sdk : Sdk.

#[local] Abbreviation State := (Legacy.t * World)%type.

(** [new PublicKey(address)] inside its own [try]. *)
Definition validAddress (address : string) : bool :=
  match PublicKey_new address with Returned _ => true | Thrown _ => false end.

(** [GET /health] *)
Definition health : M State Response :=
  ret (json (obj [ ("status", JStr "healthy") ])).

(** [GET /api/network] *)
Definition network : M State Response :=
  try_catch
    (let* networkStatus := Legacy.getNetworkStatus remote sdk in ret (json networkStatus))
    (fun message => ret (failure 500 message)).

(** [GET /api/balance/:address] *)
Definition balance (address : string) : M State Response :=
  try_catch
    (if negb (validAddress address) then ret (failure 400 "Invalid Solana address")
     else
       let* balance := Legacy.getBalance remote address in
       ret (json (obj [ ("address", JStr address); ("balance", balance) ])))
    (fun message => ret (failure 500 message)).

(** [GET /api/transactions/:address?limit=N]; [limit] is the text of the
    query parameter, [None] when the query has none. *)
Definition transactions (address : string) (limit : option string) : M State Response :=
  try_catch
    (let limit := js_or (JNum (parseInt (default "undefined" limit))) (jnum 10) in
     if negb (validAddress address) then ret (failure 400 "Invalid Solana address")
     else
       let* transactions := Legacy.getTransactions remote sdk address limit in
       ret (json (obj [ ("address", JStr address); ("transactions", transactions) ])))
    (fun message => ret (failure 500 message)).

(** [POST /api/wallet/create] *)
Definition walletCreate : M State Response :=
  try_catch
    (let* keypair := Mcp.generate sdk in
     ret (json (obj [ ("publicKey", JStr (toBase58 (publicKey keypair)));
                      ("privateKey", JStr (bs58_encode (secretKey keypair))) ])))
    (fun message => ret (failure 500 message)).

(** [POST /api/transfer] *)
Definition transfer (reqBody : Parameters) : M State Response :=
  try_catch
    (match p_from reqBody, p_to reqBody, p_amount reqBody, p_privateKey reqBody with
     | Some from, Some to, Some amount, Some privateKey =>
         if negb (given (Some from) && given (Some to) &&
                  givenNumber (Some amount) && given (Some privateKey))
         then ret (failure 400 "Missing required parameters")
         else if negb (validAddress from && validAddress to)
         then ret (failure 400 "Invalid Solana address")
         else if match amount with
                 | Fin q => Qle_bool q (inject_Z 0)
                 | NaN => true
                 end
         then ret (failure 400 "Invalid amount")
         else
           let* result := Legacy.transferSol remote sdk from to amount privateKey in
           ret (json result)
     | _, _, _, _ => ret (failure 400 "Missing required parameters")
     end)
    (fun message => ret (failure 500 message)).

(** [{ address, ...accountInfo }] *)
Definition withAddress (address : string) (accountInfo : Json) : Json :=
  match accountInfo with
  | JObj m => JObj (m ∪ {[ "address" := JStr address ]})
  | _ => obj [ ("address", JStr address) ]
  end.

(** [GET /api/account/:address] *)
Definition account (address : string) : M State Response :=
  try_catch
    (if negb (validAddress address) then ret (failure 400 "Invalid Solana address")
     else
       let* accountInfo := Legacy.getAccountInfo remote address in
       ret (json (withAddress address accountInfo)))
    (fun message => ret (failure 500 message)).

(** [POST /api/mcp/execute] *)
Definition execute (reqBody : Request) : M State Response :=
  try_catch
    (let* result := Mcp.processRequest remote sdk reqBody in ret (json result))
    (fun message => ret (failure 500 message)).

End Handlers.
End Routes.

(** ** mcp-server-new.js: the stdio tools *)

(** What a tool call gives back: the SDK refuses arguments that do not fit
    the declared shape without running the handler; a handler answers with
    a text content, flagged [isError] when it caught an error. *)
Inductive ToolResult :=
| InvalidParams
| Content (payload : Json)
| IsError (text : string).

(** [z.string().min(lo).max(hi)] *)
Definition z_string (lo hi : nat) (v : Json) : option string :=
  match v with
  | JStr s =>
      if ((lo <=? String.length s) && (String.length s <=? hi))%nat then Some s else None
  | _ => None
  end.

(** [z.number().positive()] *)
Definition z_positive (v : Json) : option Number :=
  match v with
  | JNum (Fin q) => if Qle_bool q (inject_Z 0) then None else Some (Fin q)
  | _ => None
  end.

(** [z.number().int().positive().max(100).optional().default(10)] *)
Definition z_limit (v : Json) : option Json :=
  match v with
  | JUndefined => Some (jnum 10)
  | JNum (Fin q) =>
      if is_integer q && negb (Qle_bool q (inject_Z 0)) && Qle_bool q (inject_Z 100)
      then Some v else None
  | _ => None
  end.

Module Server.
Section Tools.
Variable cfg : Config.
Variable remote : Remote.
Variable sdk : Sdk.

#[local] Abbreviation State := (SolanaAPI.t * World)%type.

Definition tool_getNetworkStatus : M State ToolResult :=
  try_catch
    (let* status := SolanaAPI.getNetworkStatus cfg remote sdk in ret (Content status))
    (fun message => ret (IsError ("Error getting network status: " +:+ message))).

Definition tool_getBalance (args : Json) : M State ToolResult :=
  match z_string 32 44 (prop args "address") with
  | Some address =>
      try_catch
        (let* balance := SolanaAPI.getBalance remote address in ret (Content balance))
        (fun message => ret (IsError ("Error getting balance: " +:+ message)))
  | None => ret InvalidParams
  end.

Definition tool_getAccountInfo (args : Json) : M State ToolResult :=
  match z_string 32 44 (prop args "address") with
  | Some address =>
      try_catch
        (let* accountInfo := SolanaAPI.getAccountInfo remote address in
         ret (Content accountInfo))
        (fun message => ret (IsError ("Error getting account info: " +:+ message)))
  | None => ret InvalidParams
  end.

Definition tool_getTransactions (args : Json) : M State ToolResult :=
  match z_string 32 44 (prop args "address"), z_limit (prop args "limit") with
  | Some address, Some limit =>
      try_catch
        (let* transactions := SolanaAPI.getTransactions remote sdk address limit in
         ret (Content transactions))
        (fun message => ret (IsError ("Error getting transactions: " +:+ message)))
  | _, _ => ret InvalidParams
  end.

Definition tool_transferSol (args : Json) : M State ToolResult :=
  match z_string 32 44 (prop args "from"), z_string 32 44 (prop args "to"),
        z_positive (prop args "amount"), z_string 87 88 (prop args "privateKey") with
  | Some from, Some to, Some amount, Some privateKey =>
      try_catch
        (let* result := SolanaAPI.transferSol remote sdk from to amount privateKey in
         ret (Content result))
        (fun message => ret (IsError ("Error transferring SOL: " +:+ message)))
  | _, _, _, _ => ret InvalidParams
  end.

Definition tool_createWallet : M State ToolResult :=
  try_catch
    (let* wallet := SolanaAPI.createWallet sdk in ret (Content wallet))
    (fun message => ret (IsError ("Error creating wallet: " +:+ message))).

End Tools.
End Server.

(** ** pumpfun.js: [createPumpFunToken] *)

(** [process.env.K] *)
Definition env_get (env : gmap string string) (k : string) : Json :=
  match env !! k with Some v => JStr v | None => JUndefined end.

Module Pumpfun.
Section Token.
Variable env : gmap string string.
Variable sdk : Sdk.
(** [createToken(options)]: the minting flow against the metadata host, the
    trade API and the ledger.  Its body is one [try] whose [catch] returns
    an object, so it returns for every argument. *)
Variable createToken : Json -> World -> Json * World.

(** The image path resolved from the directory of the module, and the last
    operand of the [rpcUrl] alternative, which the published source leaves
    as a placeholder. *)
Variable DEFAULT_IMAGE_PATH : string.
Variable rpcUrlFallback : Json.

Definition hardcodedKey : string := "your private key".

(** [params.privateKey || process.env.PUMPFUN_PRIVATE_KEY || hardcodedKey] *)
Definition selectPrivateKey (params : Json) : Json :=
  js_or (js_or (prop params "privateKey") (env_get env "PUMPFUN_PRIVATE_KEY"))
        (JStr hardcodedKey).

(** [parseFloat(v) || d] and [parseInt(v) || d] *)
Definition floatOr (v : Json) (d : Q) : Json :=
  js_or (JNum (parseFloat sdk (toText sdk v))) (JNum (Fin d)).
Definition intOr (v : Json) (d : Z) : Json :=
  js_or (JNum (parseInt (toText sdk v))) (jnum d).

Definition tokenOptions (params privateKey : Json) (now : Z) : Json :=
  obj [ ("metadata",
         obj [ ("name", prop params "name");
               ("symbol", prop params "symbol");
               ("description",
                js_or (prop params "description")
                      (JStr ("Created via Solana MCP on " +:+ formatISO sdk now)));
               ("website", js_or (prop params "website") (JStr ""));
               ("twitter", js_or (prop params "twitter") (JStr ""));
               ("telegram", js_or (prop params "telegram") (JStr ""));
               ("showName", JStr "true") ]);
        ("privateKey", privateKey);
        ("imagePath", JStr DEFAULT_IMAGE_PATH);
        ("amount", floatOr (prop params "amount") (1 # 10));
        ("slippage", intOr (prop params "slippage") 10);
        ("priorityFee", floatOr (prop params "priorityFee") (5 # 10000));
        ("rpcUrl",
         js_or (js_or (prop params "rpcUrl") (env_get env "HELIUS_RPC_URL"))
               rpcUrlFallback) ].

(** [createPumpFunToken(params)] for the object [params] a caller passes. *)
Definition createPumpFunToken (fields : gmap string Json) : M World Json :=
  let params := JObj fields in
  try_catch
    (if negb (truthy (prop params "name")) || negb (truthy (prop params "symbol"))
     then throw "Missing required parameters: name and symbol must be provided"
     else
       let privateKey := selectPrivateKey params in
       if negb (truthy privateKey)
       then throw "No private key provided and PUMPFUN_PRIVATE_KEY not found in environment"
       else
         fun w =>
           let '(result, w') := createToken (tokenOptions params privateKey (clock w)) w in
           (Returned result, w'))
    (fun message => throw message).

End Token.
End Pumpfun.

(** ** The keypair helper: [getOrCreateKeypair] *)

Module Keys.
Section Helper.
Variable sdk : Sdk.

(** What [fs.writeFileSync] throws for a path on a file system, [None] when
    it writes: 'ENOTDIR' when a component of the path is a regular file,
    'ENOENT' when the folder of the path is missing, 'EACCES', ... *)
Variable writeError : string -> World -> option string.

Definition existsSync (path : string) (w : World) : bool :=
  bool_decide (path ∈ dirs w) || bool_decide (is_Some (files w !! path)).

(** [fs.mkdirSync(path, { recursive: true })] *)
Definition mkdirSync (path : string) (w : World) : World :=
  {| calls := calls w; clock := clock w; generated := generated w;
     files := files w; dirs := {[ path ]} ∪ dirs w |}.

Definition writeFileSync (path content : string) (w : World) : World :=
  {| calls := calls w; clock := clock w; generated := generated w;
     files := <[ path := content ]> (files w); dirs := dirs w |}.

(** [JSON.stringify] of an array of bytes. *)
Fixpoint joinBytes (l : list Z) : string :=
  match l with
  | [] => ""
  | [b] => pretty b
  | b :: l' => pretty b +:+ "," +:+ joinBytes l'
  end.
Definition JSON_stringify (bytes : list Z) : string := "[" +:+ joinBytes bytes +:+ "]".

(** The file system once [getOrCreateKeypair] has made sure of the folder. *)
Definition prepared (keysFolder : string) (w : World) : World :=
  if negb (existsSync keysFolder w) then mkdirSync keysFolder w else w.

Definition getOrCreateKeypair (keysFolder name : string) : M World Keypair :=
  fun w =>
    let keypairFile := path_resolve sdk keysFolder (name +:+ ".json") in
    let w1 := prepared keysFolder w in
    if existsSync keypairFile w1 then
      match files w1 !! keypairFile with
      | Some keypairString =>
          match JSON_parse sdk keypairString with
          | Returned keypairData => (Keypair_fromSecretKey sdk keypairData, w1)
          | Thrown m => (Thrown m, w1)
          end
      | None => (Thrown "EISDIR: illegal operation on a directory, read", w1)
      end
    else
      let keypair := Keypair_generate sdk (generated w1) in
      let keypairData := secretKey keypair in
      match writeError keypairFile (next_keypair w1) with
      | Some message => (Thrown message, next_keypair w1)
      | None =>
          (Returned keypair,
           writeFileSync keypairFile (JSON_stringify keypairData) (next_keypair w1))
      end.

End Helper.
End Keys.

(** ** Concrete remotes, SDK and worlds used to run the functions *)

Module Demo.

(** A remote whose [getSlot] answers when [up n e] holds for the [n]-th
    call, made on endpoint [e], and whose other methods answer when
    [serves n e] holds. *)
Definition remote (up serves : nat -> string -> bool) (account : option AccountInfo) : Remote :=
  {| r_getSlot := fun n e => if up n e then Returned 250 else Thrown "fetch failed";
     r_getVersion := fun n e =>
       if serves n e then Returned (obj [ ("solana-core", JStr "1.18.0") ])
       else Thrown "fetch failed";
     r_getBlockTime := fun n e _ =>
       if serves n e then Returned (Some 1700000000) else Thrown "fetch failed";
     r_getHealth := fun n e => if serves n e then Returned "ok" else Thrown "fetch failed";
     r_getSupply := fun n e =>
       if serves n e then Returned (5000000000, 4000000000) else Thrown "fetch failed";
     r_getBalance := fun n e _ =>
       if serves n e then Returned 2000000000 else Thrown "fetch failed";
     r_getAccountInfo := fun n e _ =>
       if serves n e then Returned account else Thrown "fetch failed";
     r_getSignaturesForAddress := fun n e _ _ =>
       if serves n e then Returned [] else Thrown "fetch failed";
     r_getLatestBlockhash := fun n e =>
       if serves n e then Returned ("blockhash", 300) else Thrown "fetch failed";
     r_send := fun n e _ => if serves n e then Returned "sig" else Thrown "fetch failed";
     r_confirmTransaction := fun n e _ =>
       if serves n e then Returned tt else Thrown "fetch failed";
     r_getParsedTokenAccountsByOwner := fun n e _ =>
       if serves n e then Returned [] else Thrown "fetch failed";
     elapsed := fun _ => 40 |}.

Definition always : nat -> string -> bool := fun _ _ => true.
Definition never : nat -> string -> bool := fun _ _ => false.

(** A remote that fails the first call made to it and answers the others. *)
Definition versionDown : Remote := remote always (fun n _ => negb (n =? 0)%nat) None.

(** An SDK that takes the last 32 bytes of a 64-byte secret key as the
    public key and generates the [n]-th key pair from the byte [n + 1]. *)
Definition sdk : Sdk :=
  {| Keypair_fromSecretKey := fun bytes =>
       if (List.length bytes =? 64)%nat
       then Returned {| publicKey := {| pk_bytes := skipn 32 bytes |}; secretKey := bytes |}
       else Thrown "bad secret key size";
     Keypair_generate := fun n =>
       {| publicKey := {| pk_bytes := repeat (Z.of_nat n + 1) 32 |};
          secretKey := (repeat 7 32 ++ repeat (Z.of_nat n + 1) 32)%list |};
     SystemProgram_transfer := fun _ _ _ => Returned tt;
     signAndSerialize := fun _ => Returned tt;
     formatISO := fun ms => pretty ms;
     toText := fun v => match v with JStr s => s | _ => "" end;
     parseFloat := fun _ => NaN;
     path_resolve := fun folder file => folder +:+ "/" +:+ file;
     JSON_parse := fun _ => Thrown "Unexpected token" |}.

Definition world : World :=
  {| calls := []; clock := 1000000; generated := 0; files := ∅; dirs := ∅ |}.

(** A minting flow that fails and reports the key it was given. *)
Definition createToken (options : Json) (w : World) : Json * World :=
  (obj [ ("success", JBool false); ("key", prop options "privateKey") ], w).

(** The address of the system program, and two key pairs of [sdk]. *)
Definition systemProgram : string := "11111111111111111111111111111111".

Definition aliceSecret : list Z := (repeat 7 32 ++ repeat 1 32)%list.
Definition bobSecret : list Z := (repeat 7 32 ++ repeat 2 32)%list.
Definition alice : string := bs58_encode (repeat 1 32).
Definition bob : string := bs58_encode (repeat 2 32).

(** A connection manager and a legacy module that hold a connection. *)
Definition mainnet : Connection :=
  {| rpcEndpoint := "https://api.mainnet-beta.solana.com"; commitment := "confirmed" |}.

Definition api : SolanaAPI.t :=
  {| SolanaAPI.connection := Some mainnet;
     SolanaAPI.network := "mainnet-beta";
     SolanaAPI.connected := true;
     SolanaAPI.lastConnectionCheck := 990000 |}.

Definition legacy : Legacy.t :=
  {| Legacy.connection := Some mainnet; Legacy.network := "mainnet-beta" |}.

End Demo.

(** ** Vocabulary of the properties *)

(** The liveness probe of a candidate, as the list of calls records it. *)
Definition probe_of (e : string) : string * RpcCall := (e, getSlot).

(** A URL the [Connection] constructor accepts. *)
Definition accepted (commitment e : string) : Prop :=
  Connection_new e commitment = Returned {| rpcEndpoint := e; commitment := commitment |}.

(** The probes of the candidates [pool], sent from call number [n] on, all
    fail. *)
Fixpoint allFail (remote : Remote) (n : nat) (pool : list string) : Prop :=
  match pool with
  | [] => True
  | e :: rest => (exists m, r_getSlot remote n e = Thrown m) /\ allFail remote (S n) rest
  end.

(** What [transferSol] reports when the key does not match: the mismatch,
    unless one of the two addresses is refused first. *)
Definition mismatchCause (fromAddress toAddress : string) : string :=
  match PublicKey_new fromAddress, PublicKey_new toAddress with
  | Thrown m, _ => m
  | Returned _, Thrown m => m
  | Returned _, Returned _ => "Private key does not match sender address"
  end.

(** The request [transferSol] of mcp.js for a transfer of [amount] SOL. *)
Definition transferRequest (from to : string) (amount : Number) (privateKey : string)
    : Request :=
  {| action := Some "transferSol";
     parameters := Some {| p_address := None; p_limit := JUndefined;
                           p_from := Some from; p_to := Some to;
                           p_amount := Some amount; p_privateKey := Some privateKey |};
     requestId := JNull |}.

(** The transaction the dispatcher of mcp.js builds from the signing key. *)
Definition dispatchedTx (kp : Keypair) (toPk : PublicKey) (amount : Number) : Tx :=
  {| tx_from := publicKey kp; tx_to := toPk;
     tx_lamports := Nround (Nmul amount (num 1000000000));
     tx_recentBlockhash := None; tx_feePayer := None;
     tx_signers := [publicKey kp] |}.

(** A computation that leaves the file system as it found it. *)
Definition keepsFiles {X A} (c : M (X * World) A) : Prop :=
  forall s, files (snd (snd (c s))) = files (snd s) /\ dirs (snd (snd (c s))) = dirs (snd s).

(** A call that throws. *)
Definition fails {A} (o : Outcome A) : Prop := exists m, o = Thrown m.

(** The request [getAccountInfo] of mcp.js. *)
Definition accountRequest (address : string) : Request :=
  {| action := Some "getAccountInfo";
     parameters := Some {| p_address := Some address; p_limit := JUndefined;
                           p_from := None; p_to := None; p_amount := None;
                           p_privateKey := None |};
     requestId := JNull |}.

(** The object the handlers return for an account that does not exist. *)
Definition absent (address : string) : Json :=
  obj [ ("exists", JBool false); ("address", JStr address) ].

(** The two candidates of the devnet pool when no URL is configured. *)
Definition devnet1 : string := "https://api.devnet.solana.com".
Definition devnet2 : string := "https://devnet.genesysgo.net".

(** The three candidates of the mainnet-beta pool when no URL is configured. *)
Definition mainnet1 : string := "https://api.mainnet-beta.solana.com".
Definition mainnet2 : string := "https://solana-api.projectserum.com".
Definition mainnet3 : string := "https://rpc.ankr.com/solana".

(** ** The WebSocket server: the handler of [message] events *)

(** The [data] of an inbound message: absent, [null], or a value whose
    fields are read as a request (a number, a string or a boolean has
    none). *)
Inductive Payload :=
| Absent
| Null
| Fields (message : Request).

(** An inbound frame after [JSON.parse]: [Malformed] when parsing throws or
    gives [null] or [undefined], whose [type] cannot be read; otherwise the
    [type] of the message and its [data]. *)
Inductive Frame :=
| Malformed
| Parsed (type : Json) (data : Payload).

Module WebSocket.
Section Handler.
Variable remote : Remote.
Variable sdk : Sdk.

Definition unknownType : Json :=
  obj [ ("type", JStr "error"); ("message", JStr "Unknown message type") ].

Definition invalidFormat : Json :=
  obj [ ("type", JStr "error"); ("message", JStr "Invalid message format") ].

(** [handleWebSocketMessage(ws, parsedMessage.data)] as the handler of
    frames calls it.  On [undefined] and on [null] the dispatcher cannot
    read [action], and the [catch] of [handleWebSocketMessage] throws in its
    turn when it reads [message.requestId]: nothing is sent and the call
    rejects. *)
Definition dispatch (data : Payload) : M (Legacy.t * World) (list Json) :=
  match data with
  | Fields message =>
      let* reply := Mcp.handleWebSocketMessage remote sdk message in
      ret [reply]
  | Absent => throw "Cannot read properties of undefined (reading 'requestId')"
  | Null => throw "Cannot read properties of null (reading 'requestId')"
  end.

(** The messages given to [ws.send] while one frame is handled.  The call of
    [handleWebSocketMessage] is not awaited and has no rejection handler:
    when it rejects, the error is not caught by the [try] of the frame
    handler and escapes as an unhandled rejection, here [Thrown]. *)
Definition onMessage (frame : Frame) : M (Legacy.t * World) (list Json) :=
  match frame with
  | Malformed => ret [invalidFormat]
  | Parsed (JStr type) data =>
      if String.eqb type "subscribe" then ret []
      else if String.eqb type "mcp" then dispatch data
      else ret [unknownType]
  | Parsed _ _ => ret [unknownType]
  end.

End Handler.
End WebSocket.

(** A route that answers in every state with status 200, 400 or 500, and
    that has changed nothing, and so sent nothing, when it answers 400. *)
Definition answers (route : M (Legacy.t * World) Response) : Prop :=
  forall st, exists resp st',
    route st = (Returned resp, st') /\
    (status resp = 200 \/ status resp = 400 \/ status resp = 500) /\
    (status resp = 400 -> st' = st).

(** The actions the dispatcher of mcp.js has a case for. *)
Definition supportedActions : list string :=
  [ "getNetworkStatus"; "getBalance"; "getTransactions"; "createWallet";
    "transferSol"; "getAccountInfo"; "getTokenAccounts" ].

(** The actions that need [parameters.address]. *)
Definition addressActions : list string :=
  [ "getBalance"; "getTransactions"; "getAccountInfo"; "getTokenAccounts" ].

(** The error of a transfer signed with a key that is not the sender's. *)
Definition mismatchError : string :=
  "Failed to transfer SOL: Private key does not match sender address".

(** The arguments of the stdio tool [transferSol]. *)
Definition transferArgs (from to : string) (amount : Number) (privateKey : string) : Json :=
  obj [ ("from", JStr from); ("to", JStr to); ("amount", JNum amount);
        ("privateKey", JStr privateKey) ].

(** The body of [POST /api/transfer]. *)
Definition transferBody (from to : string) (amount : Number) (privateKey : string)
    : Parameters :=
  {| p_address := None; p_limit := JUndefined; p_from := Some from; p_to := Some to;
     p_amount := Some amount; p_privateKey := Some privateKey |}.

(** The remote calls of a transfer that is carried through, in their order:
    the fetch of a recent blockhash, the submission, the confirmation. *)
Definition transferSteps (e : string) (tx : Tx) (signature : string)
    : list (string * RpcCall) :=
  [ (e, getLatestBlockhash); (e, sendRawTransaction tx); (e, confirmTransaction signature) ].
(** ** mcp-server-new.js: the tool [createPumpFunToken] *)

(** [z.string().min(1)], [z.string().optional()] and
    [z.string().optional().default(d)] *)
Definition z_nonempty (v : Json) : option string :=
  match v with
  | JStr s => if (1 <=? String.length s)%nat then Some s else None
  | _ => None
  end.

Definition z_optional (v : Json) : option Json :=
  match v with
  | JStr _ | JUndefined => Some v
  | _ => None
  end.

Definition z_default (d : string) (v : Json) : option Json :=
  match v with
  | JStr _ => Some v
  | JUndefined => Some (JStr d)
  | _ => None
  end.

Module ServerToken.
Section Tool.
Variable env : gmap string string.
Variable sdk : Sdk.
Variable createToken : Json -> World -> Json * World.
Variable DEFAULT_IMAGE_PATH : string.
Variable rpcUrlFallback : Json.

(** The arguments after validation, with the defaults of the declared shape
    filled in; [None] when an argument does not fit. *)
Definition parse (args : Json) : option (gmap string Json) :=
  match z_nonempty (prop args "name"), z_nonempty (prop args "symbol"),
        z_default "" (prop args "description"),
        z_optional (prop args "imagePath"), z_optional (prop args "imageBase64"),
        z_optional (prop args "twitter"), z_optional (prop args "telegram"),
        z_optional (prop args "website"),
        z_default "0.1" (prop args "amount"), z_default "10" (prop args "slippage"),
        z_default "0.0005" (prop args "priorityFee"),
        z_optional (prop args "privateKey") with
  | Some name, Some symbol, Some description, Some imagePath, Some imageBase64,
    Some twitter, Some telegram, Some website, Some amount, Some slippage,
    Some priorityFee, Some privateKey =>
      Some (list_to_map
              [ ("name", JStr name); ("symbol", JStr symbol);
                ("description", description); ("imagePath", imagePath);
                ("imageBase64", imageBase64); ("twitter", twitter);
                ("telegram", telegram); ("website", website);
                ("amount", amount); ("slippage", slippage);
                ("priorityFee", priorityFee); ("privateKey", privateKey) ])
  | _, _, _, _, _, _, _, _, _, _, _, _ => None
  end.

Definition tool_createPumpFunToken (args : Json) : M World ToolResult :=
  match parse args with
  | Some fields =>
      try_catch
        (let* result :=
           Pumpfun.createPumpFunToken env sdk createToken DEFAULT_IMAGE_PATH
             rpcUrlFallback fields in
         ret (Content result))
        (fun message => ret (IsError ("Error creating PumpFun token: " +:+ message)))
  | None => ret InvalidParams
  end.

End Tool.
End ServerToken.

(** ** Fixtures for the runs below *)

Module Fixtures.

(** [JSON.parse] of the text of an array of natural numbers. *)
Fixpoint parseItems (s : string) (current : option Z) (done : list Z) : Outcome (list Z) :=
  match s with
  | EmptyString => Thrown "Unexpected end of JSON input"
  | String c rest =>
      if Ascii.eqb c "]" then
        match current, done with
        | Some n, _ => Returned (rev (n :: done))
        | None, [] => Returned []
        | None, _ => Thrown "Unexpected token"
        end
      else if Ascii.eqb c "," then
        match current with
        | Some n => parseItems rest None (n :: done)
        | None => Thrown "Unexpected token"
        end
      else
        match digit_value c with
        | Some d => if d <? 10 then parseItems rest (Some (default 0 current * 10 + d)) done
                    else Thrown "Unexpected token"
        | None => Thrown "Unexpected token"
        end
  end.

Definition parseBytes (s : string) : Outcome (list Z) :=
  match s with
  | String "[" rest => parseItems rest None []
  | _ => Thrown "Unexpected token"
  end.

(** [Demo.sdk] with a [JSON.parse] that reads arrays of numbers. *)
Definition sdk : Sdk :=
  {| Keypair_fromSecretKey := Keypair_fromSecretKey Demo.sdk;
     Keypair_generate := Keypair_generate Demo.sdk;
     SystemProgram_transfer := SystemProgram_transfer Demo.sdk;
     signAndSerialize := signAndSerialize Demo.sdk;
     formatISO := formatISO Demo.sdk;
     toText := toText Demo.sdk;
     parseFloat := parseFloat Demo.sdk;
     path_resolve := path_resolve Demo.sdk;
     JSON_parse := parseBytes |}.

(** The text of a path before its last separator. *)
Fixpoint folderOf (path : string) : option string :=
  match path with
  | EmptyString => None
  | String c rest =>
      match folderOf rest with
      | Some folder => Some (String c folder)
      | None => if Ascii.eqb c "/" then Some EmptyString else None
      end
  end.

(** A file system that refuses to write a file whose folder is a regular
    file, and accepts every other write. *)
Definition writeError (path : string) (w : World) : option string :=
  match folderOf path with
  | Some folder =>
      match files w !! folder with
      | Some _ => Some ("ENOTDIR: not a directory, open '" +:+ path +:+ "'")
      | None => None
      end
  | None => None
  end.

Definition entry (signature : string) (slot : Z) (blockTime : option Z) : SigInfo :=
  {| sig_signature := signature; sig_slot := slot; sig_blockTime := blockTime;
     sig_err := JNull; sig_memo := JNull; sig_confirmationStatus := JStr "finalized" |}.

(** A remote like [r] whose history of every address is [entries]. *)
Definition withHistory (r : Remote) (entries : list SigInfo) : Remote :=
  {| r_getSlot := r_getSlot r;
     r_getVersion := r_getVersion r;
     r_getBlockTime := r_getBlockTime r;
     r_getHealth := r_getHealth r;
     r_getSupply := r_getSupply r;
     r_getBalance := r_getBalance r;
     r_getAccountInfo := r_getAccountInfo r;
     r_getSignaturesForAddress := fun _ _ _ _ => Returned entries;
     r_getLatestBlockhash := r_getLatestBlockhash r;
     r_send := r_send r;
     r_confirmTransaction := r_confirmTransaction r;
     r_getParsedTokenAccountsByOwner := r_getParsedTokenAccountsByOwner r;
     elapsed := elapsed r |}.

End Fixtures.

(** ** Numbers in base 58 and base 256 *)

(** A text of base-58 digits without a leading digit zero. *)
Definition headed (s : string) : Prop :=
  match s with
  | EmptyString => True
  | String c _ => c <> "1"%char
  end.

(** A byte, and the number a list of bytes writes in base 256. *)
Definition byte (b : Z) : Prop := 0 <= b < 256.

Definition number256 (l : list Z) : Z := fold_left (fun acc b => acc * 256 + b) l 0.


(** ** pumpfun.js: [createToken] *)

Module Mint.
Section Flow.
Variable sdk : Sdk.

(** What [createToken] does once it holds the signing key and the mint key:
    the upload of the metadata, the trade request, the signatures and the
    submission.  It is kept abstract: it ends with the signature of the
    submitted transaction, or with the message of an error and what the
    error carries as [response?.data]. *)
Variable submit : Keypair -> Keypair -> Json -> World -> (string + string * Json) * World.

(** [bs58.decode(options.privateKey)] *)
Definition decode (privateKey : Json) : Outcome (list Z) :=
  match privateKey with
  | JStr s => SolanaAPI.decodeKey s
  | _ => Thrown "Expected String"
  end.

(** The object the [catch] of [createToken] returns. *)
Definition failed (message : string) (details : Json) : Json :=
  obj [ ("success", JBool false); ("error", JStr message); ("details", details) ].

Definition createToken (options : Json) (w : World) : Json * World :=
  match decode (prop options "privateKey") with
  | Thrown message => (failed message JUndefined, w)
  | Returned secret =>
      match Keypair_fromSecretKey sdk secret with
      | Thrown message => (failed message JUndefined, w)
      | Returned signerKeyPair =>
          let mintKeypair := Keypair_generate sdk (generated w) in
          match submit signerKeyPair mintKeypair options (next_keypair w) with
          | (inl signature, w') =>
              (obj [ ("success", JBool true);
                     ("transaction", JStr signature);
                     ("token", JStr (toBase58 (publicKey mintKeypair)));
                     ("tokenUrl",
                      JStr ("https://pump.fun/" +:+ toBase58 (publicKey mintKeypair))) ],
               w')
          | (inr (message, details), w') => (failed message details, w')
          end
      end
  end.

End Flow.
End Mint.

(** The remote calls of a complete network status of solana.js, in their
    order. *)
Definition statusSteps (e : string) (slot : Z) : list (string * RpcCall) :=
  [ (e, getVersion); (e, getSlot); (e, getBlockTime slot); (e, getSupply) ].

(** A tool that replies in every state and never throws: it refuses its
    arguments and changes nothing, or returns content, or returns an error
    text that begins with [label]. *)
Definition replies (label : string) (tool : M (SolanaAPI.t * World) ToolResult) : Prop :=
  forall st, exists result st',
    tool st = (Returned result, st') /\
    match result with
    | InvalidParams => st' = st
    | Content _ => True
    | IsError text => String.prefix label text = true
    end.

(** * Properties *)

Example demo_addresses :
  Demo.alice = "4vJ9JU1bJJE96FWSJKvHsmmFADCg4gpZQff4P3bkLKi" /\
  PublicKey_new Demo.alice = Returned {| pk_bytes := repeat 1 32 |} /\
  PublicKey_new Demo.systemProgram = Returned {| pk_bytes := repeat 0 32 |}.
Proof. vm_compute. repeat split; reflexivity. Qed.

Example parseInt_samples :
  parseInt "500" = num 500 /\ parseInt "  42px" = num 42 /\ parseInt "-7" = num (-7) /\
  parseInt "0x1f" = num 31 /\ parseInt "abc" = NaN /\ parseInt "" = NaN /\
  js_or (JNum (parseInt "0")) (jnum 10) = jnum 10 /\
  js_or (JNum (parseInt "undefined")) (jnum 10) = jnum 10.
Proof. vm_compute. repeat split; reflexivity. Qed.

Example z_limit_samples :
  z_limit JUndefined = Some (jnum 10) /\ z_limit (jnum 100) = Some (jnum 100) /\
  z_limit (jnum 1) = Some (jnum 1) /\ z_limit (jnum 101) = None /\
  z_limit (jnum 0) = None /\ z_limit (JNum (Fin (5 # 2))) = None /\
  z_limit (JStr "5") = None /\ z_limit JNull = None.
Proof. vm_compute. repeat split; reflexivity. Qed.

(** ** Connection set-up *)

Section Failover.
Variable cfg : Config.
Variable remote : Remote.

#[local] Abbreviation wellFormed := (accepted (cfg_commitment (solana cfg))).
#[local] Abbreviation allFail := (allFail remote).

Lemma try_endpoint_fails e api w m :
  wellFormed e ->
  r_getSlot remote (List.length (calls w)) e = Thrown m ->
  SolanaAPI.try_endpoint cfg remote e (api, w) =
    (Returned false,
     (SolanaAPI.set_connection
        (Some {| rpcEndpoint := e; commitment := cfg_commitment (solana cfg) |}) api,
      record_call e getSlot (elapsed remote (List.length (calls w))) w)).
Proof.
  intros He Hm. unfold SolanaAPI.try_endpoint, try_catch, bind, lift, update, SolanaAPI.call,
    this, rpc, ret. rewrite He. simpl. rewrite Hm. reflexivity.
Qed.

Lemma try_endpoint_succeeds e api w slot :
  wellFormed e ->
  r_getSlot remote (List.length (calls w)) e = Returned slot ->
  SolanaAPI.try_endpoint cfg remote e (api, w) =
    (Returned true,
     (SolanaAPI.set_lastConnectionCheck
        (clock w + elapsed remote (List.length (calls w)))
        (SolanaAPI.set_connected true
           (SolanaAPI.set_connection
              (Some {| rpcEndpoint := e; commitment := cfg_commitment (solana cfg) |}) api)),
      record_call e getSlot (elapsed remote (List.length (calls w))) w)).
Proof.
  intros He Hs. unfold SolanaAPI.try_endpoint, try_catch, bind, lift, update, SolanaAPI.call,
    this, rpc, ret, Date_now. rewrite He. simpl. rewrite Hs. reflexivity.
Qed.

(** [SolanaAPI.initConnection] tries the candidates in order and stops at the
    first one whose probe succeeds: the candidates before it have each been
    probed once, none after it has been, and it is the active connection. *)
Lemma connect_loop_failover bad : forall good rest api w slot,
  Forall wellFormed bad -> wellFormed good ->
  allFail (List.length (calls w)) bad ->
  r_getSlot remote (List.length (calls w) + List.length bad) good = Returned slot ->
  exists api' w',
    SolanaAPI.connect_loop cfg remote (bad ++ good :: rest)%list (api, w) =
      (Returned tt, (api', w')) /\
    SolanaAPI.connection api' =
      Some {| rpcEndpoint := good; commitment := cfg_commitment (solana cfg) |} /\
    SolanaAPI.connected api' = true /\
    SolanaAPI.lastConnectionCheck api' = clock w' /\
    calls w' = (calls w ++ map probe_of (bad ++ [good]))%list.
Proof.
  induction bad as [|e bad IH]; intros good rest api w slot Hbad Hgood Hfail Hok.
  - simpl in *. rewrite Nat.add_0_r in Hok.
    unfold bind at 1. rewrite (try_endpoint_succeeds _ _ _ slot Hgood Hok).
    eexists _, _. split; [reflexivity|]. simpl. repeat split; reflexivity.
  - inversion Hbad as [|? ? He Hbad']; subst.
    destruct Hfail as [[m Hm] Hfail].
    simpl. unfold bind at 1. rewrite (try_endpoint_fails _ _ _ m He Hm).
    set (w1 := record_call e getSlot (elapsed remote (List.length (calls w))) w).
    set (api1 := SolanaAPI.set_connection _ api).
    assert (Hlen : List.length (calls w1) = S (List.length (calls w))).
    { unfold w1; simpl. rewrite length_app. simpl. lia. }
    destruct (IH good rest api1 w1 slot Hbad' Hgood) as (api' & w' & Hrun & Hc & Hk & Hl & Hcalls).
    + rewrite Hlen. exact Hfail.
    + rewrite Hlen. rewrite <- Hok. f_equal. simpl. lia.
    + exists api', w'. split; [exact Hrun|]. repeat split; try assumption.
      rewrite Hcalls. unfold w1. simpl. rewrite <- app_assoc. reflexivity.
Qed.

(** When the probes of all candidates fail, the loop ends without an error,
    has probed every candidate once, and has not touched the [connected]
    flag. *)
Lemma connect_loop_all_fail pool : forall api w,
  Forall wellFormed pool ->
  allFail (List.length (calls w)) pool ->
  exists api' w',
    SolanaAPI.connect_loop cfg remote pool (api, w) = (Returned tt, (api', w')) /\
    SolanaAPI.connected api' = SolanaAPI.connected api /\
    calls w' = (calls w ++ map probe_of pool)%list.
Proof.
  induction pool as [|e pool IH]; intros api w Hwf Hfail.
  - exists api, w. simpl. rewrite app_nil_r. repeat split; reflexivity.
  - inversion Hwf as [|? ? He Hwf']; subst.
    destruct Hfail as [[m Hm] Hfail].
    simpl. unfold bind at 1. rewrite (try_endpoint_fails _ _ _ m He Hm).
    set (w1 := record_call e getSlot (elapsed remote (List.length (calls w))) w).
    set (api1 := SolanaAPI.set_connection _ api).
    assert (Hlen : List.length (calls w1) = S (List.length (calls w))).
    { unfold w1; simpl. rewrite length_app. simpl. lia. }
    destruct (IH api1 w1 Hwf') as (api' & w' & Hrun & Hk & Hcalls).
    + rewrite Hlen. exact Hfail.
    + exists api', w'. split; [exact Hrun|]. split; [exact Hk|].
      rewrite Hcalls. unfold w1. simpl. rewrite <- app_assoc. reflexivity.
Qed.

(** Failover on a pool [bad1; bad2; good]: three probes, in the order of the
    pool, and the third candidate is the active connection. *)
Lemma initConnection_bad_bad_good bad1 bad2 good api w m1 m2 slot :
  SolanaAPI.endpoints_for cfg (SolanaAPI.network api) = Some [bad1; bad2; good] ->
  wellFormed bad1 -> wellFormed bad2 -> wellFormed good ->
  r_getSlot remote (List.length (calls w)) bad1 = Thrown m1 ->
  r_getSlot remote (S (List.length (calls w))) bad2 = Thrown m2 ->
  r_getSlot remote (S (S (List.length (calls w)))) good = Returned slot ->
  exists api' w',
    SolanaAPI.initConnection cfg remote (api, w) = (Returned tt, (api', w')) /\
    SolanaAPI.connection api' =
      Some {| rpcEndpoint := good; commitment := cfg_commitment (solana cfg) |} /\
    SolanaAPI.connected api' = true /\
    calls w' = (calls w ++ [probe_of bad1; probe_of bad2; probe_of good])%list.
Proof.
  intros Hpool H1 H2 H3 Hm1 Hm2 Hs.
  destruct (connect_loop_failover [bad1; bad2] good [] api w slot)
    as (api' & w' & Hrun & Hc & Hk & _ & Hcalls).
  - repeat constructor; assumption.
  - assumption.
  - simpl. eauto.
  - simpl. rewrite <- Hs. f_equal. lia.
  - exists api', w'. split; [|repeat split; assumption].
    rewrite <- Hrun. unfold SolanaAPI.initConnection, bind, this.
    cbv beta iota. rewrite Hpool. reflexivity.
Qed.

End Failover.

Section LegacyStart.
Variable remote : Remote.

#[local] Abbreviation accepted := (accepted "confirmed").

(** The loop of [initialize] never sees a callback run: whatever the probes
    answer, it sends one probe to every candidate and leaves the module
    variable [connection] on the last candidate of the pool. *)
Lemma legacy_loop_visits_all pre : forall e l q (m : Legacy.t) w,
  Legacy.connected l = false ->
  Forall accepted pre -> accepted e ->
  exists q' w',
    Legacy.connect_loop remote l q (pre ++ [e])%list (m, w) =
      (Returned (l, q'),
       (Legacy.set_connection (Some {| rpcEndpoint := e; commitment := "confirmed" |}) m, w')) /\
    calls w' = (calls w ++ map probe_of (pre ++ [e]))%list /\
    List.length q' = (List.length q + List.length (pre ++ [e]))%nat.
Proof.
  induction pre as [|a pre IH]; intros e l q m w Hl Hpre He.
  - simpl. rewrite Hl. unfold bind, try_catch, lift, update, Legacy.send_probe, ret.
    rewrite He. simpl. eexists _, _. split; [reflexivity|]. split; [reflexivity|].
    rewrite length_app. simpl. lia.
  - inversion Hpre as [|? ? Ha Hpre']; subst.
    simpl. rewrite Hl. unfold bind at 1. unfold try_catch, bind, lift, update,
      Legacy.send_probe, ret. rewrite Ha. cbn beta iota.
    cbn [fst snd].
    match goal with
    | |- context [Legacy.connect_loop remote l ?q1 _ (?m1, ?w1)] =>
        destruct (IH e l q1 m1 w1 Hl Hpre' He) as (q' & w' & Hrun & Hcalls & Hlen)
    end.
    exists q', w'. split; [exact Hrun|]. split.
    + rewrite Hcalls. simpl. rewrite <- app_assoc. reflexivity.
    + rewrite Hlen. rewrite !length_app. simpl. lia.
Qed.

End LegacyStart.

(** C1 (fails in [initialize] of solana.js).  With no configuration the pool
    is [devnet1; devnet2].  When the first candidate answers its probe and
    the second does not, [initialize] has still probed both, and the active
    connection is the second, dead candidate: the probes are not awaited, so
    the success of the first is noticed only by a callback that runs after
    the loop is over. *)
Theorem C1_initialize_ends_on_last_candidate (remote : Remote) (w : World) (slot : Z) (m : string) :
  r_getSlot remote (List.length (calls w)) devnet1 = Returned slot ->
  r_getSlot remote (S (List.length (calls w))) devnet2 = Thrown m ->
  exists r mod' w',
    Legacy.initialize ∅ remote None (Legacy.boot, w) = (Returned r, (mod', w')) /\
    Legacy.connected (fst r) = false /\
    Legacy.connected (Legacy.settle r) = true /\
    Legacy.connection mod' = Some {| rpcEndpoint := devnet2; commitment := "confirmed" |} /\
    calls w' = (calls w ++ [probe_of devnet1; probe_of devnet2])%list.
Proof.
  intros Hup Hdown.
  assert (Hpool : select_endpoints (Legacy.rpcEndpoints ∅) "devnet" = Some [devnet1; devnet2])
    by (vm_compute; reflexivity).
  unfold Legacy.initialize, bind, update, this. cbn beta iota.
  change (env_or ∅ "SOLANA_NETWORK" "devnet") with "devnet".
  cbn [default String.eqb Legacy.network Legacy.set_network Legacy.boot].
  change (if ("devnet" =? "devnet")%string then "devnet" else "devnet") with "devnet".
  rewrite Hpool.
  unfold Legacy.connect_loop, bind, try_catch, lift, update, Legacy.send_probe, ret.
  cbn. eexists _, _, _. split; [reflexivity|].
  cbn. rewrite Hup. cbn.
  replace (List.length (calls w ++ [(devnet1, getSlot)])) with (S (List.length (calls w)))
    by (rewrite length_app; simpl; lia).
  rewrite Hdown. repeat split; try reflexivity.
  rewrite <- app_assoc. reflexivity.
Qed.

Lemma C1_initialize_witness :
  exists r mod' w',
    Legacy.initialize ∅ (Demo.remote (fun n e => String.eqb e devnet1) Demo.always None) None
      (Legacy.boot, Demo.world) = (Returned r, (mod', w')) /\
    Legacy.connected (fst r) = false /\
    Legacy.connected (Legacy.settle r) = true /\
    Legacy.connection mod' = Some {| rpcEndpoint := devnet2; commitment := "confirmed" |} /\
    calls w' = (calls Demo.world ++ [probe_of devnet1; probe_of devnet2])%list.
Proof.
  apply (C1_initialize_ends_on_last_candidate
           (Demo.remote (fun n e => String.eqb e devnet1) Demo.always None)
           Demo.world 250 "fetch failed"); reflexivity.
Defined.

(** ** Degraded mode *)

Section Degraded.
Variable cfg : Config.
Variable remote : Remote.

(** When no probe can succeed, the loop of [initConnection] ends normally
    and leaves the [connected] flag as it found it, whatever the pool. *)
Lemma connect_loop_down pool : forall api w,
  (forall n e, exists m, r_getSlot remote n e = Thrown m) ->
  exists api' w',
    SolanaAPI.connect_loop cfg remote pool (api, w) = (Returned tt, (api', w')) /\
    SolanaAPI.connected api' = SolanaAPI.connected api.
Proof.
  induction pool as [|e pool IH]; intros api w Hdown.
  - exists api, w. split; reflexivity.
  - simpl. unfold bind at 1.
    unfold SolanaAPI.try_endpoint, try_catch, bind, lift, update, SolanaAPI.call,
      this, rpc, ret.
    destruct (Connection_new e (cfg_commitment (solana cfg))) as [c|m0].
    + cbn. destruct (Hdown (List.length (calls w)) (rpcEndpoint c)) as [m Hm].
      rewrite Hm.
      match goal with
      | |- context [SolanaAPI.connect_loop cfg remote pool (?a1, ?w1)] =>
          destruct (IH a1 w1 Hdown) as (api' & w' & Hrun & Hk)
      end.
      exists api', w'. split; [exact Hrun | exact Hk].
    + cbn. destruct (IH api w Hdown) as (api' & w' & Hrun & Hk).
      exists api', w'. split; [exact Hrun | exact Hk].
Qed.

End Degraded.

(** [getBalance] never looks at the [connected] flag.  What it returns and
    what it throws is decided by the address, the connection object and the
    one reply of the remote. *)
Lemma getBalance_exact (remote : Remote) (address : string) (api : SolanaAPI.t) (w : World) :
  (forall cause,
     PublicKey_new address = Thrown cause ->
     SolanaAPI.getBalance remote address (api, w) =
       (Thrown ("Failed to get balance: " +:+ cause), (api, w))) /\
  (forall pk,
     PublicKey_new address = Returned pk -> SolanaAPI.connection api = None ->
     SolanaAPI.getBalance remote address (api, w) =
       (Thrown ("Failed to get balance: " +:+
                "Cannot read properties of null (reading 'getBalance')"), (api, w))) /\
  (forall pk c,
     PublicKey_new address = Returned pk -> SolanaAPI.connection api = Some c ->
     exists w',
       calls w' = (calls w ++ [(rpcEndpoint c, getBalance pk)])%list /\
       files w' = files w /\
       (forall b,
          r_getBalance remote (List.length (calls w)) (rpcEndpoint c) pk = Returned b ->
          SolanaAPI.getBalance remote address (api, w) =
            (Returned (obj [ ("address", JStr address);
                             ("balanceInLamports", jnum b);
                             ("balanceInSol", JNum (Ndiv (num b) LAMPORTS_PER_SOL)) ]),
             (api, w'))) /\
       (forall m,
          r_getBalance remote (List.length (calls w)) (rpcEndpoint c) pk = Thrown m ->
          SolanaAPI.getBalance remote address (api, w) =
            (Thrown ("Failed to get balance: " +:+ m), (api, w')))).
Proof.
  unfold SolanaAPI.getBalance, try_catch, bind, lift, SolanaAPI.call, this, rpc, ret, throw.
  split; [|split].
  - intros cause Hpk. rewrite Hpk. reflexivity.
  - intros pk Hpk Hc. rewrite Hpk. cbn. rewrite Hc. reflexivity.
  - intros pk c Hpk Hc. rewrite Hpk. cbn. rewrite Hc.
    eexists. split; [|split; [|split]].
    3:{ intros b Hb. rewrite Hb. reflexivity. }
    3:{ intros m Hm. rewrite Hm. reflexivity. }
    + reflexivity.
    + reflexivity.
Qed.

(** C2 (amended).  When no probe succeeds, [initConnection] returns without
    throwing and leaves [connected] false.  A [getBalance] that follows is
    not stopped by the flag.  With a valid address it sends one request to
    the endpoint of the connection object left by the last attempt; when
    the remote answers [b] it returns [{address, balanceInLamports: b,
    balanceInSol: b / 1e9}], and when the remote fails with a message it
    throws 'Failed to get balance: ' followed by that message.  With an
    address that is refused, or without a connection object, it sends
    nothing and throws 'Failed to get balance: ' followed by the message of
    that failure. *)
Theorem C2_degraded_getBalance_forwards (cfg : Config) (remote : Remote)
    (pool : list string) (api : SolanaAPI.t) (w : World) :
  SolanaAPI.endpoints_for cfg (SolanaAPI.network api) = Some pool ->
  SolanaAPI.connected api = false ->
  (forall n e, exists m, r_getSlot remote n e = Thrown m) ->
  exists api' w',
    SolanaAPI.initConnection cfg remote (api, w) = (Returned tt, (api', w')) /\
    SolanaAPI.connected api' = false /\
    forall address w2,
      (forall cause,
         PublicKey_new address = Thrown cause ->
         SolanaAPI.getBalance remote address (api', w2) =
           (Thrown ("Failed to get balance: " +:+ cause), (api', w2))) /\
      (forall pk,
         PublicKey_new address = Returned pk -> SolanaAPI.connection api' = None ->
         SolanaAPI.getBalance remote address (api', w2) =
           (Thrown ("Failed to get balance: " +:+
                    "Cannot read properties of null (reading 'getBalance')"), (api', w2))) /\
      (forall pk c,
         PublicKey_new address = Returned pk -> SolanaAPI.connection api' = Some c ->
         exists w3,
           calls w3 = (calls w2 ++ [(rpcEndpoint c, getBalance pk)])%list /\
           files w3 = files w2 /\
           (forall b,
              r_getBalance remote (List.length (calls w2)) (rpcEndpoint c) pk = Returned b ->
              SolanaAPI.getBalance remote address (api', w2) =
                (Returned (obj [ ("address", JStr address);
                                 ("balanceInLamports", jnum b);
                                 ("balanceInSol", JNum (Ndiv (num b) LAMPORTS_PER_SOL)) ]),
                 (api', w3))) /\
           (forall m,
              r_getBalance remote (List.length (calls w2)) (rpcEndpoint c) pk = Thrown m ->
              SolanaAPI.getBalance remote address (api', w2) =
                (Thrown ("Failed to get balance: " +:+ m), (api', w3)))).
Proof.
  intros Hpool Hflag Hdown.
  destruct (connect_loop_down cfg remote pool api w Hdown) as (api' & w' & Hrun & Hk).
  exists api', w'. split; [|split].
  - rewrite <- Hrun. unfold SolanaAPI.initConnection, bind, this. cbv beta iota.
    rewrite Hpool. reflexivity.
  - rewrite Hk. exact Hflag.
  - intros address w2. apply getBalance_exact.
Qed.

Lemma C2_degraded_witness :
  exists api' w',
    SolanaAPI.initConnection (config ∅) (Demo.remote Demo.never Demo.always None)
      (SolanaAPI.constructor, Demo.world) = (Returned tt, (api', w')) /\
    SolanaAPI.connected api' = false /\
    fst (SolanaAPI.getBalance (Demo.remote Demo.never Demo.always None) Demo.systemProgram
           (api', w')) =
      Returned (obj [ ("address", JStr Demo.systemProgram);
                      ("balanceInLamports", jnum 2000000000);
                      ("balanceInSol", JNum (Ndiv (num 2000000000) LAMPORTS_PER_SOL)) ]) /\
    SolanaAPI.getBalance (Demo.remote Demo.never Demo.always None) "not an address"
      (api', w') = (Thrown "Failed to get balance: Non-base58 character", (api', w')).
Proof.
  destruct (C2_degraded_getBalance_forwards (config ∅)
              (Demo.remote Demo.never Demo.always None)
              [mainnet1; mainnet2; mainnet3] SolanaAPI.constructor Demo.world)
    as (api' & w' & Hrun & Hflag & Hbalance).
  - vm_compute; reflexivity.
  - reflexivity.
  - intros n e. exists "fetch failed". reflexivity.
  - exists api', w'. split; [exact Hrun|]. split; [exact Hflag|].
    assert (E := Hrun). vm_compute in E.
    apply pair_equal_spec in E as [_ E]. apply pair_equal_spec in E as [Eapi _].
    destruct (Hbalance Demo.systemProgram w') as (_ & _ & Hsent).
    destruct (Hbalance "not an address" w') as (Hrefused & _ & _).
    split.
    + destruct (Hsent {| pk_bytes := repeat 0 32 |}
                  {| rpcEndpoint := mainnet3; commitment := "confirmed" |})
        as (w3 & _ & _ & Hb & _);
        [vm_compute; reflexivity | rewrite <- Eapi; reflexivity |].
      rewrite (Hb 2000000000 eq_refl). reflexivity.
    + apply (Hrefused "Non-base58 character"). vm_compute. reflexivity.
Defined.

(** C2 as stated fails: the three candidates are down while [initConnection]
    probes them and up again afterwards.  [connected] stays false, and the
    [getBalance] that follows returns a balance, fetched from the candidate
    tried last. *)
Lemma C2_counterexample :
  exists api' w' v s,
    SolanaAPI.initConnection (config ∅)
      (Demo.remote (fun n _ => (3 <=? n)%nat) (fun n _ => (3 <=? n)%nat) None)
      (SolanaAPI.constructor, Demo.world) = (Returned tt, (api', w')) /\
    SolanaAPI.connected api' = false /\
    calls w' = [probe_of mainnet1; probe_of mainnet2; probe_of mainnet3] /\
    SolanaAPI.getBalance
      (Demo.remote (fun n _ => (3 <=? n)%nat) (fun n _ => (3 <=? n)%nat) None)
      Demo.systemProgram (api', w') = (Returned v, s) /\
    prop v "balanceInLamports" = jnum 2000000000 /\
    calls (snd s) =
      [probe_of mainnet1; probe_of mainnet2; probe_of mainnet3;
       (mainnet3, getBalance {| pk_bytes := repeat 0 32 |})].
Proof.
  eexists _, _, _, _. split; [vm_compute; reflexivity|].
  split; [reflexivity|]. split; [reflexivity|].
  split; [vm_compute; reflexivity|].
  split; vm_compute; reflexivity.
Qed.

(** ** What the loop of [initConnection] sends *)

Section Manager.
Variable cfg : Config.
Variable remote : Remote.

(** Whatever the remote does, the loop of [initConnection] ends without an
    error; what it sends is one probe per candidate it tried, in the order
    of the pool; it keeps the network name, and it only ever raises the
    [connected] flag. *)
Lemma connect_loop_probes pool : forall api w,
  exists api' w' probed,
    SolanaAPI.connect_loop cfg remote pool (api, w) = (Returned tt, (api', w')) /\
    calls w' = (calls w ++ map probe_of probed)%list /\
    sublist probed pool /\
    SolanaAPI.network api' = SolanaAPI.network api /\
    (SolanaAPI.connected api' = SolanaAPI.connected api \/
     SolanaAPI.connected api' = true /\ SolanaAPI.lastConnectionCheck api' = clock w').
Proof.
  induction pool as [|e pool IH]; intros api w.
  - exists api, w, []. simpl. rewrite app_nil_r.
    split; [reflexivity|]. split; [reflexivity|]. split; [apply sublist_nil_l|].
    split; [reflexivity | left; reflexivity].
  - simpl. unfold bind at 1.
    unfold SolanaAPI.try_endpoint, SolanaAPI.call, rpc, try_catch, bind, lift, update,
      this, ret, Date_now.
    unfold Connection_new.
    destruct (String.prefix "http:" e || String.prefix "https:" e); cbn.
    + destruct (r_getSlot remote (List.length (calls w)) e) as [slot|m]; cbn.
      * eexists _, _, [e]. split; [reflexivity|]. simpl.
        split; [reflexivity|]. split; [apply sublist_skip; apply sublist_nil_l|].
        split; [reflexivity|]. right. split; reflexivity.
      * match goal with
        | |- context [SolanaAPI.connect_loop cfg remote pool (?a1, ?w1)] =>
            destruct (IH a1 w1) as (api' & w' & probed & Hrun & Hcalls & Hsub & Hnet & Hk)
        end.
        exists api', w', (e :: probed). split; [exact Hrun|]. split; [|split; [|split]].
        -- rewrite Hcalls. simpl. rewrite <- app_assoc. reflexivity.
        -- apply sublist_skip. exact Hsub.
        -- rewrite Hnet. reflexivity.
        -- exact Hk.
    + destruct (IH api w) as (api' & w' & probed & Hrun & Hcalls & Hsub & Hnet & Hk).
      exists api', w', probed. split; [exact Hrun|]. split; [exact Hcalls|].
      split; [apply sublist_cons; exact Hsub|]. split; [exact Hnet | exact Hk].
Qed.

End Manager.

(** ** Health check *)

(** C3.  A health check made less than 10 seconds after the last recorded
    check sends nothing and changes nothing.  Otherwise it sends one probe
    to the active endpoint.  When the probe succeeds, [connected] is true
    afterwards, the connection is kept and the time of the check is the
    clock.  When the probe fails, [initConnection] is run at once from the
    state in which [connected] is false: its probes follow the failed one,
    the time of the check is recorded after it, and [connected] is false
    afterwards when no candidate answers. *)
Theorem C3_checkConnectionHealth (cfg : Config) (remote : Remote)
    (api : SolanaAPI.t) (w : World) :
  (clock w - SolanaAPI.lastConnectionCheck api < 10000 ->
   SolanaAPI.checkConnectionHealth cfg remote (api, w) = (Returned tt, (api, w))) /\
  (10000 <= clock w - SolanaAPI.lastConnectionCheck api ->
   forall c, SolanaAPI.connection api = Some c ->
     let n := List.length (calls w) in
     let e := rpcEndpoint c in
     (forall slot, r_getSlot remote n e = Returned slot ->
        exists api' w',
          SolanaAPI.checkConnectionHealth cfg remote (api, w) = (Returned tt, (api', w')) /\
          SolanaAPI.connected api' = true /\
          SolanaAPI.connection api' = Some c /\
          SolanaAPI.network api' = SolanaAPI.network api /\
          SolanaAPI.lastConnectionCheck api' = clock w' /\
          calls w' = (calls w ++ [probe_of e])%list /\
          clock w' = clock w + elapsed remote n) /\
     (forall m pool,
        r_getSlot remote n e = Thrown m ->
        SolanaAPI.endpoints_for cfg (SolanaAPI.network api) = Some pool ->
        let down := {| SolanaAPI.connection := Some c;
                       SolanaAPI.network := SolanaAPI.network api;
                       SolanaAPI.connected := false;
                       SolanaAPI.lastConnectionCheck := SolanaAPI.lastConnectionCheck api |} in
        let w1 := {| calls := (calls w ++ [probe_of e])%list;
                     clock := clock w + elapsed remote n;
                     generated := generated w; files := files w; dirs := dirs w |} in
        exists api2 w2 probed,
          SolanaAPI.initConnection cfg remote (down, w1) = (Returned tt, (api2, w2)) /\
          SolanaAPI.checkConnectionHealth cfg remote (api, w) =
            (Returned tt,
             ({| SolanaAPI.connection := SolanaAPI.connection api2;
                 SolanaAPI.network := SolanaAPI.network api2;
                 SolanaAPI.connected := SolanaAPI.connected api2;
                 SolanaAPI.lastConnectionCheck := clock w2 |}, w2)) /\
          calls w2 = (calls w ++ probe_of e :: map probe_of probed)%list /\
          sublist probed pool /\
          ((forall n' e', exists m', r_getSlot remote n' e' = Thrown m') ->
           SolanaAPI.connected api2 = false))).
Proof.
  split.
  - intros Hrecent. unfold SolanaAPI.checkConnectionHealth, bind, Date_now, this, ret.
    cbv beta iota. apply Z.ltb_lt in Hrecent. rewrite Hrecent. reflexivity.
  - intros Hdue c Hc n e. apply Z.ltb_ge in Hdue. split.
    + intros slot Hslot.
      unfold SolanaAPI.checkConnectionHealth, SolanaAPI.call, rpc, bind, Date_now, this,
        ret, try_catch, update.
      cbv beta iota. rewrite Hdue, Hc. fold n. fold e. rewrite Hslot.
      eexists _, _. split; [reflexivity|]. cbn.
      split; [reflexivity|]. split; [exact Hc|]. split; [reflexivity|].
      split; [reflexivity|]. split; reflexivity.
    + intros m pool Hm Hpool down w1.
      assert (Hdown : SolanaAPI.set_connected false api = down)
        by (unfold SolanaAPI.set_connected, down; rewrite Hc; reflexivity).
      destruct (connect_loop_probes cfg remote pool down w1)
        as (api2 & w2 & probed & Hloop & Hcalls & Hsub & _ & _).
      assert (Hinit : SolanaAPI.initConnection cfg remote (down, w1) =
                      (Returned tt, (api2, w2))).
      { unfold SolanaAPI.initConnection, bind, this. cbv beta iota.
        change (SolanaAPI.network down) with (SolanaAPI.network api).
        rewrite Hpool. exact Hloop. }
      exists api2, w2, probed. split; [exact Hinit|]. split; [|split; [|split]].
      * unfold SolanaAPI.checkConnectionHealth, SolanaAPI.call, rpc, bind, Date_now, this,
          ret, try_catch, update.
        cbv beta iota. rewrite Hdue, Hc. fold n. fold e. rewrite Hm.
        rewrite Hdown.
        change (record_call e getSlot (elapsed remote n) w) with w1.
        rewrite Hinit. reflexivity.
      * rewrite Hcalls. simpl. rewrite <- app_assoc. reflexivity.
      * exact Hsub.
      * intros Hnone.
        destruct (connect_loop_down cfg remote pool down w1 Hnone)
          as (api3 & w3 & Hloop3 & Hk).
        rewrite Hloop in Hloop3. injection Hloop3 as <- <-. exact Hk.
Qed.

Lemma C3_checkConnectionHealth_witness :
  SolanaAPI.checkConnectionHealth (config ∅) (Demo.remote Demo.always Demo.always None)
    (SolanaAPI.set_lastConnectionCheck 995000 Demo.api, Demo.world) =
    (Returned tt, (SolanaAPI.set_lastConnectionCheck 995000 Demo.api, Demo.world)) /\
  (exists api' w',
     SolanaAPI.checkConnectionHealth (config ∅) (Demo.remote Demo.always Demo.always None)
       (Demo.api, Demo.world) = (Returned tt, (api', w')) /\
     SolanaAPI.connected api' = true /\
     SolanaAPI.lastConnectionCheck api' = 1000040 /\
     calls w' = [probe_of mainnet1]) /\
  (exists api' w',
     SolanaAPI.checkConnectionHealth (config ∅) (Demo.remote Demo.never Demo.always None)
       (Demo.api, Demo.world) = (Returned tt, (api', w')) /\
     SolanaAPI.connected api' = false /\
     List.length (calls w') = 4%nat).
Proof.
  assert (Hdue : 10000 <= clock Demo.world - SolanaAPI.lastConnectionCheck Demo.api)
    by (simpl; lia).
  split; [|split].
  - apply (proj1 (C3_checkConnectionHealth (config ∅)
                    (Demo.remote Demo.always Demo.always None)
                    (SolanaAPI.set_lastConnectionCheck 995000 Demo.api) Demo.world)).
    simpl. lia.
  - destruct (C3_checkConnectionHealth (config ∅)
                (Demo.remote Demo.always Demo.always None) Demo.api Demo.world) as [_ H].
    destruct (H Hdue Demo.mainnet eq_refl) as [Hs _].
    destruct (Hs 250 eq_refl) as (api' & w' & Hrun & Hk & _ & _ & Hlast & Hcalls & Hclock).
    exists api', w'. split; [exact Hrun|]. split; [exact Hk|].
    split; [rewrite Hlast, Hclock; reflexivity | exact Hcalls].
  - destruct (C3_checkConnectionHealth (config ∅)
                (Demo.remote Demo.never Demo.always None) Demo.api Demo.world) as [_ H].
    destruct (H Hdue Demo.mainnet eq_refl) as [_ Hf].
    destruct (Hf "fetch failed" [mainnet1; mainnet2; mainnet3] eq_refl)
      as (api2 & w2 & probed & Hinit & Hrun & Hcalls & _ & Hk);
      [vm_compute; reflexivity|].
    eexists _, _. split; [exact Hrun|].
    split; [simpl; apply Hk; intros n' e'; exists "fetch failed"; reflexivity|].
    vm_compute in Hinit. injection Hinit as _ <-. reflexivity.
Defined.

(** ** The limit of [getTransactions] on the three front-ends *)

Lemma z_limit_above q : (100 < q)%Q -> z_limit (JNum (Fin q)) = None.
Proof.
  intros Hq. unfold z_limit.
  destruct (Qle_bool q (inject_Z 100)) eqn:Hle.
  - apply Qle_bool_iff in Hle. exfalso. apply (Qlt_not_le _ _ Hq). exact Hle.
  - rewrite andb_false_r. reflexivity.
Qed.

Section Limit.
Variable cfg : Config.
Variable remote : Remote.
Variable sdk : Sdk.

(** The stdio tool refuses a limit that does not fit its declared shape
    before the handler runs: nothing is sent and nothing changes. *)
Lemma tool_getTransactions_rejects args st :
  z_limit (prop args "limit") = None ->
  Server.tool_getTransactions remote sdk args st = (Returned InvalidParams, st).
Proof.
  intros H. unfold Server.tool_getTransactions. rewrite H.
  destruct (z_string 32 44 (prop args "address")); reflexivity.
Qed.

Lemma tool_getTransactions_default args address st :
  z_string 32 44 (prop args "address") = Some address ->
  prop args "limit" = JUndefined ->
  Server.tool_getTransactions remote sdk args st =
    try_catch
      (let* transactions := SolanaAPI.getTransactions remote sdk address (jnum 10) in
       ret (Content transactions))
      (fun message => ret (IsError ("Error getting transactions: " +:+ message))) st.
Proof.
  intros Ha Hl. unfold Server.tool_getTransactions. rewrite Ha, Hl. reflexivity.
Qed.

(** The HTTP route gives the handler whatever number the query text starts
    with, unless that number is zero. *)
Lemma route_transactions_passes address text n st :
  parseInt text = num n -> n <> 0 ->
  Routes.validAddress address = true ->
  Routes.transactions remote sdk address (Some text) st =
    try_catch
      (let* transactions := Legacy.getTransactions remote sdk address (jnum n) in
       ret (json (obj [ ("address", JStr address); ("transactions", transactions) ])))
      (fun message => ret (failure 500 message)) st.
Proof.
  intros Hp Hn Hv. unfold Routes.transactions.
  change (default "undefined" (Some text)) with text. rewrite Hp, Hv.
  assert (Ht : js_or (JNum (num n)) (jnum 10) = jnum n).
  { unfold js_or, truthy, num. destruct (Qeq_bool (inject_Z n) (inject_Z 0)) eqn:E; [|reflexivity].
    apply Qeq_bool_iff in E. unfold Qeq in E. simpl in E. lia. }
  rewrite Ht. reflexivity.
Qed.

Lemma route_transactions_default address st :
  Routes.transactions remote sdk address None st =
  Routes.transactions remote sdk address (Some "10") st.
Proof. reflexivity. Qed.

(** The dispatcher of mcp.js gives the handler any truthy [limit]. *)
Lemma processRequest_transactions_passes address limit rid st :
  given (Some address) = true ->
  Mcp.processRequest remote sdk
    {| action := Some "getTransactions";
       parameters := Some {| p_address := Some address; p_limit := limit; p_from := None;
                             p_to := None; p_amount := None; p_privateKey := None |};
       requestId := rid |} st =
    (let* transactions :=
       Legacy.getTransactions remote sdk address (js_or limit (jnum 10)) in
     ret (obj [ ("action", JStr "getTransactions"); ("address", JStr address);
                ("transactions", transactions) ])) st.
Proof.
  intros Ha. unfold Mcp.processRequest. cbn [action parameters param param_limit p_address p_limit].
  change (String.eqb "getTransactions" "") with false.
  change (String.eqb "getTransactions" "getNetworkStatus") with false.
  change (String.eqb "getTransactions" "getBalance") with false.
  change (String.eqb "getTransactions" "getTransactions") with true.
  cbv iota. rewrite Ha. reflexivity.
Qed.

End Limit.

(** C4 (amended).  An absent limit becomes 10 on the three front-ends.  Only
    the stdio tool bounds it: a limit above 100 is refused there before the
    handler runs.  The HTTP route and the dispatcher of mcp.js hand a limit
    above 100 to the handler as it is. *)
Theorem C4_limit_by_front_end (remote : Remote) (sdk : Sdk) :
  (forall args q st,
     prop args "limit" = JNum (Fin q) -> (100 < q)%Q ->
     Server.tool_getTransactions remote sdk args st = (Returned InvalidParams, st)) /\
  (forall args address st,
     z_string 32 44 (prop args "address") = Some address ->
     prop args "limit" = JUndefined ->
     Server.tool_getTransactions remote sdk args st =
       try_catch
         (let* transactions := SolanaAPI.getTransactions remote sdk address (jnum 10) in
          ret (Content transactions))
         (fun message => ret (IsError ("Error getting transactions: " +:+ message))) st) /\
  (forall address st,
     Routes.validAddress address = true ->
     Routes.transactions remote sdk address None st =
       try_catch
         (let* transactions := Legacy.getTransactions remote sdk address (jnum 10) in
          ret (json (obj [ ("address", JStr address); ("transactions", transactions) ])))
         (fun message => ret (failure 500 message)) st) /\
  (forall address text n st,
     parseInt text = num n -> 100 < n ->
     Routes.validAddress address = true ->
     Routes.transactions remote sdk address (Some text) st =
       try_catch
         (let* transactions := Legacy.getTransactions remote sdk address (jnum n) in
          ret (json (obj [ ("address", JStr address); ("transactions", transactions) ])))
         (fun message => ret (failure 500 message)) st) /\
  (forall address rid st,
     given (Some address) = true ->
     Mcp.processRequest remote sdk
       {| action := Some "getTransactions";
          parameters := Some {| p_address := Some address; p_limit := JUndefined;
                                p_from := None; p_to := None; p_amount := None;
                                p_privateKey := None |};
          requestId := rid |} st =
       (let* transactions := Legacy.getTransactions remote sdk address (jnum 10) in
        ret (obj [ ("action", JStr "getTransactions"); ("address", JStr address);
                   ("transactions", transactions) ])) st) /\
  (forall address n rid st,
     given (Some address) = true -> 100 < n ->
     Mcp.processRequest remote sdk
       {| action := Some "getTransactions";
          parameters := Some {| p_address := Some address; p_limit := jnum n;
                                p_from := None; p_to := None; p_amount := None;
                                p_privateKey := None |};
          requestId := rid |} st =
       (let* transactions := Legacy.getTransactions remote sdk address (jnum n) in
        ret (obj [ ("action", JStr "getTransactions"); ("address", JStr address);
                   ("transactions", transactions) ])) st).
Proof.
  split; [|split; [|split; [|split; [|split]]]].
  - intros args q st Hl Hq. apply tool_getTransactions_rejects. rewrite Hl.
    apply z_limit_above. exact Hq.
  - intros args address st. apply tool_getTransactions_default.
  - intros address st Hv. rewrite route_transactions_default.
    apply route_transactions_passes; [reflexivity | lia | exact Hv].
  - intros address text n st Hp Hn Hv.
    apply route_transactions_passes; [exact Hp | lia | exact Hv].
  - intros address rid st Ha.
    rewrite processRequest_transactions_passes by exact Ha. reflexivity.
  - intros address n rid st Ha Hn.
    rewrite processRequest_transactions_passes by exact Ha.
    assert (Ht : js_or (jnum n) (jnum 10) = jnum n).
    { unfold js_or, jnum, truthy, num.
      destruct (Qeq_bool (inject_Z n) (inject_Z 0)) eqn:E0; [|reflexivity].
      apply Qeq_bool_iff in E0. unfold Qeq in E0. simpl in E0. lia. }
    rewrite Ht. reflexivity.
Qed.

Lemma C4_limit_witness :
  (Server.tool_getTransactions (Demo.remote Demo.always Demo.always None) Demo.sdk
     (obj [ ("address", JStr Demo.systemProgram); ("limit", jnum 500) ])
     (Demo.api, Demo.world) = (Returned InvalidParams, (Demo.api, Demo.world)) /\
   Server.tool_getTransactions (Demo.remote Demo.always Demo.always None) Demo.sdk
     (obj [ ("address", JStr Demo.systemProgram) ]) (Demo.api, Demo.world) =
     try_catch
       (let* transactions :=
          SolanaAPI.getTransactions (Demo.remote Demo.always Demo.always None) Demo.sdk
            Demo.systemProgram (jnum 10) in
        ret (Content transactions))
       (fun message => ret (IsError ("Error getting transactions: " +:+ message)))
       (Demo.api, Demo.world)) /\
  (Routes.transactions (Demo.remote Demo.always Demo.always None) Demo.sdk
     Demo.systemProgram None (Demo.legacy, Demo.world) =
     try_catch
       (let* transactions :=
          Legacy.getTransactions (Demo.remote Demo.always Demo.always None) Demo.sdk
            Demo.systemProgram (jnum 10) in
        ret (json (obj [ ("address", JStr Demo.systemProgram);
                         ("transactions", transactions) ])))
       (fun message => ret (failure 500 message)) (Demo.legacy, Demo.world) /\
   Routes.transactions (Demo.remote Demo.always Demo.always None) Demo.sdk
     Demo.systemProgram (Some "500") (Demo.legacy, Demo.world) =
     try_catch
       (let* transactions :=
          Legacy.getTransactions (Demo.remote Demo.always Demo.always None) Demo.sdk
            Demo.systemProgram (jnum 500) in
        ret (json (obj [ ("address", JStr Demo.systemProgram);
                         ("transactions", transactions) ])))
       (fun message => ret (failure 500 message)) (Demo.legacy, Demo.world)) /\
  (Mcp.processRequest (Demo.remote Demo.always Demo.always None) Demo.sdk
     {| action := Some "getTransactions";
        parameters := Some {| p_address := Some Demo.systemProgram; p_limit := JUndefined;
                              p_from := None; p_to := None; p_amount := None;
                              p_privateKey := None |};
        requestId := JNull |} (Demo.legacy, Demo.world) =
     (let* transactions :=
        Legacy.getTransactions (Demo.remote Demo.always Demo.always None) Demo.sdk
          Demo.systemProgram (jnum 10) in
      ret (obj [ ("action", JStr "getTransactions"); ("address", JStr Demo.systemProgram);
                 ("transactions", transactions) ])) (Demo.legacy, Demo.world) /\
   Mcp.processRequest (Demo.remote Demo.always Demo.always None) Demo.sdk
     {| action := Some "getTransactions";
        parameters := Some {| p_address := Some Demo.systemProgram; p_limit := jnum 500;
                              p_from := None; p_to := None; p_amount := None;
                              p_privateKey := None |};
        requestId := JNull |} (Demo.legacy, Demo.world) =
     (let* transactions :=
        Legacy.getTransactions (Demo.remote Demo.always Demo.always None) Demo.sdk
          Demo.systemProgram (jnum 500) in
      ret (obj [ ("action", JStr "getTransactions"); ("address", JStr Demo.systemProgram);
                 ("transactions", transactions) ])) (Demo.legacy, Demo.world)).
Proof.
  destruct (C4_limit_by_front_end (Demo.remote Demo.always Demo.always None) Demo.sdk)
    as (Hreject & Hdefault & Hroute10 & Hroute & Hws10 & Hws).
  split; [split|split; split].
  - apply (Hreject _ (inject_Z 500)); reflexivity.
  - apply Hdefault; reflexivity.
  - apply Hroute10; reflexivity.
  - apply (Hroute _ "500" 500); [reflexivity | lia | reflexivity].
  - apply Hws10; reflexivity.
  - apply Hws; [reflexivity | lia].
Defined.

(** C4 as stated fails: [GET /api/transactions/:address?limit=500] answers
    200 after the handler has asked the ledger for 500 signatures, and so
    does the dispatcher of mcp.js, while the stdio tool refuses the same
    limit. *)
Lemma C4_counterexample :
  exists resp s,
    Routes.transactions (Demo.remote Demo.always Demo.always None) Demo.sdk
      Demo.systemProgram (Some "500") (Demo.legacy, Demo.world) = (Returned resp, s) /\
    status resp = 200 /\
    calls (snd s) =
      [(mainnet1, getSignaturesForAddress {| pk_bytes := repeat 0 32 |} (jnum 500))] /\
    Server.tool_getTransactions (Demo.remote Demo.always Demo.always None) Demo.sdk
      (obj [ ("address", JStr Demo.systemProgram); ("limit", jnum 500) ])
      (Demo.api, Demo.world) = (Returned InvalidParams, (Demo.api, Demo.world)).
Proof.
  eexists _, _. split; [vm_compute; reflexivity|].
  split; [reflexivity|]. split; vm_compute; reflexivity.
Qed.

(** ** Transfers signed with a key that is not the sender's *)

Section Mismatch.
Variable remote : Remote.
Variable sdk : Sdk.

(** [SolanaAPI.transferSol] stops at the comparison of the derived address
    with [fromAddress]: it throws and has sent nothing. *)
Lemma transferSol_rejects_mismatch fromAddress toAddress amount privateKey bytes kp st :
  SolanaAPI.decodeKey privateKey = Returned bytes ->
  Keypair_fromSecretKey sdk bytes = Returned kp ->
  toBase58 (publicKey kp) <> fromAddress ->
  SolanaAPI.transferSol remote sdk fromAddress toAddress amount privateKey st =
    (Thrown ("Failed to transfer SOL: " +:+ mismatchCause fromAddress toAddress), st).
Proof.
  intros Hd Hk Hne. destruct st as [api w].
  unfold SolanaAPI.transferSol, mismatchCause, try_catch, bind, lift, throw.
  destruct (PublicKey_new fromAddress) as [pf|m1]; [|reflexivity].
  destruct (PublicKey_new toAddress) as [pt|m2]; [|reflexivity].
  rewrite Hd, Hk.
  destruct (String.eqb (toBase58 (publicKey kp)) fromAddress) eqn:E.
  - apply String.eqb_eq in E. contradiction.
  - reflexivity.
Qed.

(** So does [transferSol] of solana.js, behind [POST /api/transfer]. *)
Lemma legacy_transferSol_rejects_mismatch fromAddress toAddress amount privateKey bytes kp st :
  SolanaAPI.decodeKey privateKey = Returned bytes ->
  Keypair_fromSecretKey sdk bytes = Returned kp ->
  toBase58 (publicKey kp) <> fromAddress ->
  Legacy.transferSol remote sdk fromAddress toAddress amount privateKey st =
    (Thrown ("Failed to transfer SOL: " +:+ mismatchCause fromAddress toAddress), st).
Proof.
  intros Hd Hk Hne. destruct st as [m w].
  unfold Legacy.transferSol, mismatchCause, try_catch, bind, lift, throw.
  destruct (PublicKey_new fromAddress) as [pf|m1]; [|reflexivity].
  destruct (PublicKey_new toAddress) as [pt|m2]; [|reflexivity].
  rewrite Hd, Hk.
  destruct (String.eqb (toBase58 (publicKey kp)) fromAddress) eqn:E.
  - apply String.eqb_eq in E. contradiction.
  - reflexivity.
Qed.

End Mismatch.

(** C5 (fails in [processRequest] of mcp.js).  The dispatcher behind the
    WebSocket channel and [POST /api/mcp/execute] requires [from] to be
    present and never compares it with the address of the signing key: the
    transfer is submitted from the key's own address, and the request
    succeeds when the ledger accepts it. *)
Theorem C5_processRequest_submits_on_mismatch (remote : Remote) (sdk : Sdk)
    (from to privateKey : string) (amount : Number) (bytes : list Z) (kp : Keypair)
    (toPk : PublicKey) (c : Connection) (m : Legacy.t) (w : World)
    (signature : string) :
  given (Some from) = true -> given (Some to) = true ->
  givenNumber (Some amount) = true -> given (Some privateKey) = true ->
  SolanaAPI.decodeKey privateKey = Returned bytes ->
  Keypair_fromSecretKey sdk bytes = Returned kp ->
  toBase58 (publicKey kp) <> from ->
  PublicKey_new to = Returned toPk ->
  SystemProgram_transfer sdk (publicKey kp) toPk (Nround (Nmul amount (num 1000000000)))
    = Returned tt ->
  Legacy.connection m = Some c ->
  r_send remote (List.length (calls w)) (rpcEndpoint c) (dispatchedTx kp toPk amount)
    = Returned signature ->
  r_confirmTransaction remote (S (List.length (calls w))) (rpcEndpoint c) signature
    = Returned tt ->
  exists v s,
    Mcp.processRequest remote sdk (transferRequest from to amount privateKey) (m, w)
      = (Returned v, s) /\
    prop v "success" = JBool true /\
    prop v "signature" = JStr signature /\
    calls (snd s) =
      (calls w ++ [ (rpcEndpoint c, sendTransaction (dispatchedTx kp toPk amount));
                    (rpcEndpoint c, confirmTransaction signature) ])%list.
Proof.
  intros Hf Ht Ha Hp Hd Hk Hne Hto Hsys Hc Hsend Hconf.
  unfold Mcp.processRequest, transferRequest.
  cbn [action parameters param p_from p_to p_amount p_privateKey].
  change (String.eqb "transferSol" "") with false.
  change (String.eqb "transferSol" "getNetworkStatus") with false.
  change (String.eqb "transferSol" "getBalance") with false.
  change (String.eqb "transferSol" "getTransactions") with false.
  change (String.eqb "transferSol" "createWallet") with false.
  change (String.eqb "transferSol" "transferSol") with true.
  cbv iota. rewrite Hf, Ht, Ha, Hp. cbn [andb negb].
  unfold try_catch, Legacy.call, rpc, bind, lift, this, ret.
  rewrite Hd, Hk, Hto, Hsys. cbv beta iota. rewrite Hc.
  fold (dispatchedTx kp toPk amount). rewrite Hsend. cbv beta iota.
  rewrite Hc.
  replace (List.length (calls (record_call (rpcEndpoint c)
             (sendTransaction (dispatchedTx kp toPk amount))
             (elapsed remote (List.length (calls w))) w)))
    with (S (List.length (calls w))) by (simpl; rewrite length_app; simpl; lia).
  rewrite Hconf.
  eexists _, _. split; [reflexivity|].
  split; [vm_compute; reflexivity|]. split; [vm_compute; reflexivity|].
  simpl. rewrite <- app_assoc. reflexivity.
Qed.

Lemma C5_processRequest_witness :
  exists v s,
    Mcp.processRequest (Demo.remote Demo.always Demo.always None) Demo.sdk
      (transferRequest Demo.alice Demo.systemProgram (num 1) (bs58_encode Demo.bobSecret))
      (Demo.legacy, Demo.world) = (Returned v, s) /\
    prop v "success" = JBool true /\
    prop v "signature" = JStr "sig" /\
    calls (snd s) =
      (calls Demo.world ++
       [ (rpcEndpoint Demo.mainnet,
          sendTransaction
            (dispatchedTx {| publicKey := {| pk_bytes := repeat 2 32 |};
                             secretKey := Demo.bobSecret |}
               {| pk_bytes := repeat 0 32 |} (num 1)));
         (rpcEndpoint Demo.mainnet, confirmTransaction "sig") ])%list.
Proof.
  apply (C5_processRequest_submits_on_mismatch
           (Demo.remote Demo.always Demo.always None) Demo.sdk
           Demo.alice Demo.systemProgram (bs58_encode Demo.bobSecret) (num 1)
           Demo.bobSecret
           {| publicKey := {| pk_bytes := repeat 2 32 |}; secretKey := Demo.bobSecret |}
           {| pk_bytes := repeat 0 32 |} Demo.mainnet Demo.legacy Demo.world "sig");
    try (vm_compute; reflexivity).
  intros H. vm_compute in H. discriminate H.
Defined.

(** ** Key material and the file system *)

Section Frame.
Context {X : Type}.
Variable remote : Remote.

Lemma keeps_ret {A} (a : A) : keepsFiles (X := X) (ret a).
Proof. intros s. split; reflexivity. Qed.

Lemma keeps_throw {A} m : keepsFiles (X := X) (A := A) (throw m).
Proof. intros s. split; reflexivity. Qed.

Lemma keeps_lift {A} (o : Outcome A) : keepsFiles (X := X) (lift o).
Proof. intros s. split; reflexivity. Qed.

Lemma keeps_this : keepsFiles (X := X) this.
Proof. intros [x w]. split; reflexivity. Qed.

Lemma keeps_update f : keepsFiles (X := X) (update f).
Proof. intros [x w]. split; reflexivity. Qed.

Lemma keeps_now : keepsFiles (X := X) Date_now.
Proof. intros [x w]. split; reflexivity. Qed.

Lemma keeps_rpc {A} conn method c (reply : nat -> string -> Outcome A) :
  keepsFiles (X := X) (rpc remote conn method c reply).
Proof. intros [x w]. unfold rpc. destruct conn; split; reflexivity. Qed.

Lemma keeps_bind {A B} (c : M (X * World) A) (k : A -> M (X * World) B) :
  keepsFiles c -> (forall a, keepsFiles (k a)) -> keepsFiles (bind c k).
Proof.
  intros Hc Hk s. unfold bind. specialize (Hc s).
  destruct (c s) as [[a|m] s1]; simpl in Hc.
  - destruct (Hk a s1) as [H1 H2]. destruct Hc as [H3 H4]. split; congruence.
  - exact Hc.
Qed.

Lemma keeps_try {A} (c : M (X * World) A) (h : string -> M (X * World) A) :
  keepsFiles c -> (forall m, keepsFiles (h m)) -> keepsFiles (try_catch c h).
Proof.
  intros Hc Hh s. unfold try_catch. specialize (Hc s).
  destruct (c s) as [[a|m] s1]; simpl in Hc.
  - exact Hc.
  - destruct (Hh m s1) as [H1 H2]. destruct Hc as [H3 H4]. split; congruence.
Qed.

End Frame.

Lemma keeps_generate_api sdk : keepsFiles (SolanaAPI.generate sdk).
Proof. intros [x w]. split; reflexivity. Qed.

Lemma keeps_generate_mcp sdk : keepsFiles (Mcp.generate sdk).
Proof. intros [x w]. split; reflexivity. Qed.

Ltac frame_step :=
  first
    [ apply keeps_ret | apply keeps_throw | apply keeps_lift | apply keeps_this
    | apply keeps_update | apply keeps_now | apply keeps_rpc
    | apply keeps_generate_api | apply keeps_generate_mcp
    | apply keeps_bind; [|intros ?]
    | apply keeps_try; [|intros ?]
    | match goal with
      | |- keepsFiles (match ?x with _ => _ end) => destruct x
      end ].

Ltac frame := cbv zeta; repeat frame_step.

Section KeyHandling.
Variable remote : Remote.
Variable sdk : Sdk.













(** The connection manager and the stdio tools. *)
Variable cfg : Config.











End KeyHandling.

Section MoreFrames.
Variable remote : Remote.
Variable sdk : Sdk.




End MoreFrames.




(** ** The network of the connection manager *)

Section Network.
Variable cfg : Config.
Variable remote : Remote.

(** The connection object that the loop of [initConnection] leaves is the
    one it found or one of a candidate of the pool. *)
Lemma connect_loop_connection pool : forall api w o api' w',
  SolanaAPI.connect_loop cfg remote pool (api, w) = (o, (api', w')) ->
  SolanaAPI.connection api' = SolanaAPI.connection api \/
  exists e, In e pool /\
    SolanaAPI.connection api' =
      Some {| rpcEndpoint := e; commitment := cfg_commitment (solana cfg) |}.
Proof.
  induction pool as [|e pool IH]; intros api w o api' w' Hrun.
  - simpl in Hrun. injection Hrun as _ <- _. left. reflexivity.
  - simpl in Hrun. unfold bind at 1 in Hrun.
    unfold SolanaAPI.try_endpoint, SolanaAPI.call, rpc, try_catch, bind, lift, update,
      this, ret, Date_now in Hrun.
    unfold Connection_new in Hrun.
    destruct (String.prefix "http:" e || String.prefix "https:" e); cbn in Hrun.
    + destruct (r_getSlot remote (List.length (calls w)) e) as [slot|m]; cbn in Hrun.
      * injection Hrun as _ <- _. right. exists e. split; [left; reflexivity|reflexivity].
      * apply IH in Hrun. destruct Hrun as [Hsame|(e' & Hin & Hc)].
        -- right. exists e. split; [left; reflexivity|]. rewrite Hsame. reflexivity.
        -- right. exists e'. split; [right; exact Hin|exact Hc].
    + apply IH in Hrun. destruct Hrun as [Hsame|(e' & Hin & Hc)].
      * left. exact Hsame.
      * right. exists e'. split; [right; exact Hin|exact Hc].
Qed.

End Network.

(** C7 (amended).  [config.solana.network] is the value of SOLANA_NETWORK,
    'devnet' when it is unset or empty, but the connection manager does not
    use it: its constructor sets the network to 'mainnet-beta', so for every
    environment the pool is the mainnet-beta list (its first URL is
    MAINNET_RPC_URL when set) and the connection it opens is to one of these
    three endpoints. *)
Theorem C7_network_is_forced_to_mainnet (env : gmap string string) (remote : Remote)
    (w : World) :
  cfg_network (solana (config env)) = env_or env "SOLANA_NETWORK" "devnet" /\
  SolanaAPI.network SolanaAPI.constructor = "mainnet-beta" /\
  SolanaAPI.endpoints_for (config env) (SolanaAPI.network SolanaAPI.constructor) =
    Some [env_or env "MAINNET_RPC_URL" mainnet1; mainnet2; mainnet3] /\
  (forall o api' w' c,
     SolanaAPI.initConnection (config env) remote (SolanaAPI.constructor, w) = (o, (api', w')) ->
     SolanaAPI.connection api' = Some c ->
     In (rpcEndpoint c) [env_or env "MAINNET_RPC_URL" mainnet1; mainnet2; mainnet3]).
Proof.
  assert (Hpool : SolanaAPI.endpoints_for (config env) "mainnet-beta" =
                  Some [env_or env "MAINNET_RPC_URL" mainnet1; mainnet2; mainnet3])
    by reflexivity.
  split; [reflexivity|]. split; [reflexivity|]. split; [exact Hpool|].
  intros o api' w' c Hrun Hc.
  unfold SolanaAPI.initConnection, bind, this in Hrun. cbv beta iota in Hrun.
  change (SolanaAPI.network SolanaAPI.constructor) with "mainnet-beta" in Hrun.
  rewrite Hpool in Hrun.
  apply connect_loop_connection in Hrun. destruct Hrun as [Hsame|(e & Hin & He)].
  - rewrite Hsame in Hc. discriminate Hc.
  - rewrite He in Hc. injection Hc as <-. exact Hin.
Qed.

Lemma C7_network_witness :
  In (rpcEndpoint Demo.mainnet) [env_or ∅ "MAINNET_RPC_URL" mainnet1; mainnet2; mainnet3].
Proof.
  destruct (C7_network_is_forced_to_mainnet ∅ (Demo.remote Demo.always Demo.always None)
              Demo.world) as (_ & _ & _ & H).
  eapply H; [vm_compute; reflexivity | reflexivity].
Defined.

(** C7 as stated fails: with SOLANA_NETWORK=devnet the configuration names
    devnet, whose pool is [devnet1; devnet2], and the connection manager
    still connects to the first mainnet-beta endpoint. *)
Lemma C7_counterexample :
  cfg_network (solana (config {[ "SOLANA_NETWORK" := "devnet" ]})) = "devnet" /\
  cfg_endpoints (solana (config {[ "SOLANA_NETWORK" := "devnet" ]})) !! "devnet"
    = Some [devnet1; devnet2] /\
  exists api' w',
    SolanaAPI.initConnection (config {[ "SOLANA_NETWORK" := "devnet" ]})
      (Demo.remote Demo.always Demo.always None) (SolanaAPI.constructor, Demo.world)
      = (Returned tt, (api', w')) /\
    SolanaAPI.connection api' = Some {| rpcEndpoint := mainnet1; commitment := "confirmed" |} /\
    calls w' = [probe_of mainnet1].
Proof.
  split; [vm_compute; reflexivity|]. split; [vm_compute; reflexivity|].
  eexists _, _. split; [vm_compute; reflexivity|]. split; reflexivity.
Qed.

(** ** Network status *)

(** A block time that is a valid date once multiplied by 1000. *)
Lemma toISOString_in_range sdk bt :
  -8640000000000 <= bt <= 8640000000000 ->
  exists text, toISOString sdk (Nmul (num bt) (num 1000)) = Returned text.
Proof.
  intros Hbt. unfold toISOString, Nmul, num.
  destruct (Qle_bool (Qabs (Qred (inject_Z bt * inject_Z 1000)))
              (inject_Z 8640000000000000)) eqn:E.
  - eauto.
  - exfalso. assert (H : Qle_bool (Qabs (Qred (inject_Z bt * inject_Z 1000)))
                           (inject_Z 8640000000000000) = true).
    { apply Qle_bool_iff. rewrite Qred_correct. apply Qabs_Qle_condition.
      rewrite <- inject_Z_mult. rewrite <- inject_Z_opp.
      split; rewrite <- Zle_Qle; lia. }
    rewrite H in E. discriminate E.
Qed.

Lemma bind_run {S A B} (c : M S A) (k : A -> M S B) s a s1 :
  c s = (Returned a, s1) -> bind c k s = k a s1.
Proof. intros H. unfold bind. rewrite H. reflexivity. Qed.

Section Status.
Variable cfg : Config.
Variable remote : Remote.
Variable sdk : Sdk.

(** [SolanaAPI.getNetworkStatus] returns an object in every state and for
    every behaviour of the remote. *)
Lemma getNetworkStatus_returns st :
  exists v s', SolanaAPI.getNetworkStatus cfg remote sdk st = (Returned v, s').
Proof.
  unfold SolanaAPI.getNetworkStatus, try_catch.
  match goal with
  | |- context [match ?c st with _ => _ end] => destruct (c st) as [[v|m] [x w']]
  end.
  - eauto.
  - unfold bind, this, ret. eauto.
Qed.

Variable c : Connection.

Lemma call_run {A} method rc (reply : nat -> string -> Outcome A) api w :
  SolanaAPI.connection api = Some c ->
  SolanaAPI.call remote method rc reply (api, w) =
    (reply (List.length (calls w)) (rpcEndpoint c),
     (api, record_call (rpcEndpoint c) rc (elapsed remote (List.length (calls w))) w)).
Proof.
  intros Hc. unfold SolanaAPI.call, bind, this, rpc. rewrite Hc. reflexivity.
Qed.

End Status.

Lemma length_record_call e rc dt w :
  List.length (calls (record_call e rc dt w)) = S (List.length (calls w)).
Proof. simpl. rewrite length_app. simpl. lia. Qed.

Section StatusExact.
Variable cfg : Config.
Variable remote : Remote.
Variable sdk : Sdk.
Variable c : Connection.

#[local] Abbreviation e := (rpcEndpoint c).

(** Each block of [SolanaAPI.getNetworkStatus] sends its query once and
    reads the reply to that call. *)
Lemma queryVersion_exact api w :
  SolanaAPI.connection api = Some c ->
  SolanaAPI.queryVersion remote (api, w) =
    (Returned (match r_getVersion remote (List.length (calls w)) e with
               | Returned version => version
               | Thrown _ => JNull
               end),
     (api, record_call e getVersion (elapsed remote (List.length (calls w))) w)).
Proof.
  intros Hc. unfold SolanaAPI.queryVersion, try_catch. rewrite (call_run remote c _ _ _ _ _ Hc).
  destruct (r_getVersion remote (List.length (calls w)) e); reflexivity.
Qed.

Lemma querySlotAndTime_exact api w :
  SolanaAPI.connection api = Some c ->
  let n := List.length (calls w) in
  let w1 := record_call e getSlot (elapsed remote n) w in
  SolanaAPI.querySlotAndTime remote (api, w) =
    match r_getSlot remote n e with
    | Thrown _ => (Returned (None, None), (api, w1))
    | Returned slot =>
        if truthy (jnum slot) then
          (Returned (Some slot,
                     match r_getBlockTime remote (S n) e slot with
                     | Returned blockTime => blockTime
                     | Thrown _ => None
                     end),
           (api, record_call e (getBlockTime slot) (elapsed remote (S n)) w1))
        else (Returned (Some slot, None), (api, w1))
    end.
Proof.
  intros Hc n w1. unfold SolanaAPI.querySlotAndTime, try_catch, bind.
  rewrite (call_run remote c _ _ _ _ _ Hc). fold n. fold w1.
  destruct (r_getSlot remote n e) as [slot|m]; [|reflexivity].
  destruct (truthy (jnum slot)); [|reflexivity].
  rewrite (call_run remote c _ _ _ _ _ Hc).
  assert (Hl : List.length (calls w1) = S n) by apply length_record_call.
  rewrite Hl.
  destruct (r_getBlockTime remote (S n) e slot); reflexivity.
Qed.

Lemma queryHealth_exact api w :
  SolanaAPI.connection api = Some c ->
  SolanaAPI.queryHealth remote (api, w) =
    (Returned (match r_getHealth remote (List.length (calls w)) e with
               | Returned health => JStr health
               | Thrown _ => JStr "unknown"
               end),
     (api, record_call e getHealth (elapsed remote (List.length (calls w))) w)).
Proof.
  intros Hc. unfold SolanaAPI.queryHealth, try_catch, bind.
  rewrite (call_run remote c _ _ _ _ _ Hc).
  destruct (r_getHealth remote (List.length (calls w)) e); reflexivity.
Qed.

Lemma querySupply_exact api w :
  SolanaAPI.connection api = Some c ->
  SolanaAPI.querySupply remote (api, w) =
    (Returned (match r_getSupply remote (List.length (calls w)) e with
               | Returned info =>
                   (JNum (Ndiv (num (fst info)) LAMPORTS_PER_SOL),
                    JNum (Ndiv (num (snd info)) LAMPORTS_PER_SOL))
               | Thrown _ => (jnum 0, jnum 0)
               end),
     (api, record_call e getSupply (elapsed remote (List.length (calls w))) w)).
Proof.
  intros Hc. unfold SolanaAPI.querySupply, try_catch, bind.
  rewrite (call_run remote c _ _ _ _ _ Hc).
  destruct (r_getSupply remote (List.length (calls w)) e); reflexivity.
Qed.

(** [getNetworkStatus] of solana.js as one case distinction on the replies
    to its four calls. *)
Lemma legacy_status_run (m : Legacy.t) (w : World) :
  Legacy.connection m = Some c ->
  let n := List.length (calls w) in
  let w1 := record_call e getVersion (elapsed remote n) w in
  let w2 := record_call e getSlot (elapsed remote (S n)) w1 in
  let w3 slot := record_call e (getBlockTime slot) (elapsed remote (S (S n))) w2 in
  let w4 slot := record_call e getSupply (elapsed remote (S (S (S n)))) (w3 slot) in
  Legacy.getNetworkStatus remote sdk (m, w) =
    match r_getVersion remote n e with
    | Thrown message => (Thrown ("Failed to get network status: " +:+ message), (m, w1))
    | Returned version =>
      match r_getSlot remote (S n) e with
      | Thrown message => (Thrown ("Failed to get network status: " +:+ message), (m, w2))
      | Returned slot =>
        match r_getBlockTime remote (S (S n)) e slot with
        | Thrown message =>
            (Thrown ("Failed to get network status: " +:+ message), (m, w3 slot))
        | Returned blockTime =>
          match r_getSupply remote (S (S (S n))) e with
          | Thrown message =>
              (Thrown ("Failed to get network status: " +:+ message), (m, w4 slot))
          | Returned supply =>
            match toISOString sdk (Nmul (num (default 0 blockTime)) (num 1000)) with
            | Thrown message =>
                (Thrown ("Failed to get network status: " +:+ message), (m, w4 slot))
            | Returned iso =>
                (Returned
                   (obj [ ("network", JStr (Legacy.network m));
                          ("version", version);
                          ("currentSlot", jnum slot);
                          ("blockTime", JStr iso);
                          ("totalSupply", JNum (Ndiv (num (fst supply)) LAMPORTS_PER_SOL));
                          ("circulatingSupply",
                           JNum (Ndiv (num (snd supply)) LAMPORTS_PER_SOL)) ]),
                 (m, w4 slot))
            end
          end
        end
      end
    end.
Proof.
  intros Hc n w1 w2 w3 w4.
  unfold Legacy.getNetworkStatus, Legacy.call, rpc, try_catch, bind, lift, throw, this, ret.
  rewrite Hc. cbv beta iota. fold n.
  destruct (r_getVersion remote n e) as [version|m0]; cbv beta iota; rewrite ?Hc;
    [|reflexivity].
  fold w1. replace (List.length (calls w1)) with (S n) by (symmetry; apply length_record_call).
  destruct (r_getSlot remote (S n) e) as [slot|m0]; cbv beta iota; rewrite ?Hc;
    [|reflexivity].
  fold w2.
  replace (List.length (calls w2)) with (S (S n))
    by (unfold w2; rewrite length_record_call; unfold w1; rewrite length_record_call;
        reflexivity).
  destruct (r_getBlockTime remote (S (S n)) e slot) as [blockTime|m0]; cbv beta iota;
    rewrite ?Hc; [|reflexivity].
  fold (w3 slot).
  replace (List.length (calls (w3 slot))) with (S (S (S n)))
    by (unfold w3, w2, w1; rewrite !length_record_call; reflexivity).
  destruct (r_getSupply remote (S (S (S n))) e) as [supply|m0]; cbv beta iota;
    [|reflexivity].
  fold (w4 slot).
  destruct (toISOString sdk (Nmul (num (default 0 blockTime)) (num 1000))); reflexivity.
Qed.

End StatusExact.


(** One field of the status: the replies named by the hypotheses decide
    the branches of the status that was computed. *)
Ltac status_field :=
  intros;
  repeat match goal with
         | H : Returned _ = Returned _ |- _ => injection H as H; try subst
         end;
  try congruence;
  repeat match goal with
         | H : ?reply = _ |- context [match ?reply with _ => _ end] => rewrite H
         end;
  try reflexivity; try (split; reflexivity).

Ltac status_fields :=
  eexists _, _; split; [reflexivity|];
  split; [simpl; rewrite <- !app_assoc; reflexivity|];
  split; [reflexivity|];
  repeat (split; [status_field|]); status_field.

(** C8 (amended).  [SolanaAPI.getNetworkStatus], the handler of the stdio
    server, never throws.  With [connected] set it sends each sub-query
    once, in the order version, slot, block time of that slot (when the
    slot is not 0), health, supply, and, provided the block time the ledger
    gives is a valid date, returns a status without an [error] field in
    which every field is read from the reply to its own query: the value
    the ledger gave, and [null] (version, current slot, block time) or the
    default (health 'unknown', supplies 0) when that query failed.
    [getNetworkStatus] of solana.js is all or nothing: the first of its
    four queries that fails makes the whole call throw 'Failed to get
    network status: ' followed by the message of that failure. *)
Theorem C8_getNetworkStatus_best_effort (cfg : Config) (remote : Remote) (sdk : Sdk) :
  (forall st, exists v s', SolanaAPI.getNetworkStatus cfg remote sdk st = (Returned v, s')) /\
  (forall api w c,
     SolanaAPI.connected api = true ->
     SolanaAPI.connection api = Some c ->
     let n := List.length (calls w) in
     let e := rpcEndpoint c in
     let timeQuery :=
       match r_getSlot remote (S n) e with
       | Returned slot => if truthy (jnum slot) then [getBlockTime slot] else []
       | Thrown _ => []
       end in
     let h := (S (S n) + List.length timeQuery)%nat in
     (forall slot bt,
        r_getSlot remote (S n) e = Returned slot ->
        r_getBlockTime remote (S (S n)) e slot = Returned (Some bt) ->
        -8640000000000 <= bt <= 8640000000000) ->
     exists status w',
       SolanaAPI.getNetworkStatus cfg remote sdk (api, w) =
         (Returned (JObj status), (api, w')) /\
       calls w' =
         (calls w ++
          map (pair e) ([getVersion; getSlot] ++ timeQuery ++ [getHealth; getSupply]))%list /\
       status !! "error" = None /\
       (forall message,
          r_getVersion remote n e = Thrown message -> status !! "version" = Some JNull) /\
       (forall version,
          r_getVersion remote n e = Returned version -> status !! "version" = Some version) /\
       (forall message,
          r_getSlot remote (S n) e = Thrown message ->
          status !! "currentSlot" = Some JNull /\ status !! "blockTime" = Some JNull) /\
       (forall slot,
          r_getSlot remote (S n) e = Returned slot ->
          status !! "currentSlot" = Some (jnum slot)) /\
       (forall slot message,
          r_getSlot remote (S n) e = Returned slot ->
          r_getBlockTime remote (S (S n)) e slot = Thrown message ->
          status !! "blockTime" = Some JNull) /\
       (forall slot bt text,
          r_getSlot remote (S n) e = Returned slot -> truthy (jnum slot) = true ->
          r_getBlockTime remote (S (S n)) e slot = Returned (Some bt) ->
          truthy (jnum bt) = true ->
          toISOString sdk (Nmul (num bt) (num 1000)) = Returned text ->
          status !! "blockTime" = Some (JStr text)) /\
       (forall message,
          r_getHealth remote h e = Thrown message ->
          status !! "health" = Some (JStr "unknown")) /\
       (forall health,
          r_getHealth remote h e = Returned health ->
          status !! "health" = Some (JStr health)) /\
       (forall message,
          r_getSupply remote (S h) e = Thrown message ->
          status !! "totalSupply" = Some (jnum 0) /\
          status !! "circulatingSupply" = Some (jnum 0)) /\
       (forall info,
          r_getSupply remote (S h) e = Returned info ->
          status !! "totalSupply" = Some (JNum (Ndiv (num (fst info)) LAMPORTS_PER_SOL)) /\
          status !! "circulatingSupply" =
            Some (JNum (Ndiv (num (snd info)) LAMPORTS_PER_SOL)))) /\
  (forall m w c,
     Legacy.connection m = Some c ->
     let n := List.length (calls w) in
     let e := rpcEndpoint c in
     (forall message,
        r_getVersion remote n e = Thrown message ->
        fst (Legacy.getNetworkStatus remote sdk (m, w)) =
          Thrown ("Failed to get network status: " +:+ message)) /\
     (forall version message,
        r_getVersion remote n e = Returned version ->
        r_getSlot remote (S n) e = Thrown message ->
        fst (Legacy.getNetworkStatus remote sdk (m, w)) =
          Thrown ("Failed to get network status: " +:+ message)) /\
     (forall version slot message,
        r_getVersion remote n e = Returned version ->
        r_getSlot remote (S n) e = Returned slot ->
        r_getBlockTime remote (S (S n)) e slot = Thrown message ->
        fst (Legacy.getNetworkStatus remote sdk (m, w)) =
          Thrown ("Failed to get network status: " +:+ message)) /\
     (forall version slot blockTime message,
        r_getVersion remote n e = Returned version ->
        r_getSlot remote (S n) e = Returned slot ->
        r_getBlockTime remote (S (S n)) e slot = Returned blockTime ->
        r_getSupply remote (S (S (S n))) e = Thrown message ->
        fst (Legacy.getNetworkStatus remote sdk (m, w)) =
          Thrown ("Failed to get network status: " +:+ message))).
Proof.
  split; [apply getNetworkStatus_returns|]. split.
  - intros api w c Hk Hc n e timeQuery h Hrange.
    set (w1 := record_call e getVersion (elapsed remote n) w).
    assert (Hl1 : List.length (calls w1) = S n) by apply length_record_call.
    assert (Hv := queryVersion_exact remote c api w Hc). fold n in Hv. fold e in Hv.
    fold w1 in Hv.
    assert (Hs := querySlotAndTime_exact remote c api w1 Hc). cbv zeta in Hs.
    rewrite Hl1 in Hs. fold e in Hs.
    set (w2 := record_call e getSlot (elapsed remote (S n)) w1) in Hs.
    assert (Hl2 : List.length (calls w2) = S (S n))
      by (unfold w2; rewrite length_record_call, Hl1; reflexivity).
    unfold SolanaAPI.getNetworkStatus, try_catch.
    rewrite (bind_run this _ (api, w) api (api, w) eq_refl).
    rewrite Hk. cbn [negb].
    rewrite (bind_run (ret false) _ (api, w) false (api, w) eq_refl).
    rewrite (bind_run this _ (api, w) api (api, w) eq_refl).
    cbv iota.
    rewrite (bind_run _ _ _ _ _ Hv).
    destruct (r_getSlot remote (S n) e) as [slot|m0] eqn:Hslot.
    + destruct (truthy (jnum slot)) eqn:Htruthy.
      * (* the block time is asked *)
        set (w3 := record_call e (getBlockTime slot) (elapsed remote (S (S n))) w2) in Hs.
        assert (Hl3 : List.length (calls w3) = S (S (S n)))
          by (unfold w3; rewrite length_record_call, Hl2; reflexivity).
        assert (Hh := queryHealth_exact remote c api w3 Hc). rewrite Hl3 in Hh. fold e in Hh.
        set (w4 := record_call e getHealth (elapsed remote (S (S (S n)))) w3) in Hh.
        assert (Hl4 : List.length (calls w4) = S (S (S (S n))))
          by (unfold w4; rewrite length_record_call, Hl3; reflexivity).
        assert (Hsu := querySupply_exact remote c api w4 Hc). rewrite Hl4 in Hsu.
        fold e in Hsu.
        rewrite (bind_run _ _ _ _ _ Hs), (bind_run _ _ _ _ _ Hh), (bind_run _ _ _ _ _ Hsu).
        match goal with
        | |- context [bind this _ (api, ?w5)] =>
            rewrite (bind_run this _ (api, w5) api (api, w5) eq_refl)
        end.
        unfold bind, lift, ret. cbn [fst snd].
        assert (Hh' : h = S (S (S n))) by (unfold h, timeQuery; simpl; lia).
        rewrite Hh'.
        destruct (r_getBlockTime remote (S (S n)) e slot) as [[bt|]|m1] eqn:Htime;
          unfold SolanaAPI.isoOrNull.
        -- destruct (truthy (jnum bt)) eqn:Hbt.
           ++ destruct (toISOString_in_range sdk bt (Hrange slot bt eq_refl Htime))
                as [text Htext].
              rewrite Htext. status_fields.
              assert (Etext : text0 = text) by congruence. rewrite Etext. reflexivity.
           ++ status_fields.
        -- status_fields.
        -- status_fields.
      * (* slot 0: no block time is asked *)
        assert (Hh := queryHealth_exact remote c api w2 Hc). rewrite Hl2 in Hh. fold e in Hh.
        set (w4 := record_call e getHealth (elapsed remote (S (S n))) w2) in Hh.
        assert (Hl4 : List.length (calls w4) = S (S (S n)))
          by (unfold w4; rewrite length_record_call, Hl2; reflexivity).
        assert (Hsu := querySupply_exact remote c api w4 Hc). rewrite Hl4 in Hsu.
        fold e in Hsu.
        rewrite (bind_run _ _ _ _ _ Hs), (bind_run _ _ _ _ _ Hh), (bind_run _ _ _ _ _ Hsu).
        match goal with
        | |- context [bind this _ (api, ?w5)] =>
            rewrite (bind_run this _ (api, w5) api (api, w5) eq_refl)
        end.
        unfold bind, lift, ret. cbn [fst snd]. unfold SolanaAPI.isoOrNull.
        assert (Hh' : h = S (S n)) by (unfold h, timeQuery; simpl; lia).
        rewrite Hh'. status_fields.
    + (* the slot query fails *)
      assert (Hh := queryHealth_exact remote c api w2 Hc). rewrite Hl2 in Hh. fold e in Hh.
      set (w4 := record_call e getHealth (elapsed remote (S (S n))) w2) in Hh.
      assert (Hl4 : List.length (calls w4) = S (S (S n)))
        by (unfold w4; rewrite length_record_call, Hl2; reflexivity).
      assert (Hsu := querySupply_exact remote c api w4 Hc). rewrite Hl4 in Hsu.
      fold e in Hsu.
      rewrite (bind_run _ _ _ _ _ Hs), (bind_run _ _ _ _ _ Hh), (bind_run _ _ _ _ _ Hsu).
      match goal with
      | |- context [bind this _ (api, ?w5)] =>
          rewrite (bind_run this _ (api, w5) api (api, w5) eq_refl)
      end.
      unfold bind, lift, ret. cbn [fst snd]. unfold SolanaAPI.isoOrNull.
      assert (Hh' : h = S (S n)) by (unfold h, timeQuery; simpl; lia).
      rewrite Hh'. status_fields.
  - intros m w c Hc n e.
    assert (Hrun := legacy_status_run remote sdk c m w Hc). cbv zeta in Hrun.
    fold n in Hrun. fold e in Hrun.
    split; [|split; [|split]].
    + intros message E. rewrite Hrun, E. reflexivity.
    + intros version message E1 E2. rewrite Hrun, E1, E2. reflexivity.
    + intros version slot message E1 E2 E3. rewrite Hrun, E1, E2, E3. reflexivity.
    + intros version slot blockTime message E1 E2 E3 E4.
      rewrite Hrun, E1, E2, E3, E4. reflexivity.
Qed.


Lemma C8_getNetworkStatus_witness :
  (exists status w',
     SolanaAPI.getNetworkStatus (config ∅) Demo.versionDown Demo.sdk (Demo.api, Demo.world) =
       (Returned (JObj status), (Demo.api, w')) /\
     calls w' = map (pair mainnet1)
                  [getVersion; getSlot; getBlockTime 250; getHealth; getSupply] /\
     status !! "error" = None /\
     status !! "version" = Some JNull /\
     status !! "currentSlot" = Some (jnum 250) /\
     status !! "health" = Some (JStr "ok")) /\
  fst (Legacy.getNetworkStatus Demo.versionDown Demo.sdk (Demo.legacy, Demo.world)) =
    Thrown ("Failed to get network status: " +:+ "fetch failed").
Proof.
  destruct (C8_getNetworkStatus_best_effort (config ∅) Demo.versionDown Demo.sdk)
    as (_ & Hapi & Hlegacy).
  split.
  - destruct (Hapi Demo.api Demo.world Demo.mainnet eq_refl eq_refl)
      as (status & w' & Hrun & Hcalls & Herror & Hv & _ & _ & Hslot & _ & _ & _ & Hh & _).
    + intros slot bt _ H. vm_compute in H. injection H as <-. lia.
    + exists status, w'. split; [exact Hrun|]. split; [exact Hcalls|].
      split; [exact Herror|].
      split; [apply (Hv "fetch failed"); reflexivity|].
      split; [apply Hslot; reflexivity|].
      apply Hh. reflexivity.
  - destruct (Hlegacy Demo.legacy Demo.world Demo.mainnet eq_refl) as (Hversion & _).
    apply Hversion. reflexivity.
Defined.

(** A run in which only the version query fails: the other fields carry
    what the remote answered. *)
Example status_without_version :
  fst (SolanaAPI.getNetworkStatus (config ∅) Demo.versionDown Demo.sdk (Demo.api, Demo.world)) =
    Returned (obj [ ("network", JStr "mainnet-beta");
                    ("connected", JBool true);
                    ("version", JNull);
                    ("currentSlot", jnum 250);
                    ("blockTime", JStr "1700000000000");
                    ("health", JStr "ok");
                    ("totalSupply", jnum 5);
                    ("circulatingSupply", jnum 4) ]).
Proof. vm_compute. reflexivity. Qed.

(** C8 as stated fails on the other path: [getNetworkStatus] of solana.js,
    behind [GET /api/network], has one [try] around all its sub-queries.
    When only the version query fails, the whole call throws and the route
    answers 500. *)
Lemma C8_counterexample :
  Legacy.getNetworkStatus Demo.versionDown Demo.sdk (Demo.legacy, Demo.world) =
    (Thrown "Failed to get network status: fetch failed",
     (Demo.legacy, record_call mainnet1 getVersion 40 Demo.world)) /\
  fst (Routes.network Demo.versionDown Demo.sdk (Demo.legacy, Demo.world)) =
    Returned (failure 500 "Failed to get network status: fetch failed").
Proof. split; vm_compute; reflexivity. Qed.

(** ** Accounts that do not exist *)

Section Absent.
Variable remote : Remote.
Variable sdk : Sdk.
Variable address : string.
Variable pk : PublicKey.
Variable c : Connection.
Hypothesis Hpk : PublicKey_new address = Returned pk.
Hypothesis Habsent : forall n, r_getAccountInfo remote n (rpcEndpoint c) pk = Returned None.

Lemma api_getAccountInfo_absent api w :
  SolanaAPI.connection api = Some c ->
  fst (SolanaAPI.getAccountInfo remote address (api, w)) = Returned (absent address).
Proof.
  intros Hc. unfold SolanaAPI.getAccountInfo, SolanaAPI.call, rpc, try_catch, bind, lift, this.
  rewrite Hpk. cbv beta iota. rewrite Hc, Habsent. reflexivity.
Qed.

Lemma legacy_getAccountInfo_absent m w :
  Legacy.connection m = Some c ->
  fst (Legacy.getAccountInfo remote address (m, w)) = Returned (absent address).
Proof.
  intros Hc. unfold Legacy.getAccountInfo, Legacy.call, rpc, try_catch, bind, lift, this.
  rewrite Hpk. cbv beta iota. rewrite Hc, Habsent. reflexivity.
Qed.

Lemma address_given : given (Some address) = true.
Proof.
  unfold given. destruct (String.eqb address "") eqn:E; [|reflexivity].
  apply String.eqb_eq in E. rewrite E in Hpk. discriminate Hpk.
Qed.

End Absent.

(** C9 (amended).  For an address whose account the ledger does not have,
    [getAccountInfo] of the stdio server and of solana.js return exactly
    [{exists: false, address}], and so do the stdio tool and the route
    [GET /api/account/:address].  The action [getAccountInfo] of the
    dispatcher of mcp.js returns another object: besides [exists: false]
    and [address] it carries [action], the result of [getBalance], and
    [executable], [owner], [rentEpoch] and [dataSize] set to [null]. *)
Theorem C9_absent_account_by_front_end (remote : Remote) (sdk : Sdk) (address : string)
    (pk : PublicKey) (c : Connection) (api : SolanaAPI.t) (m : Legacy.t) (w : World) (b : Z) :
  PublicKey_new address = Returned pk ->
  (forall n, r_getAccountInfo remote n (rpcEndpoint c) pk = Returned None) ->
  SolanaAPI.connection api = Some c ->
  Legacy.connection m = Some c ->
  (32 <= String.length address <= 44)%nat ->
  r_getBalance remote (S (List.length (calls w))) (rpcEndpoint c) pk = Returned b ->
  fst (SolanaAPI.getAccountInfo remote address (api, w)) = Returned (absent address) /\
  fst (Legacy.getAccountInfo remote address (m, w)) = Returned (absent address) /\
  fst (Server.tool_getAccountInfo remote (obj [ ("address", JStr address) ]) (api, w)) =
    Returned (Content (absent address)) /\
  fst (Routes.account remote address (m, w)) = Returned (json (absent address)) /\
  fst (Mcp.processRequest remote sdk (accountRequest address) (m, w)) =
    Returned (obj [ ("action", JStr "getAccountInfo");
                    ("address", JStr address);
                    ("balance",
                     obj [ ("address", JStr address);
                           ("balanceInLamports", jnum b);
                           ("balanceInSol", JNum (Ndiv (num b) LAMPORTS_PER_SOL)) ]);
                    ("exists", JBool false);
                    ("executable", JNull);
                    ("owner", JNull);
                    ("rentEpoch", JNull);
                    ("dataSize", JNull) ]).
Proof.
  intros Hpk Habsent Hapi Hm Hlen Hb.
  assert (H1 := api_getAccountInfo_absent remote address pk c Hpk Habsent api w Hapi).
  assert (H2 := legacy_getAccountInfo_absent remote address pk c Hpk Habsent m w Hm).
  split; [exact H1|]. split; [exact H2|]. split; [|split].
  - unfold Server.tool_getAccountInfo.
    change (prop (obj [("address", JStr address)]) "address") with (JStr address).
    unfold z_string.
    destruct Hlen as [Hlo Hhi]. apply Nat.leb_le in Hlo, Hhi. rewrite Hlo, Hhi. cbn [andb].
    unfold try_catch, bind, ret.
    destruct (SolanaAPI.getAccountInfo remote address (api, w)) as [[v|e] s].
    + simpl in H1. injection H1 as ->. reflexivity.
    + discriminate H1.
  - unfold Routes.account, Routes.validAddress. rewrite Hpk. cbn [negb].
    unfold try_catch, bind, ret.
    destruct (Legacy.getAccountInfo remote address (m, w)) as [[v|e] s].
    + simpl in H2. injection H2 as ->. reflexivity.
    + discriminate H2.
  - unfold Mcp.processRequest, accountRequest.
    cbn [action parameters param p_address].
    change (String.eqb "getAccountInfo" "") with false.
    change (String.eqb "getAccountInfo" "getNetworkStatus") with false.
    change (String.eqb "getAccountInfo" "getBalance") with false.
    change (String.eqb "getAccountInfo" "getTransactions") with false.
    change (String.eqb "getAccountInfo" "createWallet") with false.
    change (String.eqb "getAccountInfo" "transferSol") with false.
    change (String.eqb "getAccountInfo" "getAccountInfo") with true.
    cbv iota. rewrite (address_given address pk Hpk). cbn [negb].
    unfold Legacy.getBalance, Legacy.call, rpc, try_catch, bind, lift, this, ret.
    rewrite Hpk. cbv beta iota. rewrite Hm, Habsent. cbv beta iota. rewrite Hm.
    replace (List.length (calls (record_call (rpcEndpoint c) (getAccountInfo pk)
               (elapsed remote (List.length (calls w))) w)))
      with (S (List.length (calls w))) by (simpl; rewrite length_app; simpl; lia).
    rewrite Hb. reflexivity.
Qed.

Lemma C9_absent_account_witness :
  fst (SolanaAPI.getAccountInfo (Demo.remote Demo.always Demo.always None)
         Demo.systemProgram (Demo.api, Demo.world)) = Returned (absent Demo.systemProgram) /\
  fst (Legacy.getAccountInfo (Demo.remote Demo.always Demo.always None)
         Demo.systemProgram (Demo.legacy, Demo.world)) = Returned (absent Demo.systemProgram) /\
  fst (Server.tool_getAccountInfo (Demo.remote Demo.always Demo.always None)
         (obj [ ("address", JStr Demo.systemProgram) ]) (Demo.api, Demo.world)) =
    Returned (Content (absent Demo.systemProgram)) /\
  fst (Routes.account (Demo.remote Demo.always Demo.always None)
         Demo.systemProgram (Demo.legacy, Demo.world)) =
    Returned (json (absent Demo.systemProgram)) /\
  fst (Mcp.processRequest (Demo.remote Demo.always Demo.always None) Demo.sdk
         (accountRequest Demo.systemProgram) (Demo.legacy, Demo.world)) =
    Returned (obj [ ("action", JStr "getAccountInfo");
                    ("address", JStr Demo.systemProgram);
                    ("balance",
                     obj [ ("address", JStr Demo.systemProgram);
                           ("balanceInLamports", jnum 2000000000);
                           ("balanceInSol", JNum (Ndiv (num 2000000000) LAMPORTS_PER_SOL)) ]);
                    ("exists", JBool false);
                    ("executable", JNull);
                    ("owner", JNull);
                    ("rentEpoch", JNull);
                    ("dataSize", JNull) ]).
Proof.
  apply (C9_absent_account_by_front_end (Demo.remote Demo.always Demo.always None) Demo.sdk
           Demo.systemProgram {| pk_bytes := repeat 0 32 |} Demo.mainnet
           Demo.api Demo.legacy Demo.world 2000000000).
  - reflexivity.
  - intros n. reflexivity.
  - reflexivity.
  - reflexivity.
  - simpl. lia.
  - reflexivity.
Defined.

(** C9 as stated fails on the dispatcher of mcp.js: for an account that
    does not exist its answer has eight fields, among them the balance
    object and four [null]s, where [{exists: false, address}] has two. *)
Lemma C9_counterexample :
  exists fields,
    fst (Mcp.processRequest (Demo.remote Demo.always Demo.always None) Demo.sdk
           (accountRequest Demo.systemProgram) (Demo.legacy, Demo.world)) =
      Returned (JObj fields) /\
    fields !! "exists" = Some (JBool false) /\
    fields !! "action" = Some (JStr "getAccountInfo") /\
    fields !! "balance" =
      Some (obj [ ("address", JStr Demo.systemProgram);
                  ("balanceInLamports", jnum 2000000000);
                  ("balanceInSol", jnum 2) ]) /\
    fields !! "owner" = Some JNull /\
    size fields = 8%nat /\
    JObj fields <> absent Demo.systemProgram.
Proof.
  eexists. split; [vm_compute; reflexivity|].
  split; [reflexivity|]. split; [reflexivity|]. split; [vm_compute; reflexivity|].
  split; [reflexivity|]. split; [vm_compute; reflexivity|].
  intros H. apply (f_equal (fun v => prop v "action")) in H.
  vm_compute in H. discriminate H.
Qed.

(** ** The signing key of the token-minting flow *)

Lemma js_or_truthy a b : truthy b = true -> truthy (js_or a b) = true.
Proof. intros Hb. unfold js_or. destruct (truthy a) eqn:Ha; assumption. Qed.

(** C10.  The key [createPumpFunToken] selects is never empty, because the
    last alternative is the non-empty hard-coded text.  So the branch that
    throws 'No private key provided ...' is never taken, and with [name] and
    [symbol] present the call reaches [createToken] with the selected key. *)
Theorem C10_private_key_branch_unreachable (env : gmap string string) (sdk : Sdk)
    (createToken : Json -> World -> Json * World) (imagePath : string) (rpcUrl : Json)
    (fields : gmap string Json) :
  truthy (Pumpfun.selectPrivateKey env (JObj fields)) = true /\
  (forall w,
     fst (Pumpfun.createPumpFunToken env sdk createToken imagePath rpcUrl fields w) <>
       Thrown "No private key provided and PUMPFUN_PRIVATE_KEY not found in environment") /\
  (truthy (prop (JObj fields) "name") = true ->
   truthy (prop (JObj fields) "symbol") = true ->
   forall w,
     Pumpfun.createPumpFunToken env sdk createToken imagePath rpcUrl fields w =
       (Returned
          (fst (createToken
                  (Pumpfun.tokenOptions env sdk imagePath rpcUrl (JObj fields)
                     (Pumpfun.selectPrivateKey env (JObj fields)) (clock w)) w)),
        snd (createToken
               (Pumpfun.tokenOptions env sdk imagePath rpcUrl (JObj fields)
                  (Pumpfun.selectPrivateKey env (JObj fields)) (clock w)) w))).
Proof.
  assert (Hkey : truthy (Pumpfun.selectPrivateKey env (JObj fields)) = true).
  { unfold Pumpfun.selectPrivateKey. apply js_or_truthy. reflexivity. }
  split; [exact Hkey|]. split.
  - intros w. unfold Pumpfun.createPumpFunToken, try_catch, throw.
    destruct (negb (truthy (prop (JObj fields) "name")) ||
              negb (truthy (prop (JObj fields) "symbol"))).
    + simpl. intros H. discriminate H.
    + rewrite Hkey. cbn [negb].
      destruct (createToken _ w) as [result w']. simpl. intros H. discriminate H.
  - intros Hname Hsymbol w. unfold Pumpfun.createPumpFunToken, try_catch, throw.
    rewrite Hname, Hsymbol, Hkey. cbn [negb orb].
    destruct (createToken _ w) as [result w']. reflexivity.
Qed.

Lemma C10_private_key_witness :
  Pumpfun.createPumpFunToken ∅ Demo.sdk Demo.createToken "random.png" JUndefined
    {[ "name" := JStr "Token"; "symbol" := JStr "TKN" ]} Demo.world =
    (Returned (obj [ ("success", JBool false); ("key", JStr "your private key") ]),
     Demo.world).
Proof.
  destruct (C10_private_key_branch_unreachable ∅ Demo.sdk Demo.createToken "random.png"
              JUndefined {[ "name" := JStr "Token"; "symbol" := JStr "TKN" ]})
    as (_ & _ & H).
  rewrite (H eq_refl eq_refl Demo.world). vm_compute. reflexivity.
Defined.

(** * Further properties of the connection manager *)


(** X1.  [SolanaAPI.initConnection] on a pool whose first candidates fail
    their probe and whose next candidate answers: that candidate becomes the
    connection, [connected] is set, the time of the check is recorded, and
    the probes sent are those of the failed candidates and of the winner, in
    the order of the pool; no later candidate is contacted. *)
Theorem X1_initConnection_first_success (cfg : Config) (remote : Remote)
    (bad : list string) (good : string) (rest : list string)
    (api : SolanaAPI.t) (w : World) (slot : Z) :
  SolanaAPI.endpoints_for cfg (SolanaAPI.network api) = Some (bad ++ good :: rest)%list ->
  Forall (accepted (cfg_commitment (solana cfg))) bad ->
  accepted (cfg_commitment (solana cfg)) good ->
  allFail remote (List.length (calls w)) bad ->
  r_getSlot remote (List.length (calls w) + List.length bad) good = Returned slot ->
  exists api' w',
    SolanaAPI.initConnection cfg remote (api, w) = (Returned tt, (api', w')) /\
    SolanaAPI.connection api' =
      Some {| rpcEndpoint := good; commitment := cfg_commitment (solana cfg) |} /\
    SolanaAPI.connected api' = true /\
    SolanaAPI.lastConnectionCheck api' = clock w' /\
    calls w' = (calls w ++ map probe_of (bad ++ [good]))%list.
Proof.
  intros Hpool Hbad Hgood Hfail Hok.
  destruct (connect_loop_failover cfg remote bad good rest api w slot Hbad Hgood Hfail Hok)
    as (api' & w' & Hrun & Hrest).
  exists api', w'. split; [|exact Hrest].
  rewrite <- Hrun. unfold SolanaAPI.initConnection, bind, this. cbv beta iota.
  rewrite Hpool. reflexivity.
Qed.

Lemma X1_initConnection_witness :
  exists api' w',
    SolanaAPI.initConnection (config ∅)
      (Demo.remote (fun _ e => String.eqb e mainnet3) Demo.always None)
      (SolanaAPI.constructor, Demo.world) = (Returned tt, (api', w')) /\
    SolanaAPI.connection api' =
      Some {| rpcEndpoint := mainnet3; commitment := cfg_commitment (solana (config ∅)) |} /\
    SolanaAPI.connected api' = true /\
    SolanaAPI.lastConnectionCheck api' = clock w' /\
    calls w' = (calls Demo.world ++ map probe_of ([mainnet1; mainnet2] ++ [mainnet3]))%list.
Proof.
  apply (X1_initConnection_first_success (config ∅)
           (Demo.remote (fun _ e => String.eqb e mainnet3) Demo.always None)
           [mainnet1; mainnet2] mainnet3 [] SolanaAPI.constructor Demo.world 250).
  - vm_compute; reflexivity.
  - repeat constructor.
  - reflexivity.
  - simpl. split; [exists "fetch failed"; reflexivity|].
    split; [exists "fetch failed"; reflexivity | exact I].
  - reflexivity.
Defined.

(** X2.  Starting the connection manager never throws: for every
    environment and every behaviour of the remote, [initConnection] run from
    the state the constructor sets returns, and all it has sent is at most
    one [getSlot] probe per candidate of the mainnet-beta pool, in the order
    of the pool. *)
Theorem X2_construction_never_throws (env : gmap string string) (remote : Remote) (w : World) :
  exists api' w' probed,
    SolanaAPI.initConnection (config env) remote (SolanaAPI.constructor, w) =
      (Returned tt, (api', w')) /\
    calls w' = (calls w ++ map probe_of probed)%list /\
    sublist probed [env_or env "MAINNET_RPC_URL" mainnet1; mainnet2; mainnet3] /\
    (SolanaAPI.connected api' = false \/
     SolanaAPI.connected api' = true /\ SolanaAPI.lastConnectionCheck api' = clock w').
Proof.
  destruct (connect_loop_probes (config env) remote
              [env_or env "MAINNET_RPC_URL" mainnet1; mainnet2; mainnet3]
              SolanaAPI.constructor w)
    as (api' & w' & probed & Hrun & Hcalls & Hsub & _ & Hk).
  exists api', w', probed. split; [|split; [exact Hcalls|split; [exact Hsub|exact Hk]]].
  rewrite <- Hrun. reflexivity.
Qed.

(** X3.  The health check is idempotent: a second check made right after a
    check that returned finds the time of the last check equal to the
    clock, so it sends nothing and changes nothing. *)
Theorem X3_health_check_twice (cfg : Config) (remote : Remote)
    (api api' : SolanaAPI.t) (w w' : World) :
  SolanaAPI.checkConnectionHealth cfg remote (api, w) = (Returned tt, (api', w')) ->
  SolanaAPI.checkConnectionHealth cfg remote (api', w') = (Returned tt, (api', w')).
Proof.
  unfold SolanaAPI.checkConnectionHealth at 1.
  unfold bind at 1. unfold Date_now at 1. cbv beta iota.
  unfold bind at 1. unfold this at 1. cbv beta iota.
  destruct (clock w - SolanaAPI.lastConnectionCheck api <? 10000) eqn:Hrecent.
  - intros H. injection H as <- <-.
    unfold SolanaAPI.checkConnectionHealth, bind, Date_now, this, ret. cbv beta iota.
    rewrite Hrecent. reflexivity.
  - unfold bind at 1.
    match goal with
    | |- context [match ?c (api, w) with _ => _ end] => destruct (c (api, w)) as [[u|m] [a2 w2]]
    end.
    + unfold bind, Date_now, update. cbv beta iota. intros H. injection H as <- <-.
      unfold SolanaAPI.checkConnectionHealth, bind, Date_now, this, ret. cbv beta iota.
      cbn [SolanaAPI.lastConnectionCheck SolanaAPI.set_lastConnectionCheck].
      rewrite Z.sub_diag. reflexivity.
    + intros H. discriminate H.
Qed.

Lemma X3_health_check_witness :
  SolanaAPI.checkConnectionHealth (config ∅) (Demo.remote Demo.always Demo.always None)
    (SolanaAPI.set_lastConnectionCheck 1000040 (SolanaAPI.set_connected true Demo.api),
     record_call mainnet1 getSlot 40 Demo.world) =
    (Returned tt,
     (SolanaAPI.set_lastConnectionCheck 1000040 (SolanaAPI.set_connected true Demo.api),
      record_call mainnet1 getSlot 40 Demo.world)).
Proof.
  apply (X3_health_check_twice (config ∅) (Demo.remote Demo.always Demo.always None)
           Demo.api _ Demo.world _).
  vm_compute. reflexivity.
Defined.

(** X4.  Failover by the health check: when the check is due and the probe
    of the active endpoint fails, the candidates of the pool are tried in
    order at once; the first one that answers becomes the connection,
    [connected] is set again and the time of the check is recorded. *)
Theorem X4_health_check_fails_over (cfg : Config) (remote : Remote)
    (api : SolanaAPI.t) (w : World) (c : Connection) (m : string)
    (bad : list string) (good : string) (rest : list string) (slot : Z) :
  10000 <= clock w - SolanaAPI.lastConnectionCheck api ->
  SolanaAPI.connection api = Some c ->
  r_getSlot remote (List.length (calls w)) (rpcEndpoint c) = Thrown m ->
  SolanaAPI.endpoints_for cfg (SolanaAPI.network api) = Some (bad ++ good :: rest)%list ->
  Forall (accepted (cfg_commitment (solana cfg))) bad ->
  accepted (cfg_commitment (solana cfg)) good ->
  allFail remote (S (List.length (calls w))) bad ->
  r_getSlot remote (S (List.length (calls w)) + List.length bad) good = Returned slot ->
  exists api' w',
    SolanaAPI.checkConnectionHealth cfg remote (api, w) = (Returned tt, (api', w')) /\
    SolanaAPI.connection api' =
      Some {| rpcEndpoint := good; commitment := cfg_commitment (solana cfg) |} /\
    SolanaAPI.connected api' = true /\
    SolanaAPI.lastConnectionCheck api' = clock w' /\
    calls w' = (calls w ++ probe_of (rpcEndpoint c) :: map probe_of (bad ++ [good]))%list.
Proof.
  intros Hdue Hc Hm Hpool Hbad Hgood Hfail Hok.
  apply Z.ltb_ge in Hdue.
  set (w1 := record_call (rpcEndpoint c) getSlot (elapsed remote (List.length (calls w))) w).
  assert (Hlen : List.length (calls w1) = S (List.length (calls w))).
  { unfold w1. simpl. rewrite length_app. simpl. lia. }
  destruct (connect_loop_failover cfg remote bad good rest
              (SolanaAPI.set_connected false api) w1 slot Hbad Hgood)
    as (api2 & w2 & Hrun & Hconn & Hk & _ & Hcalls).
  { rewrite Hlen. exact Hfail. }
  { rewrite Hlen. exact Hok. }
  exists (SolanaAPI.set_lastConnectionCheck (clock w2) api2), w2.
  split; [|split; [exact Hconn|split; [exact Hk|split; [reflexivity|]]]].
  - unfold SolanaAPI.checkConnectionHealth, SolanaAPI.call, rpc, bind, Date_now, this,
      ret, try_catch, update.
    cbv beta iota. rewrite Hdue, Hc, Hm. fold w1.
    unfold SolanaAPI.initConnection, bind, this. cbv beta iota.
    cbn [SolanaAPI.network SolanaAPI.set_connected]. rewrite Hpool, Hrun. reflexivity.
  - rewrite Hcalls. unfold w1. simpl. rewrite <- app_assoc. reflexivity.
Qed.

Lemma X4_health_check_witness :
  exists api' w',
    SolanaAPI.checkConnectionHealth (config ∅)
      (Demo.remote (fun _ e => String.eqb e mainnet2) Demo.always None)
      (Demo.api, Demo.world) = (Returned tt, (api', w')) /\
    SolanaAPI.connection api' =
      Some {| rpcEndpoint := mainnet2; commitment := cfg_commitment (solana (config ∅)) |} /\
    SolanaAPI.connected api' = true /\
    SolanaAPI.lastConnectionCheck api' = clock w' /\
    calls w' =
      (calls Demo.world ++
       probe_of (rpcEndpoint Demo.mainnet) :: map probe_of ([mainnet1] ++ [mainnet2]))%list.
Proof.
  apply (X4_health_check_fails_over (config ∅)
           (Demo.remote (fun _ e => String.eqb e mainnet2) Demo.always None)
           Demo.api Demo.world Demo.mainnet "fetch failed" [mainnet1] mainnet2 [mainnet3] 250).
  - simpl. lia.
  - reflexivity.
  - reflexivity.
  - vm_compute; reflexivity.
  - repeat constructor.
  - reflexivity.
  - simpl. split; [exists "fetch failed"; reflexivity | exact I].
  - reflexivity.
Defined.

(** X5.  [getNetworkStatus] while disconnected: it first tries to reconnect;
    when no probe succeeds it returns the object
    [{network, connected: false, error: 'Failed to connect to Solana
    network'}] and has sent nothing but the probes, so no sub-query is made
    on a connection that failed its probe. *)
Theorem X5_status_when_disconnected (cfg : Config) (remote : Remote) (sdk : Sdk)
    (api : SolanaAPI.t) (w : World) (pool : list string) :
  SolanaAPI.connected api = false ->
  SolanaAPI.endpoints_for cfg (SolanaAPI.network api) = Some pool ->
  (forall n e, exists m, r_getSlot remote n e = Thrown m) ->
  exists api' w' probed,
    SolanaAPI.getNetworkStatus cfg remote sdk (api, w) =
      (Returned (obj [ ("network", JStr (SolanaAPI.network api));
                       ("connected", JBool false);
                       ("error", JStr "Failed to connect to Solana network") ]),
       (api', w')) /\
    SolanaAPI.connected api' = false /\
    calls w' = (calls w ++ map probe_of probed)%list /\
    sublist probed pool.
Proof.
  intros Hk Hpool Hdown.
  destruct (connect_loop_probes cfg remote pool api w)
    as (api' & w' & probed & Hrun & Hcalls & Hsub & Hnet & _).
  destruct (connect_loop_down cfg remote pool api w Hdown) as (api2 & w2 & Hrun2 & Hk2).
  rewrite Hrun in Hrun2. injection Hrun2 as <- <-.
  rewrite Hk in Hk2.
  exists api', w', probed. split; [|split; [exact Hk2|split; [exact Hcalls|exact Hsub]]].
  unfold SolanaAPI.getNetworkStatus, try_catch.
  rewrite (bind_run this _ (api, w) api (api, w) eq_refl).
  rewrite Hk. cbn [negb].
  assert (Hinit : SolanaAPI.initConnection cfg remote (api, w) = (Returned tt, (api', w'))).
  { rewrite <- Hrun. unfold SolanaAPI.initConnection, bind, this. cbv beta iota.
    rewrite Hpool. reflexivity. }
  unfold bind at 1. unfold bind at 1. rewrite Hinit.
  unfold bind, this, ret. cbv beta iota. rewrite Hk2, Hnet. reflexivity.
Qed.

Lemma X5_status_witness :
  exists api' w' probed,
    SolanaAPI.getNetworkStatus (config ∅) (Demo.remote Demo.never Demo.always None) Demo.sdk
      (SolanaAPI.constructor, Demo.world) =
      (Returned (obj [ ("network", JStr (SolanaAPI.network SolanaAPI.constructor));
                       ("connected", JBool false);
                       ("error", JStr "Failed to connect to Solana network") ]),
       (api', w')) /\
    SolanaAPI.connected api' = false /\
    calls w' = (calls Demo.world ++ map probe_of probed)%list /\
    sublist probed [mainnet1; mainnet2; mainnet3].
Proof.
  apply (X5_status_when_disconnected (config ∅) (Demo.remote Demo.never Demo.always None)
           Demo.sdk SolanaAPI.constructor Demo.world [mainnet1; mainnet2; mainnet3]).
  - reflexivity.
  - vm_compute; reflexivity.
  - intros n e. exists "fetch failed". reflexivity.
Defined.

(** * Validation and error behaviour of the front-ends *)

(** X6.  An address that is not the base58 text of 32 bytes stops the four
    handlers of the stdio server before any remote call: each throws its
    own error around the cause and leaves the state as it was.  The same
    holds for [transferSol] when only the recipient is refused. *)
Theorem X6_handlers_refuse_bad_address (remote : Remote) (sdk : Sdk)
    (address : string) (cause : string) (st : SolanaAPI.t * World) :
  PublicKey_new address = Thrown cause ->
  SolanaAPI.getBalance remote address st =
    (Thrown ("Failed to get balance: " +:+ cause), st) /\
  SolanaAPI.getAccountInfo remote address st =
    (Thrown ("Failed to get account info: " +:+ cause), st) /\
  (forall limit,
     SolanaAPI.getTransactions remote sdk address limit st =
       (Thrown ("Failed to get transactions: " +:+ cause), st)) /\
  (forall to amount privateKey,
     SolanaAPI.transferSol remote sdk address to amount privateKey st =
       (Thrown ("Failed to transfer SOL: " +:+ cause), st)) /\
  (forall from pk amount privateKey,
     PublicKey_new from = Returned pk ->
     SolanaAPI.transferSol remote sdk from address amount privateKey st =
       (Thrown ("Failed to transfer SOL: " +:+ cause), st)).
Proof.
  intros Hbad. destruct st as [api w].
  split; [|split; [|split; [|split]]].
  - unfold SolanaAPI.getBalance, try_catch, bind, lift, throw. rewrite Hbad. reflexivity.
  - unfold SolanaAPI.getAccountInfo, try_catch, bind, lift, throw. rewrite Hbad. reflexivity.
  - intros limit. unfold SolanaAPI.getTransactions, try_catch, bind, lift, throw.
    rewrite Hbad. reflexivity.
  - intros to amount privateKey.
    unfold SolanaAPI.transferSol, try_catch, bind, lift, throw. rewrite Hbad. reflexivity.
  - intros from pk amount privateKey Hfrom.
    unfold SolanaAPI.transferSol, try_catch, bind, lift, throw. rewrite Hfrom, Hbad.
    reflexivity.
Qed.

Lemma X6_handlers_witness :
  SolanaAPI.getBalance (Demo.remote Demo.always Demo.always None) "not-an-address"
    (Demo.api, Demo.world) =
    (Thrown ("Failed to get balance: " +:+ "Non-base58 character"), (Demo.api, Demo.world)) /\
  SolanaAPI.getBalance (Demo.remote Demo.always Demo.always None) "abc"
    (Demo.api, Demo.world) =
    (Thrown ("Failed to get balance: " +:+ "Invalid public key input"),
     (Demo.api, Demo.world)).
Proof.
  split.
  - apply (X6_handlers_refuse_bad_address (Demo.remote Demo.always Demo.always None) Demo.sdk
             "not-an-address" "Non-base58 character" (Demo.api, Demo.world)).
    reflexivity.
  - apply (X6_handlers_refuse_bad_address (Demo.remote Demo.always Demo.always None) Demo.sdk
             "abc" "Invalid public key input" (Demo.api, Demo.world)).
    reflexivity.
Defined.

Section RoutesAnswer.
Variable remote : Remote.
Variable sdk : Sdk.

(** A route made of a handler call inside [try], answered with 200, and a
    [catch] that answers 500. *)
Lemma answers_handler {A} (handler : M (Legacy.t * World) A) (k : A -> Json) :
  answers (try_catch (let* x := handler in ret (json (k x)))
                     (fun message => ret (failure 500 message))).
Proof.
  intros st. unfold try_catch, bind, ret.
  destruct (handler st) as [[x|m] st'].
  - eexists _, _. split; [reflexivity|]. simpl. split; [left; reflexivity|].
    intros H. discriminate H.
  - eexists _, _. split; [reflexivity|]. simpl. split; [right; right; reflexivity|].
    intros H. discriminate H.
Qed.

(** The same behind a check that answers 400. *)
Lemma answers_guarded {A} (ok : bool) (message : string)
    (handler : M (Legacy.t * World) A) (k : A -> Json) :
  answers (try_catch (if negb ok then ret (failure 400 message)
                      else let* x := handler in ret (json (k x)))
                     (fun message => ret (failure 500 message))).
Proof.
  destruct ok; cbn [negb].
  - apply answers_handler.
  - intros st. eexists _, _. split; [reflexivity|]. simpl.
    split; [right; left; reflexivity | reflexivity].
Qed.

End RoutesAnswer.

(** X7.  Every HTTP route answers in every state: the status is 200, 400 or
    500 and no error escapes the handler.  When the status is 400 the
    request was refused by validation, before anything was sent to the
    ledger: the state is unchanged. *)
Theorem X7_routes_always_answer (remote : Remote) (sdk : Sdk) :
  answers (Routes.network remote sdk) /\
  (forall address, answers (Routes.balance remote address)) /\
  (forall address limit, answers (Routes.transactions remote sdk address limit)) /\
  (forall reqBody, answers (Routes.transfer remote sdk reqBody)) /\
  (forall address, answers (Routes.account remote address)) /\
  (forall reqBody, answers (Routes.execute remote sdk reqBody)) /\
  answers Routes.health /\
  answers (Routes.walletCreate sdk).
Proof.
  split; [|split; [|split; [|split; [|split; [|split; [|split]]]]]].
  - unfold Routes.network. apply (answers_handler _ (fun x => x)).
  - intros address. unfold Routes.balance. apply answers_guarded.
  - intros address limit. unfold Routes.transactions. cbv zeta. apply answers_guarded.
  - intros reqBody. unfold Routes.transfer.
    destruct (p_from reqBody) as [from|], (p_to reqBody) as [to|],
      (p_amount reqBody) as [amount|], (p_privateKey reqBody) as [privateKey|];
      try (intros st; eexists _, _; split; [reflexivity|]; simpl;
           split; [right; left; reflexivity | reflexivity]).
    destruct (given (Some from) && given (Some to) && givenNumber (Some amount) &&
              given (Some privateKey)); cbn [negb];
      [|intros st; eexists _, _; split; [reflexivity|]; simpl;
        split; [right; left; reflexivity | reflexivity]].
    destruct (Routes.validAddress from && Routes.validAddress to); cbn [negb];
      [|intros st; eexists _, _; split; [reflexivity|]; simpl;
        split; [right; left; reflexivity | reflexivity]].
    destruct (match amount with Fin q => Qle_bool q (inject_Z 0) | NaN => true end);
      [intros st; eexists _, _; split; [reflexivity|]; simpl;
       split; [right; left; reflexivity | reflexivity]|].
    apply (answers_handler _ (fun x => x)).
  - intros address. unfold Routes.account. apply answers_guarded.
  - intros reqBody. unfold Routes.execute. apply (answers_handler _ (fun x => x)).
  - intros st. eexists _, _. split; [reflexivity|]. simpl.
    split; [left; reflexivity | intros H; discriminate H].
  - unfold Routes.walletCreate.
    apply (answers_handler _
             (fun keypair =>
                obj [ ("publicKey", JStr (toBase58 (publicKey keypair)));
                      ("privateKey", JStr (bs58_encode (secretKey keypair))) ])).
Qed.

(** X8.  What the routes check before they call a handler.  An address that
    is not the base58 text of 32 bytes is answered 400 'Invalid Solana
    address' by the balance, transactions and account routes.  The transfer
    route answers 400 'Missing required parameters' when a field is absent
    or falsy, then 400 'Invalid Solana address' when [from] or [to] is
    refused, then 400 'Invalid amount' when the amount is not above zero.
    None of these answers touches the state. *)
Theorem X8_route_validation (remote : Remote) (sdk : Sdk) (st : Legacy.t * World) :
  (forall address limit,
     Routes.validAddress address = false ->
     Routes.balance remote address st =
       (Returned (failure 400 "Invalid Solana address"), st) /\
     Routes.transactions remote sdk address limit st =
       (Returned (failure 400 "Invalid Solana address"), st) /\
     Routes.account remote address st =
       (Returned (failure 400 "Invalid Solana address"), st)) /\
  (forall reqBody,
     given (p_from reqBody) && given (p_to reqBody) &&
       givenNumber (p_amount reqBody) && given (p_privateKey reqBody) = false ->
     Routes.transfer remote sdk reqBody st =
       (Returned (failure 400 "Missing required parameters"), st)) /\
  (forall from to amount privateKey limit address,
     given (Some from) && given (Some to) &&
       givenNumber (Some amount) && given (Some privateKey) = true ->
     Routes.validAddress from && Routes.validAddress to = false ->
     Routes.transfer remote sdk
       {| p_address := address; p_limit := limit; p_from := Some from; p_to := Some to;
          p_amount := Some amount; p_privateKey := Some privateKey |} st =
       (Returned (failure 400 "Invalid Solana address"), st)) /\
  (forall from to q privateKey limit address,
     given (Some from) && given (Some to) &&
       givenNumber (Some (Fin q)) && given (Some privateKey) = true ->
     Routes.validAddress from && Routes.validAddress to = true ->
     (q <= 0)%Q ->
     Routes.transfer remote sdk
       {| p_address := address; p_limit := limit; p_from := Some from; p_to := Some to;
          p_amount := Some (Fin q); p_privateKey := Some privateKey |} st =
       (Returned (failure 400 "Invalid amount"), st)).
Proof.
  split; [|split; [|split]].
  - intros address limit Hbad. unfold Routes.balance, Routes.transactions, Routes.account.
    rewrite Hbad. repeat split; reflexivity.
  - intros reqBody Hmissing. unfold Routes.transfer.
    destruct (p_from reqBody) as [from|], (p_to reqBody) as [to|],
      (p_amount reqBody) as [amount|], (p_privateKey reqBody) as [privateKey|];
      try reflexivity.
    rewrite Hmissing. reflexivity.
  - intros from to amount privateKey limit address Hgiven Hbad.
    unfold Routes.transfer. cbn [p_from p_to p_amount p_privateKey].
    rewrite Hgiven, Hbad. reflexivity.
  - intros from to q privateKey limit address Hgiven Hvalid Hq.
    unfold Routes.transfer. cbn [p_from p_to p_amount p_privateKey].
    rewrite Hgiven, Hvalid. cbn [negb].
    assert (H0 : Qle_bool q (inject_Z 0) = true) by (apply Qle_bool_iff; exact Hq).
    rewrite H0. reflexivity.
Qed.

Lemma X8_route_validation_witness :
  Routes.balance (Demo.remote Demo.always Demo.always None) "abc" (Demo.legacy, Demo.world) =
    (Returned (failure 400 "Invalid Solana address"), (Demo.legacy, Demo.world)) /\
  Routes.transfer (Demo.remote Demo.always Demo.always None) Demo.sdk
    {| p_address := None; p_limit := JUndefined; p_from := Some Demo.alice; p_to := None;
       p_amount := Some (num 1); p_privateKey := Some "k" |} (Demo.legacy, Demo.world) =
    (Returned (failure 400 "Missing required parameters"), (Demo.legacy, Demo.world)) /\
  Routes.transfer (Demo.remote Demo.always Demo.always None) Demo.sdk
    {| p_address := None; p_limit := JUndefined; p_from := Some Demo.alice;
       p_to := Some "abc"; p_amount := Some (num 1); p_privateKey := Some "k" |}
    (Demo.legacy, Demo.world) =
    (Returned (failure 400 "Invalid Solana address"), (Demo.legacy, Demo.world)) /\
  Routes.transfer (Demo.remote Demo.always Demo.always None) Demo.sdk
    {| p_address := None; p_limit := JUndefined; p_from := Some Demo.alice;
       p_to := Some Demo.bob; p_amount := Some (Fin (inject_Z (-1)));
       p_privateKey := Some "k" |}
    (Demo.legacy, Demo.world) =
    (Returned (failure 400 "Invalid amount"), (Demo.legacy, Demo.world)).
Proof.
  destruct (X8_route_validation (Demo.remote Demo.always Demo.always None) Demo.sdk
              (Demo.legacy, Demo.world)) as (Haddr & Hmiss & Hinv & Hamt).
  split; [|split; [|split]].
  - apply (Haddr "abc" None). reflexivity.
  - apply Hmiss. reflexivity.
  - apply Hinv; vm_compute; reflexivity.
  - apply Hamt; [vm_compute; reflexivity | vm_compute; reflexivity |].
    unfold Qle. simpl. lia.
Defined.

Lemma X7_routes_witness :
  snd (Routes.balance (Demo.remote Demo.always Demo.always None) "abc"
         (Demo.legacy, Demo.world)) = (Demo.legacy, Demo.world).
Proof.
  destruct (X7_routes_always_answer (Demo.remote Demo.always Demo.always None) Demo.sdk)
    as (_ & H & _).
  destruct (H "abc" (Demo.legacy, Demo.world)) as (resp & st' & Hrun & _ & H400).
  assert (E : fst (Routes.balance (Demo.remote Demo.always Demo.always None) "abc"
                     (Demo.legacy, Demo.world)) =
              Returned (failure 400 "Invalid Solana address")) by reflexivity.
  rewrite Hrun in *. simpl in E. injection E as ->. simpl. apply H400. reflexivity.
Defined.

Lemma eqb_not_in (act : string) (names : list string) :
  ~ In act names -> forallb (fun name => negb (String.eqb act name)) names = true.
Proof.
  induction names as [|name names IH]; intros Hnot; [reflexivity|].
  simpl. destruct (String.eqb act name) eqn:E.
  - apply String.eqb_eq in E. subst. exfalso. apply Hnot. left. reflexivity.
  - simpl. apply IH. intros Hin. apply Hnot. right. exact Hin.
Qed.

(** X9.  What the dispatcher of mcp.js refuses without sending anything: a
    request without an action, an action it has no case for (the error
    names the action), a request for an action on an address without an
    address, and a transfer with a field missing.  The state is unchanged
    in each case, and [POST /api/mcp/execute] answers 500 with the same
    message. *)
Theorem X9_dispatcher_refusals (remote : Remote) (sdk : Sdk) (st : Legacy.t * World) :
  (forall request,
     given (action request) = false ->
     Mcp.processRequest remote sdk request st = (Thrown "Missing action parameter", st)) /\
  (forall act params rid,
     given (Some act) = true -> ~ In act supportedActions ->
     Mcp.processRequest remote sdk
       {| action := Some act; parameters := params; requestId := rid |} st =
       (Thrown ("Unsupported action: " +:+ act), st) /\
     Routes.execute remote sdk
       {| action := Some act; parameters := params; requestId := rid |} st =
       (Returned (failure 500 ("Unsupported action: " +:+ act)), st)) /\
  (forall act request,
     action request = Some act -> In act addressActions ->
     given (param request p_address) = false ->
     Mcp.processRequest remote sdk request st = (Thrown "Missing address parameter", st)) /\
  (forall request,
     action request = Some "transferSol" ->
     given (param request p_from) && given (param request p_to) &&
       givenNumber (param request p_amount) && given (param request p_privateKey) = false ->
     Mcp.processRequest remote sdk request st =
       (Thrown "Missing required parameters for transfer", st)).
Proof.
  split; [|split; [|split]].
  - intros request Hact. unfold Mcp.processRequest.
    destruct (action request) as [act|]; [|reflexivity].
    simpl in Hact. apply negb_false_iff in Hact. rewrite Hact. reflexivity.
  - intros act params rid Hact Hnot.
    assert (Hne := eqb_not_in act supportedActions Hnot). simpl in Hne.
    repeat (apply andb_prop in Hne; destruct Hne as [?H Hne]).
    repeat match goal with H : negb _ = true |- _ => apply negb_true_iff in H end.
    simpl in Hact. apply negb_true_iff in Hact.
    assert (Hrun : Mcp.processRequest remote sdk
                     {| action := Some act; parameters := params; requestId := rid |} st =
                   (Thrown ("Unsupported action: " +:+ act), st)).
    { unfold Mcp.processRequest. cbn [action].
      repeat match goal with H : String.eqb act _ = false |- _ => rewrite H; clear H end.
      reflexivity. }
    split; [exact Hrun|]. unfold Routes.execute, try_catch, bind. rewrite Hrun. reflexivity.
  - intros act request Hact Hin Hmissing. unfold Mcp.processRequest. rewrite Hact.
    simpl in Hin.
    destruct Hin as [<-|[<-|[<-|[<-|[]]]]]; cbn [String.eqb Ascii.eqb Bool.eqb];
      destruct (param request p_address) as [address|]; try reflexivity;
      rewrite Hmissing; reflexivity.
  - intros request Hact Hmissing. unfold Mcp.processRequest. rewrite Hact.
    cbn [String.eqb Ascii.eqb Bool.eqb].
    destruct (param request p_from) as [from|], (param request p_to) as [to|],
      (param request p_amount) as [amount|], (param request p_privateKey) as [privateKey|];
      try reflexivity.
    rewrite Hmissing. reflexivity.
Qed.

Lemma X9_dispatcher_witness :
  Mcp.processRequest (Demo.remote Demo.always Demo.always None) Demo.sdk
    {| action := None; parameters := None; requestId := JNull |} (Demo.legacy, Demo.world) =
    (Thrown "Missing action parameter", (Demo.legacy, Demo.world)) /\
  Routes.execute (Demo.remote Demo.always Demo.always None) Demo.sdk
    {| action := Some "mintToken"; parameters := None; requestId := JNull |}
    (Demo.legacy, Demo.world) =
    (Returned (failure 500 ("Unsupported action: " +:+ "mintToken")),
     (Demo.legacy, Demo.world)) /\
  Mcp.processRequest (Demo.remote Demo.always Demo.always None) Demo.sdk
    {| action := Some "getBalance"; parameters := None; requestId := JNull |}
    (Demo.legacy, Demo.world) =
    (Thrown "Missing address parameter", (Demo.legacy, Demo.world)) /\
  Mcp.processRequest (Demo.remote Demo.always Demo.always None) Demo.sdk
    {| action := Some "transferSol"; parameters := None; requestId := JNull |}
    (Demo.legacy, Demo.world) =
    (Thrown "Missing required parameters for transfer", (Demo.legacy, Demo.world)).
Proof.
  destruct (X9_dispatcher_refusals (Demo.remote Demo.always Demo.always None) Demo.sdk
              (Demo.legacy, Demo.world)) as (Hnone & Hunknown & Haddr & Htransfer).
  split; [|split; [|split]].
  - apply Hnone. reflexivity.
  - apply (Hunknown "mintToken" None JNull); [reflexivity|].
    simpl. intros H. repeat (destruct H as [H|H]; [discriminate H|]). exact H.
  - apply (Haddr "getBalance"); [reflexivity | simpl; tauto | reflexivity].
  - apply Htransfer; reflexivity.
Defined.

(** X10.  The WebSocket channel.  For a request object,
    [handleWebSocketMessage] sends one reply and does not throw: the reply
    carries the [requestId] of the request, with type 'response' and the
    result when the dispatcher returned, and with type 'error' and the
    message when it threw.  The handler of inbound frames answers a frame
    it cannot read with 'Invalid message format' and a type it does not
    know with 'Unknown message type', sends nothing for 'subscribe', and for
    'mcp' sends the reply of [handleWebSocketMessage] for the data of the
    frame.  A frame of type 'mcp' whose data is missing or [null] is the one
    case that is not answered: the call of [handleWebSocketMessage] rejects
    with a [TypeError] that no handler catches, and nothing is sent. *)
Theorem X10_websocket_replies (remote : Remote) (sdk : Sdk) (st : Legacy.t * World) :
  (forall message,
     exists reply st',
       Mcp.handleWebSocketMessage remote sdk message st = (Returned reply, st') /\
       prop reply "requestId" = requestId message /\
       ((exists v, Mcp.processRequest remote sdk message st = (Returned v, st') /\
                   prop reply "type" = JStr "response" /\ prop reply "data" = v) \/
        (exists m, Mcp.processRequest remote sdk message st = (Thrown m, st') /\
                   prop reply "type" = JStr "error" /\ prop reply "error" = JStr m))) /\
  WebSocket.onMessage remote sdk Malformed st =
    (Returned [obj [ ("type", JStr "error"); ("message", JStr "Invalid message format") ]],
     st) /\
  (forall type data,
     type <> JStr "subscribe" -> type <> JStr "mcp" ->
     WebSocket.onMessage remote sdk (Parsed type data) st =
       (Returned [obj [ ("type", JStr "error"); ("message", JStr "Unknown message type") ]],
        st)) /\
  (forall data,
     WebSocket.onMessage remote sdk (Parsed (JStr "subscribe") data) st = (Returned [], st)) /\
  (forall message,
     exists reply st',
       Mcp.handleWebSocketMessage remote sdk message st = (Returned reply, st') /\
       WebSocket.onMessage remote sdk (Parsed (JStr "mcp") (Fields message)) st =
         (Returned [reply], st')) /\
  WebSocket.onMessage remote sdk (Parsed (JStr "mcp") Absent) st =
    (Thrown "Cannot read properties of undefined (reading 'requestId')", st) /\
  WebSocket.onMessage remote sdk (Parsed (JStr "mcp") Null) st =
    (Thrown "Cannot read properties of null (reading 'requestId')", st).
Proof.
  assert (Hreply : forall message,
     exists reply st',
       Mcp.handleWebSocketMessage remote sdk message st = (Returned reply, st') /\
       prop reply "requestId" = requestId message /\
       ((exists v, Mcp.processRequest remote sdk message st = (Returned v, st') /\
                   prop reply "type" = JStr "response" /\ prop reply "data" = v) \/
        (exists m, Mcp.processRequest remote sdk message st = (Thrown m, st') /\
                   prop reply "type" = JStr "error" /\ prop reply "error" = JStr m))).
  { intros message. unfold Mcp.handleWebSocketMessage, try_catch, bind, ret.
    destruct (Mcp.processRequest remote sdk message st) as [[v|m] st'].
    - eexists _, _. split; [reflexivity|]. split; [reflexivity|]. left.
      exists v. repeat split; reflexivity.
    - eexists _, _. split; [reflexivity|]. split; [reflexivity|]. right.
      exists m. repeat split; reflexivity. }
  split; [exact Hreply|]. split; [reflexivity|]. split; [|split; [|split; [|split]]].
  - intros type data Hsub Hmcp. unfold WebSocket.onMessage.
    destruct type as [| | | |type| |]; try reflexivity.
    destruct (String.eqb_spec type "subscribe") as [->|_]; [contradiction Hsub; reflexivity|].
    destruct (String.eqb_spec type "mcp") as [->|_]; [contradiction Hmcp; reflexivity|].
    reflexivity.
  - intros data. reflexivity.
  - intros message. destruct (Hreply message) as (reply & st' & Hrun & _).
    exists reply, st'. split; [exact Hrun|].
    unfold WebSocket.onMessage, WebSocket.dispatch, bind, ret. simpl. rewrite Hrun.
    reflexivity.
  - reflexivity.
  - reflexivity.
Qed.

Lemma X10_websocket_witness :
  WebSocket.onMessage (Demo.remote Demo.always Demo.always None) Demo.sdk
    (Parsed (JStr "ping") Absent) (Demo.legacy, Demo.world) =
    (Returned [obj [ ("type", JStr "error"); ("message", JStr "Unknown message type") ]],
     (Demo.legacy, Demo.world)).
Proof.
  destruct (X10_websocket_replies (Demo.remote Demo.always Demo.always None) Demo.sdk
              (Demo.legacy, Demo.world)) as (_ & _ & H & _).
  apply H; intros E; discriminate E.
Defined.

(** * Transfers *)

(** X11.  The two [transferSol] functions compare the address derived from
    the private key with [fromAddress] before they contact the ledger.  With
    valid addresses and a key that decodes to another address they throw
    'Private key does not match sender address' inside their own error and
    send nothing; the stdio tool reports it as an error result and
    [POST /api/transfer] answers 500, both with the state unchanged. *)
Theorem X11_checked_transfers_refuse_mismatch (remote : Remote) (sdk : Sdk)
    (from to privateKey : string) (q : Q) (bytes : list Z) (kp : Keypair)
    (pf pt : PublicKey) :
  PublicKey_new from = Returned pf ->
  PublicKey_new to = Returned pt ->
  SolanaAPI.decodeKey privateKey = Returned bytes ->
  Keypair_fromSecretKey sdk bytes = Returned kp ->
  toBase58 (publicKey kp) <> from ->
  (0 < q)%Q ->
  (32 <= String.length from <= 44)%nat ->
  (32 <= String.length to <= 44)%nat ->
  (87 <= String.length privateKey <= 88)%nat ->
  (forall st,
     SolanaAPI.transferSol remote sdk from to (Fin q) privateKey st =
       (Thrown mismatchError, st)) /\
  (forall st,
     Legacy.transferSol remote sdk from to (Fin q) privateKey st =
       (Thrown mismatchError, st)) /\
  (forall st,
     Server.tool_transferSol remote sdk (transferArgs from to (Fin q) privateKey) st =
       (Returned (IsError ("Error transferring SOL: " +:+ mismatchError)), st)) /\
  (forall st,
     Routes.transfer remote sdk (transferBody from to (Fin q) privateKey) st =
       (Returned (failure 500 mismatchError), st)).
Proof.
  intros Hpf Hpt Hd Hk Hne Hq Hlf Hlt Hlk.
  assert (Hcause : mismatchCause from to = "Private key does not match sender address").
  { unfold mismatchCause. rewrite Hpf, Hpt. reflexivity. }
  assert (Hapi : forall st,
            SolanaAPI.transferSol remote sdk from to (Fin q) privateKey st =
              (Thrown mismatchError, st)).
  { intros st.
    rewrite (transferSol_rejects_mismatch remote sdk from to (Fin q) privateKey bytes kp st
               Hd Hk Hne).
    rewrite Hcause. reflexivity. }
  assert (Hlegacy : forall st,
            Legacy.transferSol remote sdk from to (Fin q) privateKey st =
              (Thrown mismatchError, st)).
  { intros st.
    rewrite (legacy_transferSol_rejects_mismatch remote sdk from to (Fin q) privateKey
               bytes kp st Hd Hk Hne).
    rewrite Hcause. reflexivity. }
  assert (Hpos : Qle_bool q (inject_Z 0) = false).
  { destruct (Qle_bool q (inject_Z 0)) eqn:E; [|reflexivity].
    apply Qle_bool_iff in E. exfalso. apply (Qlt_not_le _ _ Hq). exact E. }
  split; [exact Hapi|]. split; [exact Hlegacy|]. split.
  - intros st. unfold Server.tool_transferSol, transferArgs.
    change (prop (obj [("from", JStr from); ("to", JStr to); ("amount", JNum (Fin q));
                       ("privateKey", JStr privateKey)]) "from") with (JStr from).
    change (prop (obj [("from", JStr from); ("to", JStr to); ("amount", JNum (Fin q));
                       ("privateKey", JStr privateKey)]) "to") with (JStr to).
    change (prop (obj [("from", JStr from); ("to", JStr to); ("amount", JNum (Fin q));
                       ("privateKey", JStr privateKey)]) "amount") with (JNum (Fin q)).
    change (prop (obj [("from", JStr from); ("to", JStr to); ("amount", JNum (Fin q));
                       ("privateKey", JStr privateKey)]) "privateKey") with (JStr privateKey).
    unfold z_string, z_positive.
    destruct Hlf as [Hf1 Hf2], Hlt as [Ht1 Ht2], Hlk as [Hk1 Hk2].
    apply Nat.leb_le in Hf1, Hf2, Ht1, Ht2, Hk1, Hk2.
    rewrite Hf1, Hf2, Ht1, Ht2, Hk1, Hk2, Hpos. cbn [andb].
    unfold try_catch, bind. rewrite Hapi. reflexivity.
  - intros st. unfold Routes.transfer, transferBody.
    cbn [p_from p_to p_amount p_privateKey].
    assert (Hgf : given (Some from) = true) by (apply (address_given from pf Hpf)).
    assert (Hgt : given (Some to) = true) by (apply (address_given to pt Hpt)).
    assert (Hgk : given (Some privateKey) = true).
    { unfold given. destruct privateKey; [simpl in Hlk; lia | reflexivity]. }
    assert (Hga : givenNumber (Some (Fin q)) = true).
    { unfold givenNumber, truthy. destruct (Qeq_bool q (inject_Z 0)) eqn:E; [|reflexivity].
      apply Qeq_bool_iff in E. exfalso. rewrite E in Hq. apply (Qlt_irrefl _ Hq). }
    rewrite Hgf, Hgt, Hgk, Hga. cbn [andb negb].
    unfold Routes.validAddress. rewrite Hpf, Hpt. cbn [andb negb]. rewrite Hpos.
    unfold try_catch, bind. rewrite Hlegacy. reflexivity.
Qed.

Lemma X11_mismatch_witness :
  Server.tool_transferSol (Demo.remote Demo.always Demo.always None) Demo.sdk
    (transferArgs Demo.alice Demo.bob (Fin (inject_Z 1)) (bs58_encode Demo.bobSecret))
    (Demo.api, Demo.world) =
    (Returned (IsError ("Error transferring SOL: " +:+ mismatchError)),
     (Demo.api, Demo.world)) /\
  Routes.transfer (Demo.remote Demo.always Demo.always None) Demo.sdk
    (transferBody Demo.alice Demo.bob (Fin (inject_Z 1)) (bs58_encode Demo.bobSecret))
    (Demo.legacy, Demo.world) =
    (Returned (failure 500 mismatchError), (Demo.legacy, Demo.world)).
Proof.
  destruct (X11_checked_transfers_refuse_mismatch
              (Demo.remote Demo.always Demo.always None) Demo.sdk
              Demo.alice Demo.bob (bs58_encode Demo.bobSecret) (inject_Z 1) Demo.bobSecret
              {| publicKey := {| pk_bytes := repeat 2 32 |}; secretKey := Demo.bobSecret |}
              {| pk_bytes := repeat 1 32 |} {| pk_bytes := repeat 2 32 |})
    as (_ & _ & Htool & Hroute); try (vm_compute; reflexivity).
  - intros E. vm_compute in E. discriminate E.
  - vm_compute. lia.
  - vm_compute. lia.
  - vm_compute. lia.
  - split; [apply Htool | apply Hroute].
Defined.

(** X12.  [SolanaAPI.transferSol] submits at most once and never retries.
    Whatever the outcome, the calls it has made are an initial part of:
    fetch a recent blockhash, submit, wait for the confirmation.  A
    transaction that was submitted carries the blockhash, is paid by the
    sender and is signed by the one key whose address is [fromAddress].  The
    function returns a receipt only after all three calls, and the receipt
    names the signature the submission gave. *)
Theorem X12_transfer_submits_at_most_once (remote : Remote) (sdk : Sdk)
    (from to privateKey : string) (amount : Number)
    (api api' : SolanaAPI.t) (w w' : World) (o : Outcome Json) :
  SolanaAPI.transferSol remote sdk from to amount privateKey (api, w) = (o, (api', w')) ->
  api' = api /\
  exists e tx signature sent,
    calls w' = (calls w ++ sent)%list /\
    sent `prefix_of` transferSteps e tx signature /\
    (In (e, sendRawTransaction tx) sent ->
     exists pf pk,
       PublicKey_new from = Returned pf /\
       tx_from tx = pf /\ tx_feePayer tx = Some pf /\
       is_Some (tx_recentBlockhash tx) /\
       tx_signers tx = [pk] /\ toBase58 pk = from) /\
    (forall v, o = Returned v ->
       sent = transferSteps e tx signature /\
       prop v "success" = JBool true /\
       prop v "signature" = JStr signature).
Proof.
  pose (noTx := {| tx_from := {| pk_bytes := [] |}; tx_to := {| pk_bytes := [] |};
                   tx_lamports := NaN; tx_recentBlockhash := None; tx_feePayer := None;
                   tx_signers := [] |}).
  assert (Hnothing : forall m,
            (Thrown m, (api, w)) = (o, (api', w')) ->
            api' = api /\
            exists e tx signature sent,
              calls w' = (calls w ++ sent)%list /\
              sent `prefix_of` transferSteps e tx signature /\
              (In (e, sendRawTransaction tx) sent ->
               exists pf pk,
                 PublicKey_new from = Returned pf /\
                 tx_from tx = pf /\ tx_feePayer tx = Some pf /\
                 is_Some (tx_recentBlockhash tx) /\
                 tx_signers tx = [pk] /\ toBase58 pk = from) /\
              (forall v, o = Returned v ->
                 sent = transferSteps e tx signature /\
                 prop v "success" = JBool true /\
                 prop v "signature" = JStr signature)).
  { intros m H. injection H as <- <- <-. split; [reflexivity|].
    exists "", noTx, "", []. split; [rewrite app_nil_r; reflexivity|].
    split; [apply prefix_nil|]. split; [intros []|]. intros v E. discriminate E. }
  unfold SolanaAPI.transferSol, SolanaAPI.call, rpc, try_catch, bind, lift, throw, this, ret.
  destruct (PublicKey_new from) as [pf|m0] eqn:Hpf; [|apply Hnothing].
  destruct (PublicKey_new to) as [pt|m0]; [|apply Hnothing].
  destruct (SolanaAPI.decodeKey privateKey) as [bytes|m0]; [|apply Hnothing].
  destruct (Keypair_fromSecretKey sdk bytes) as [kp|m0]; [|apply Hnothing].
  destruct (String.eqb (toBase58 (publicKey kp)) from) eqn:Hsame; cbn [negb];
    [|apply Hnothing].
  apply String.eqb_eq in Hsame.
  destruct (SystemProgram_transfer sdk pf pt (Nmul amount (num LAMPORTS_PER_SOL)))
    as [[]|m0]; [|apply Hnothing].
  cbv beta iota.
  destruct (SolanaAPI.connection api) as [c|] eqn:Hc; [|apply Hnothing].
  destruct (r_getLatestBlockhash remote (List.length (calls w)) (rpcEndpoint c))
    as [[blockhash height]|m0]; cbv beta iota.
  2:{ intros H. injection H as <- <- <-. split; [reflexivity|].
      exists (rpcEndpoint c), noTx, "", [(rpcEndpoint c, getLatestBlockhash)].
      split; [reflexivity|]. split; [exists [(rpcEndpoint c, sendRawTransaction noTx);
                                             (rpcEndpoint c, confirmTransaction "")];
                                     reflexivity|].
      split; [|intros v E; discriminate E].
      intros [E|[]]. discriminate E. }
  cbn [fst].
  set (tx := {| tx_from := pf; tx_to := pt;
                tx_lamports := Nmul amount (num LAMPORTS_PER_SOL);
                tx_recentBlockhash := Some blockhash; tx_feePayer := Some pf;
                tx_signers := [publicKey kp] |}).
  set (w1 := record_call (rpcEndpoint c) getLatestBlockhash
               (elapsed remote (List.length (calls w))) w).
  assert (Htx : exists pf' pk,
            Returned pf = Returned pf' /\
            tx_from tx = pf' /\ tx_feePayer tx = Some pf' /\
            is_Some (tx_recentBlockhash tx) /\
            tx_signers tx = [pk] /\ toBase58 pk = from).
  { exists pf, (publicKey kp). repeat split; try reflexivity; [eexists; reflexivity | exact Hsame]. }
  destruct (signAndSerialize sdk tx) as [[]|m0]; cbv beta iota; rewrite ?Hc.
  2:{ intros H. apply pair_equal_spec in H as [<- H].
      apply pair_equal_spec in H as [<- <-]. split; [reflexivity|].
      exists (rpcEndpoint c), tx, "", [(rpcEndpoint c, getLatestBlockhash)].
      split; [reflexivity|]. split; [eexists; reflexivity|].
      split; [intros _; exact Htx | intros v E; discriminate E]. }
  destruct (r_send remote (List.length (calls w1)) (rpcEndpoint c) tx) as [signature|m0];
    cbv beta iota; rewrite ?Hc.
  2:{ intros H. apply pair_equal_spec in H as [<- H].
      apply pair_equal_spec in H as [<- <-]. split; [reflexivity|].
      exists (rpcEndpoint c), tx, "",
        [(rpcEndpoint c, getLatestBlockhash); (rpcEndpoint c, sendRawTransaction tx)].
      split; [simpl; rewrite <- app_assoc; reflexivity|]. split; [eexists; reflexivity|].
      split; [intros _; exact Htx | intros v E; discriminate E]. }
  match goal with
  | |- context [r_confirmTransaction remote ?n (rpcEndpoint c) signature] =>
      destruct (r_confirmTransaction remote n (rpcEndpoint c) signature) as [[]|m0]
  end; cbv beta iota;
    (intros H; apply pair_equal_spec in H as [<- H];
     apply pair_equal_spec in H as [<- <-]; split; [reflexivity|];
     exists (rpcEndpoint c), tx, signature, (transferSteps (rpcEndpoint c) tx signature);
     split; [simpl; rewrite <- !app_assoc; reflexivity|];
     split; [reflexivity|]; split; [intros _; exact Htx|]).
  - intros v E. injection E as <-. repeat split; reflexivity.
  - intros v E. discriminate E.
Qed.

Lemma X12_transfer_witness :
  fst (snd (SolanaAPI.transferSol (Demo.remote Demo.always Demo.always None) Demo.sdk
              Demo.alice Demo.bob (num 1) (bs58_encode Demo.aliceSecret)
              (Demo.api, Demo.world))) = Demo.api /\
  exists v,
    fst (SolanaAPI.transferSol (Demo.remote Demo.always Demo.always None) Demo.sdk
           Demo.alice Demo.bob (num 1) (bs58_encode Demo.aliceSecret)
           (Demo.api, Demo.world)) = Returned v /\
    prop v "signature" = JStr "sig".
Proof.
  destruct (SolanaAPI.transferSol (Demo.remote Demo.always Demo.always None) Demo.sdk
              Demo.alice Demo.bob (num 1) (bs58_encode Demo.aliceSecret)
              (Demo.api, Demo.world)) as [o [api' w']] eqn:E.
  destruct (X12_transfer_submits_at_most_once _ _ _ _ _ _ _ _ _ _ _ E) as [Hapi _].
  split; [exact Hapi|].
  vm_compute in E. injection E as <- _ _.
  eexists. split; [reflexivity|]. vm_compute. reflexivity.
Defined.

(** * Transaction history *)

Lemma mapOutcome_rows {A B} (f : A -> Outcome B) (l : list A) : forall rows,
  SolanaAPI.mapOutcome f l = Returned rows ->
  List.length rows = List.length l /\
  forall i a, l !! i = Some a -> exists b, rows !! i = Some b /\ f a = Returned b.
Proof.
  induction l as [|a l IH]; intros rows H; simpl in H.
  - injection H as <-. split; [reflexivity|]. intros i a Hi. discriminate Hi.
  - destruct (f a) as [b|m] eqn:Hb; [|discriminate H].
    destruct (SolanaAPI.mapOutcome f l) as [bs|m]; [|discriminate H].
    injection H as <-. destruct (IH bs eq_refl) as [Hlen Hrows].
    split; [simpl; rewrite Hlen; reflexivity|].
    intros [|i] a' Hi; simpl in Hi.
    + injection Hi as <-. exists b. split; [reflexivity | exact Hb].
    + apply Hrows. exact Hi.
Qed.

(** X13.  [getTransactions] returns the signatures in the order in which the
    ledger listed them, one row for each: a row carries the signature, the
    slot and the error of its entry, and [null] as block time when the
    entry has none.  An absent limit asks the ledger for 10. *)
Theorem X13_transactions_keep_order (remote : Remote) (sdk : Sdk) (address : string)
    (limit : Json) (api : SolanaAPI.t) (w : World) (v : Json) (st' : SolanaAPI.t * World) :
  SolanaAPI.getTransactions remote sdk address limit (api, w) = (Returned v, st') ->
  exists pk c signatures rows,
    PublicKey_new address = Returned pk /\
    SolanaAPI.connection api = Some c /\
    calls (snd st') =
      (calls w ++ [(rpcEndpoint c,
                    getSignaturesForAddress pk
                      (match limit with JUndefined => jnum 10 | _ => limit end))])%list /\
    r_getSignaturesForAddress remote (List.length (calls w)) (rpcEndpoint c) pk
      (match limit with JUndefined => jnum 10 | _ => limit end) = Returned signatures /\
    v = JArr rows /\
    List.length rows = List.length signatures /\
    forall i entry,
      signatures !! i = Some entry ->
      exists row,
        rows !! i = Some row /\
        prop row "signature" = JStr (sig_signature entry) /\
        prop row "slot" = jnum (sig_slot entry) /\
        prop row "err" = sig_err entry /\
        (sig_blockTime entry = None -> prop row "blockTime" = JNull).
Proof.
  unfold SolanaAPI.getTransactions. cbv zeta.
  set (lim := match limit with JUndefined => jnum 10 | _ => limit end).
  unfold SolanaAPI.call, rpc, try_catch, bind, lift, throw, this, ret.
  destruct (PublicKey_new address) as [pk|m0]; [|intros H; discriminate H].
  cbv beta iota.
  destruct (SolanaAPI.connection api) as [c|]; [|intros H; discriminate H].
  destruct (r_getSignaturesForAddress remote (List.length (calls w)) (rpcEndpoint c) pk lim)
    as [signatures|m0] eqn:Hreply; [|intros H; discriminate H].
  destruct (SolanaAPI.mapOutcome (SolanaAPI.sigJson sdk) signatures) as [rows|m0] eqn:Hrows;
    [|intros H; discriminate H].
  intros H. injection H as <- <-.
  destruct (mapOutcome_rows _ _ _ Hrows) as [Hlen Hrow].
  exists pk, c, signatures, rows.
  split; [reflexivity|]. split; [reflexivity|]. split; [reflexivity|].
  split; [exact Hreply|]. split; [reflexivity|]. split; [exact Hlen|].
  intros i entry Hi. destruct (Hrow i entry Hi) as (row & Hr & Hjson).
  exists row. split; [exact Hr|].
  unfold SolanaAPI.sigJson in Hjson.
  destruct (SolanaAPI.isoOrNull sdk (sig_blockTime entry)) as [blockTime|m0] eqn:Hiso;
    [|discriminate Hjson].
  injection Hjson as <-.
  split; [reflexivity|]. split; [reflexivity|]. split; [reflexivity|].
  intros Hnone. rewrite Hnone in Hiso. simpl in Hiso. injection Hiso as <-. reflexivity.
Qed.

Lemma X13_transactions_witness :
  exists rows,
    fst (SolanaAPI.getTransactions
           (Fixtures.withHistory (Demo.remote Demo.always Demo.always None)
              [Fixtures.entry "newer" 251 None; Fixtures.entry "older" 250 (Some 1700000000)])
           Demo.sdk Demo.systemProgram JUndefined (Demo.api, Demo.world)) =
      Returned (JArr rows) /\
    List.length rows = 2%nat.
Proof.
  destruct (SolanaAPI.getTransactions
              (Fixtures.withHistory (Demo.remote Demo.always Demo.always None)
                 [Fixtures.entry "newer" 251 None;
                  Fixtures.entry "older" 250 (Some 1700000000)])
              Demo.sdk Demo.systemProgram JUndefined (Demo.api, Demo.world))
    as [[v|m] st'] eqn:E; [|vm_compute in E; discriminate E].
  destruct (X13_transactions_keep_order _ _ _ _ _ _ _ _ E)
    as (pk & c & signatures & rows & _ & _ & _ & Hreply & -> & Hlen & _).
  simpl in Hreply. injection Hreply as <-.
  exists rows. split; [reflexivity | exact Hlen].
Defined.

(** * The key file *)

Lemma existsSync_file (path content : string) (w : World) :
  files w !! path = Some content -> Keys.existsSync path w = true.
Proof.
  intros H. unfold Keys.existsSync. rewrite H.
  rewrite (bool_decide_eq_true_2 (is_Some (Some content))) by (eexists; reflexivity).
  apply orb_true_r.
Qed.

(** X14.  When the key file exists, [getOrCreateKeypair] reads it and never
    writes: no file changes, no key is generated, and the result is the key
    decoded from the text of the file.  A file that does not parse or does
    not hold a valid secret key is an error, not a reason to generate a
    fresh key. *)
Theorem X14_existing_key_file_is_kept (sdk : Sdk) (writeError : string -> World -> option string)
    (keysFolder name content : string) (w : World) :
  files w !! path_resolve sdk keysFolder (name +:+ ".json") = Some content ->
  exists w',
    Keys.getOrCreateKeypair sdk writeError keysFolder name w =
      (match JSON_parse sdk content with
       | Returned keypairData => Keypair_fromSecretKey sdk keypairData
       | Thrown m => Thrown m
       end, w') /\
    files w' = files w /\
    generated w' = generated w /\
    calls w' = calls w.
Proof.
  intros Hfile. unfold Keys.getOrCreateKeypair, Keys.prepared. cbv zeta.
  set (w1 := if negb (Keys.existsSync keysFolder w) then Keys.mkdirSync keysFolder w else w).
  assert (Hf1 : files w1 = files w)
    by (unfold w1; destruct (Keys.existsSync keysFolder w); reflexivity).
  assert (Hg1 : generated w1 = generated w)
    by (unfold w1; destruct (Keys.existsSync keysFolder w); reflexivity).
  assert (Hc1 : calls w1 = calls w)
    by (unfold w1; destruct (Keys.existsSync keysFolder w); reflexivity).
  rewrite (existsSync_file _ content) by (rewrite Hf1; exact Hfile).
  rewrite Hf1, Hfile. exists w1.
  split; [destruct (JSON_parse sdk content); reflexivity|].
  split; [exact Hf1|]. split; [exact Hg1 | exact Hc1].
Qed.

Lemma X14_existing_key_witness :
  exists w',
    Keys.getOrCreateKeypair Fixtures.sdk Fixtures.writeError "keys" "signer"
      {| calls := []; clock := 0; generated := 0;
         files := {[ "keys/signer.json" := "[1,2,3]" ]}; dirs := {[ "keys" ]} |} =
      (Thrown "bad secret key size", w') /\
    files w' = {[ "keys/signer.json" := "[1,2,3]" ]} /\
    generated w' = 0%nat.
Proof.
  destruct (X14_existing_key_file_is_kept Fixtures.sdk Fixtures.writeError "keys" "signer" "[1,2,3]"
              {| calls := []; clock := 0; generated := 0;
                 files := {[ "keys/signer.json" := "[1,2,3]" ]}; dirs := {[ "keys" ]} |})
    as (w' & Hrun & Hfiles & Hgen & _).
  - reflexivity.
  - exists w'. split; [exact Hrun|]. split; [exact Hfiles | exact Hgen].
Defined.



(** * Arguments of the token-minting flow *)

Section TokenArguments.
Variable env : gmap string string.
Variable sdk : Sdk.
Variable createToken : Json -> World -> Json * World.
Variable imagePath : string.
Variable rpcUrl : Json.

Lemma createPumpFunToken_missing (fields : gmap string Json) (w : World) :
  truthy (prop (JObj fields) "name") = false \/ truthy (prop (JObj fields) "symbol") = false ->
  Pumpfun.createPumpFunToken env sdk createToken imagePath rpcUrl fields w =
    (Thrown "Missing required parameters: name and symbol must be provided", w).
Proof.
  intros H. unfold Pumpfun.createPumpFunToken, try_catch, throw.
  assert (Hguard : negb (truthy (prop (JObj fields) "name")) ||
                   negb (truthy (prop (JObj fields) "symbol")) = true).
  { destruct H as [-> | ->]; [reflexivity | apply orb_true_r]. }
  rewrite Hguard. reflexivity.
Qed.

Lemma createPumpFunToken_reaches (fields : gmap string Json) (w : World) :
  truthy (prop (JObj fields) "name") = true ->
  truthy (prop (JObj fields) "symbol") = true ->
  Pumpfun.createPumpFunToken env sdk createToken imagePath rpcUrl fields w =
    (Returned
       (fst (createToken
               (Pumpfun.tokenOptions env sdk imagePath rpcUrl (JObj fields)
                  (Pumpfun.selectPrivateKey env (JObj fields)) (clock w)) w)),
     snd (createToken
            (Pumpfun.tokenOptions env sdk imagePath rpcUrl (JObj fields)
               (Pumpfun.selectPrivateKey env (JObj fields)) (clock w)) w)).
Proof.
  intros Hname Hsymbol. unfold Pumpfun.createPumpFunToken, try_catch, throw.
  assert (Hkey : truthy (Pumpfun.selectPrivateKey env (JObj fields)) = true)
    by (unfold Pumpfun.selectPrivateKey; apply js_or_truthy; reflexivity).
  rewrite Hname, Hsymbol, Hkey. cbn [negb orb].
  destruct (createToken _ w) as [result w']. reflexivity.
Qed.

Lemma selectPrivateKey_precedence (params : Json) :
  Pumpfun.selectPrivateKey env params =
    if truthy (prop params "privateKey") then prop params "privateKey"
    else match env !! "PUMPFUN_PRIVATE_KEY" with
         | Some key => if String.eqb key "" then JStr Pumpfun.hardcodedKey else JStr key
         | None => JStr Pumpfun.hardcodedKey
         end.
Proof.
  unfold Pumpfun.selectPrivateKey, js_or, env_get.
  destruct (truthy (prop params "privateKey")) eqn:Hp.
  - rewrite Hp. reflexivity.
  - destruct (env !! "PUMPFUN_PRIVATE_KEY") as [key|]; [|reflexivity].
    destruct key as [|c key]; reflexivity.
Qed.

End TokenArguments.

(** X16.  [createPumpFunToken] without a name or without a symbol throws
    'Missing required parameters ...' before the minting flow runs, and
    nothing changes.  With both, the minting flow is called once, and the
    options it receives take the signing key from the caller when the caller
    gives a non-empty one, else from PUMPFUN_PRIVATE_KEY when that is set and
    non-empty, else the hard-coded text; the image is always the default
    image, whatever [imagePath] the caller names. *)
Theorem X16_createPumpFunToken_arguments (env : gmap string string) (sdk : Sdk)
    (createToken : Json -> World -> Json * World) (imagePath : string) (rpcUrl : Json)
    (fields : gmap string Json) (w : World) :
  (truthy (prop (JObj fields) "name") = false \/
   truthy (prop (JObj fields) "symbol") = false ->
   Pumpfun.createPumpFunToken env sdk createToken imagePath rpcUrl fields w =
     (Thrown "Missing required parameters: name and symbol must be provided", w)) /\
  (truthy (prop (JObj fields) "name") = true ->
   truthy (prop (JObj fields) "symbol") = true ->
   exists options,
     Pumpfun.createPumpFunToken env sdk createToken imagePath rpcUrl fields w =
       (Returned (fst (createToken options w)), snd (createToken options w)) /\
     prop options "imagePath" = JStr imagePath /\
     prop (prop options "metadata") "name" = prop (JObj fields) "name" /\
     prop (prop options "metadata") "symbol" = prop (JObj fields) "symbol" /\
     prop options "privateKey" =
       if truthy (prop (JObj fields) "privateKey") then prop (JObj fields) "privateKey"
       else match env !! "PUMPFUN_PRIVATE_KEY" with
            | Some key => if String.eqb key "" then JStr Pumpfun.hardcodedKey else JStr key
            | None => JStr Pumpfun.hardcodedKey
            end).
Proof.
  split; [apply createPumpFunToken_missing|].
  intros Hname Hsymbol. eexists. split; [apply createPumpFunToken_reaches; assumption|].
  split; [reflexivity|]. split; [reflexivity|]. split; [reflexivity|].
  rewrite <- selectPrivateKey_precedence. reflexivity.
Qed.

Lemma X16_createPumpFunToken_witness :
  Pumpfun.createPumpFunToken {[ "PUMPFUN_PRIVATE_KEY" := "from the environment" ]}
    Demo.sdk Demo.createToken "random.png" JUndefined
    {[ "name" := JStr "Token" ]} Demo.world =
    (Thrown "Missing required parameters: name and symbol must be provided", Demo.world) /\
  Pumpfun.createPumpFunToken {[ "PUMPFUN_PRIVATE_KEY" := "from the environment" ]}
    Demo.sdk Demo.createToken "random.png" JUndefined
    {[ "name" := JStr "Token"; "symbol" := JStr "TKN"; "imagePath" := JStr "mine.png" ]}
    Demo.world =
    (Returned (obj [ ("success", JBool false); ("key", JStr "from the environment") ]),
     Demo.world).
Proof.
  split.
  - apply (X16_createPumpFunToken_arguments
             {[ "PUMPFUN_PRIVATE_KEY" := "from the environment" ]}
             Demo.sdk Demo.createToken "random.png" JUndefined
             {[ "name" := JStr "Token" ]} Demo.world).
    right. reflexivity.
  - destruct (X16_createPumpFunToken_arguments
                {[ "PUMPFUN_PRIVATE_KEY" := "from the environment" ]}
                Demo.sdk Demo.createToken "random.png" JUndefined
                {[ "name" := JStr "Token"; "symbol" := JStr "TKN";
                   "imagePath" := JStr "mine.png" ]} Demo.world) as [_ H].
    destruct (H eq_refl eq_refl) as (options & Hrun & _ & _ & _ & Hkey).
    rewrite Hrun. unfold Demo.createToken. simpl fst. simpl snd. rewrite Hkey.
    vm_compute. reflexivity.
Defined.

(** * The token tool of the stdio server *)

Lemma z_nonempty_truthy (v : Json) (s : string) :
  z_nonempty v = Some s -> v = JStr s /\ truthy (JStr s) = true.
Proof.
  destruct v; try discriminate. simpl.
  destruct s0 as [|c s0]; simpl; [discriminate|].
  intros H. injection H as <-. split; reflexivity.
Qed.

(** X17.  The tool [createPumpFunToken] of the stdio server either rejects
    its arguments, changing nothing, or hands them to the minting flow and
    returns its result as content: it never answers with
    'Error creating PumpFun token', because the declared shape already
    demands a non-empty name and symbol.  An argument of the wrong type is
    rejected; the name and the symbol reach the minting flow unchanged. *)
Theorem X17_token_tool_rejects_or_forwards (env : gmap string string) (sdk : Sdk)
    (createToken : Json -> World -> Json * World) (imagePath : string) (rpcUrl : Json)
    (args : Json) (w : World) :
  (ServerToken.tool_createPumpFunToken env sdk createToken imagePath rpcUrl args w =
     (Returned InvalidParams, w) /\
   ServerToken.parse args = None) \/
  (exists name symbol options,
     prop args "name" = JStr name /\ name <> "" /\
     prop args "symbol" = JStr symbol /\ symbol <> "" /\
     ServerToken.tool_createPumpFunToken env sdk createToken imagePath rpcUrl args w =
       (Returned (Content (fst (createToken options w))), snd (createToken options w)) /\
     prop (prop options "metadata") "name" = JStr name /\
     prop (prop options "metadata") "symbol" = JStr symbol /\
     prop options "imagePath" = JStr imagePath).
Proof.
  unfold ServerToken.tool_createPumpFunToken.
  destruct (ServerToken.parse args) as [fields|] eqn:Hparse;
    [right | left; split; reflexivity].
  unfold ServerToken.parse in Hparse.
  destruct (z_nonempty (prop args "name")) as [name|] eqn:Hname; [|discriminate Hparse].
  destruct (z_nonempty (prop args "symbol")) as [symbol|] eqn:Hsymbol; [|discriminate Hparse].
  destruct (z_default "" (prop args "description")) as [description|]; [|discriminate Hparse].
  destruct (z_optional (prop args "imagePath")) as [image|]; [|discriminate Hparse].
  destruct (z_optional (prop args "imageBase64")) as [imageBase64|]; [|discriminate Hparse].
  destruct (z_optional (prop args "twitter")) as [twitter|]; [|discriminate Hparse].
  destruct (z_optional (prop args "telegram")) as [telegram|]; [|discriminate Hparse].
  destruct (z_optional (prop args "website")) as [website|]; [|discriminate Hparse].
  destruct (z_default "0.1" (prop args "amount")) as [amount|]; [|discriminate Hparse].
  destruct (z_default "10" (prop args "slippage")) as [slippage|]; [|discriminate Hparse].
  destruct (z_default "0.0005" (prop args "priorityFee")) as [priorityFee|];
    [|discriminate Hparse].
  destruct (z_optional (prop args "privateKey")) as [privateKey|]; [|discriminate Hparse].
  injection Hparse as Hfields.
  apply z_nonempty_truthy in Hname as [Hname Hn].
  apply z_nonempty_truthy in Hsymbol as [Hsymbol Hs].
  assert (Hpn : prop (JObj fields) "name" = JStr name) by (rewrite <- Hfields; reflexivity).
  assert (Hps : prop (JObj fields) "symbol" = JStr symbol)
    by (rewrite <- Hfields; reflexivity).
  exists name, symbol. eexists.
  split; [exact Hname|]. split; [intros ->; discriminate Hn|].
  split; [exact Hsymbol|]. split; [intros ->; discriminate Hs|].
  split.
  - unfold try_catch, bind, ret.
    rewrite createPumpFunToken_reaches by (rewrite ?Hpn, ?Hps; assumption).
    reflexivity.
  - split; [exact Hpn|]. split; [exact Hps | reflexivity].
Qed.

(** * Networks of [initialize] *)

Lemma rpcEndpoints_unknown (env : gmap string string) (name : string) :
  name ∉ ["mainnet-beta"; "devnet"; "testnet"; "localnet"] ->
  Legacy.rpcEndpoints env !! name = None.
Proof.
  intros H. unfold Legacy.rpcEndpoints. simpl.
  rewrite !lookup_insert_ne; [apply lookup_empty|..];
    intros <-; apply H; repeat constructor.
Qed.

(** X18.  [initialize] called with a network name it has no pool for keeps
    the name but uses the devnet pool: it probes the two devnet candidates,
    leaves the connection on the second, and what it reports as network is
    the unknown name.  A name that the pool object inherits from
    [Object.prototype], such as 'constructor', is not replaced by the devnet
    pool: [initialize] throws before any probe. *)
Theorem X18_initialize_unknown_network (env : gmap string string) (remote : Remote)
    (name : string) (w : World) :
  name <> "" ->
  name ∉ ["mainnet-beta"; "devnet"; "testnet"; "localnet"] ->
  accepted "confirmed" (env_or env "DEVNET_RPC_URL" devnet1) ->
  (name ∉ Object_prototype_keys ->
   exists r mod' w',
     Legacy.initialize env remote (Some name) (Legacy.boot, w) = (Returned r, (mod', w')) /\
     Legacy.network mod' = name /\
     Legacy.connection mod' = Some {| rpcEndpoint := devnet2; commitment := "confirmed" |} /\
     calls w' =
       (calls w ++ [probe_of (env_or env "DEVNET_RPC_URL" devnet1); probe_of devnet2])%list) /\
  (name ∈ Object_prototype_keys ->
   exists mod',
     Legacy.initialize env remote (Some name) (Legacy.boot, w) =
       (Thrown "endpoints is not iterable", (mod', w)) /\
     Legacy.network mod' = name /\
     Legacy.connection mod' = None).
Proof.
  intros Hne Hunknown Hurl.
  assert (Hname : (if String.eqb name "" then "devnet" else name) = name).
  { destruct (String.eqb_spec name ""); [contradiction | reflexivity]. }
  assert (Hnone := rpcEndpoints_unknown env name Hunknown).
  split.
  - intros Hproto.
    assert (Hpool : select_endpoints (Legacy.rpcEndpoints env) name =
                    Some [env_or env "DEVNET_RPC_URL" devnet1; devnet2]).
    { unfold select_endpoints. rewrite Hnone.
      rewrite bool_decide_eq_false_2 by exact Hproto. reflexivity. }
    unfold Legacy.initialize, bind, update, this. cbn beta iota.
    cbn [default Legacy.network Legacy.set_network Legacy.boot Legacy.connection].
    unfold id.
    rewrite Hname, Hpool.
    destruct (legacy_loop_visits_all remote [env_or env "DEVNET_RPC_URL" devnet1] devnet2
                {| Legacy.connected := false; Legacy.connectionError := None |} []
                {| Legacy.connection := None; Legacy.network := name |} w eq_refl)
      as (q' & w' & Hrun & Hcalls & _).
    + constructor; [exact Hurl | constructor].
    + reflexivity.
    + simpl app in Hrun. eexists _, _, _. split; [exact Hrun|].
      split; [reflexivity|]. split; [reflexivity | exact Hcalls].
  - intros Hproto.
    assert (Hpool : select_endpoints (Legacy.rpcEndpoints env) name = None).
    { unfold select_endpoints. rewrite Hnone.
      rewrite bool_decide_eq_true_2 by exact Hproto. reflexivity. }
    unfold Legacy.initialize, bind, update, this, throw. cbn beta iota.
    cbn [default Legacy.network Legacy.set_network Legacy.boot Legacy.connection].
    unfold id.
    rewrite Hname, Hpool. eexists. split; [reflexivity|]. split; reflexivity.
Qed.

Lemma X18_initialize_witness :
  (exists r mod' w',
     Legacy.initialize ∅ (Demo.remote Demo.always Demo.always None) (Some "mainnet")
       (Legacy.boot, Demo.world) = (Returned r, (mod', w')) /\
     Legacy.network mod' = "mainnet" /\
     Legacy.connection mod' = Some {| rpcEndpoint := devnet2; commitment := "confirmed" |} /\
     calls w' = (calls Demo.world ++ [probe_of devnet1; probe_of devnet2])%list) /\
  (exists mod',
     Legacy.initialize ∅ (Demo.remote Demo.always Demo.always None) (Some "constructor")
       (Legacy.boot, Demo.world) = (Thrown "endpoints is not iterable", (mod', Demo.world)) /\
     Legacy.network mod' = "constructor" /\
     Legacy.connection mod' = None).
Proof.
  assert (Hknown : forall name,
            In name ["mainnet-beta"; "devnet"; "testnet"; "localnet"] ->
            name <> "mainnet" /\ name <> "constructor").
  { intros name H. simpl in H.
    destruct H as [<-|[<-|[<-|[<-|[]]]]]; split; intros E; discriminate E. }
  split.
  - destruct (X18_initialize_unknown_network ∅ (Demo.remote Demo.always Demo.always None)
                "mainnet" Demo.world) as [H _].
    + intros E. discriminate E.
    + intros H. apply list_elem_of_In, Hknown in H. destruct H as [H _]. apply H. reflexivity.
    + reflexivity.
    + apply H. intros Hin. apply list_elem_of_In in Hin. simpl in Hin.
      repeat (destruct Hin as [Hin|Hin]; [discriminate Hin|]). exact Hin.
  - destruct (X18_initialize_unknown_network ∅ (Demo.remote Demo.always Demo.always None)
                "constructor" Demo.world) as [_ H].
    + intros E. discriminate E.
    + intros H. apply list_elem_of_In, Hknown in H. destruct H as [_ H]. apply H. reflexivity.
    + reflexivity.
    + apply H. apply list_elem_of_In. simpl. left. reflexivity.
Defined.

(** * The limit of the stdio tool *)

Lemma z_limit_accepts (v l : Json) :
  z_limit v = Some l ->
  (v = JUndefined /\ l = jnum 10) \/
  (exists q n, v = JNum (Fin q) /\ l = v /\ (q == inject_Z n)%Q /\ 1 <= n <= 100).
Proof.
  destruct v as [| | | n | | |]; try discriminate; simpl.
  - intros H. injection H as <-. left. split; reflexivity.
  - destruct n as [q|]; [|discriminate].
    destruct (is_integer q) eqn:Hint; [|discriminate].
    destruct (Qle_bool q (inject_Z 0)) eqn:Hpos; [discriminate|].
    destruct (Qle_bool q (inject_Z 100)) eqn:Hmax; [|discriminate].
    simpl. intros H. injection H as <-. right.
    exists q, (Qnum (Qred q)).
    unfold is_integer in Hint. apply Pos.eqb_eq in Hint.
    assert (Hq : (q == inject_Z (Qnum (Qred q)))%Q).
    { rewrite <- (Qred_correct q) at 1. destruct (Qred q) as [a b]. simpl in Hint |- *.
      rewrite Hint. reflexivity. }
    split; [reflexivity|]. split; [reflexivity|]. split; [exact Hq|].
    apply Qle_bool_iff in Hmax. rewrite Hq in Hmax. rewrite <- Zle_Qle in Hmax.
    assert (Hlt : ~ (q <= inject_Z 0)%Q).
    { intros Hle. apply Qle_bool_iff in Hle. rewrite Hle in Hpos. discriminate Hpos. }
    rewrite Hq in Hlt. rewrite <- Zle_Qle in Hlt. lia.
Qed.

Lemma getTransactions_calls (remote : Remote) (sdk : Sdk) (address : string) (limit : Json)
    (st : SolanaAPI.t * World) :
  limit <> JUndefined ->
  calls (snd (snd (SolanaAPI.getTransactions remote sdk address limit st))) = calls (snd st) \/
  exists e pk,
    calls (snd (snd (SolanaAPI.getTransactions remote sdk address limit st))) =
      (calls (snd st) ++ [(e, getSignaturesForAddress pk limit)])%list.
Proof.
  intros Hlimit. destruct st as [api w].
  unfold SolanaAPI.getTransactions. cbv zeta.
  replace (match limit with JUndefined => jnum 10 | _ => limit end) with limit
    by (destruct limit; [contradiction|reflexivity..]).
  unfold SolanaAPI.call, rpc, try_catch, bind, lift, throw, this, ret.
  destruct (PublicKey_new address) as [pk|m0]; [|left; reflexivity].
  cbv beta iota.
  destruct (SolanaAPI.connection api) as [c|]; [|left; reflexivity].
  right. exists (rpcEndpoint c), pk.
  destruct (r_getSignaturesForAddress remote (List.length (calls w)) (rpcEndpoint c) pk limit)
    as [signatures|m0]; [|reflexivity].
  destruct (SolanaAPI.mapOutcome (SolanaAPI.sigJson sdk) signatures); reflexivity.
Qed.

(** X19.  The tool [getTransactions] of the stdio server either rejects its
    arguments and changes nothing, or runs the handler with an address of 32
    to 44 characters and a limit that is a whole number from 1 to 100 (10
    when the caller gives none): the handler sends at most one request, and
    the request carries that limit. *)
Theorem X19_tool_limit_is_bounded (remote : Remote) (sdk : Sdk) (args : Json)
    (st : SolanaAPI.t * World) :
  Server.tool_getTransactions remote sdk args st = (Returned InvalidParams, st) \/
  exists address q n,
    prop args "address" = JStr address /\
    (32 <= String.length address <= 44)%nat /\
    (q == inject_Z n)%Q /\ 1 <= n <= 100 /\
    (prop args "limit" = JUndefined /\ q = inject_Z 10 \/ prop args "limit" = JNum (Fin q)) /\
    fst (Server.tool_getTransactions remote sdk args st) <> Returned InvalidParams /\
    (calls (snd (snd (Server.tool_getTransactions remote sdk args st))) = calls (snd st) \/
     exists e pk,
       calls (snd (snd (Server.tool_getTransactions remote sdk args st))) =
         (calls (snd st) ++ [(e, getSignaturesForAddress pk (JNum (Fin q)))])%list).
Proof.
  unfold Server.tool_getTransactions.
  destruct (z_string 32 44 (prop args "address")) as [address|] eqn:Ha;
    [|left; reflexivity].
  destruct (z_limit (prop args "limit")) as [limit|] eqn:Hl; [|left; reflexivity].
  right.
  assert (Haddr : prop args "address" = JStr address /\
                  (32 <= String.length address <= 44)%nat).
  { unfold z_string in Ha. destruct (prop args "address") as [| | | | s | |];
      try discriminate Ha.
    destruct ((32 <=? String.length s)%nat && (String.length s <=? 44)%nat) eqn:Hlen;
      [|discriminate Ha].
    injection Ha as <-. apply andb_prop in Hlen as [H1 H2].
    apply Nat.leb_le in H1. apply Nat.leb_le in H2. split; [reflexivity | lia]. }
  destruct Haddr as [Haddr Hlen].
  assert (Hlimit : exists q n, limit = JNum (Fin q) /\ (q == inject_Z n)%Q /\ 1 <= n <= 100 /\
                     (prop args "limit" = JUndefined /\ q = inject_Z 10 \/
                      prop args "limit" = JNum (Fin q))).
  { destruct (z_limit_accepts _ _ Hl) as [[Hv ->] | (q & n & Hv & -> & Hq & Hn)].
    - exists (inject_Z 10), 10. split; [reflexivity|]. split; [reflexivity|].
      split; [lia|]. left. split; [exact Hv | reflexivity].
    - exists q, n. split; [exact Hv|]. split; [exact Hq|]. split; [exact Hn|].
      right. exact Hv. }
  destruct Hlimit as (q & n & -> & Hq & Hn & Hgiven).
  exists address, q, n.
  split; [exact Haddr|]. split; [exact Hlen|]. split; [exact Hq|]. split; [exact Hn|].
  split; [exact Hgiven|].
  assert (Hcalls := getTransactions_calls remote sdk address (JNum (Fin q)) st).
  unfold try_catch, bind, ret.
  destruct (SolanaAPI.getTransactions remote sdk address (JNum (Fin q)) st)
    as [[v|m] st'].
  - split; [intros E; discriminate E|]. apply Hcalls. intros E; discriminate E.
  - split; [intros E; discriminate E|]. apply Hcalls. intros E; discriminate E.
Qed.

(** * Base58 *)

Lemma char58_digit58 (d : Z) :
  0 <= d < 58 -> exists c, char58 d = String c EmptyString /\ digit58 c = Some d.
Proof.
  intros Hd. assert (Hk : exists k, d = Z.of_nat k /\ (k < 58)%nat)
    by (exists (Z.to_nat d); lia).
  destruct Hk as (k & -> & Hk). clear Hd.
  do 58 (destruct k as [|k]; [eexists; split; vm_compute; reflexivity|]). lia.
Qed.

Lemma value58_app (s t : string) : forall a,
  value58 a (s +:+ t) =
    match value58 a s with Some v => value58 v t | None => None end.
Proof.
  induction s as [|c s IH]; intros a; simpl; [reflexivity|].
  destruct (digit58 c); [apply IH | reflexivity].
Qed.

Lemma string_app_assoc (s t u : string) : (s +:+ t) +:+ u = s +:+ (t +:+ u).
Proof.
  induction s as [|c s IH]; [reflexivity|].
  change (String c ((s +:+ t) +:+ u) = String c (s +:+ (t +:+ u))). f_equal. exact IH.
Qed.

Lemma string_app_length (s t : string) :
  String.length (s +:+ t) = (String.length s + String.length t)%nat.
Proof.
  induction s as [|c s IH]; [reflexivity|].
  change (S (String.length (s +:+ t)) = S (String.length s + String.length t)).
  f_equal. exact IH.
Qed.

Lemma digits58_spec (fuel : nat) : forall n acc,
  0 <= n < 58 ^ Z.of_nat fuel ->
  exists s,
    digits58 fuel n acc = s +:+ acc /\
    (forall a, value58 a s = Some (a * 58 ^ Z.of_nat (String.length s) + n)) /\
    n < 58 ^ Z.of_nat (String.length s) /\
    headed s /\
    (n = 0 -> s = EmptyString).
Proof.
  induction fuel as [|fuel IH]; intros n acc Hn.
  - simpl in Hn. assert (n = 0) by lia. subst n. exists EmptyString.
    split; [reflexivity|]. split; [intros a; simpl; f_equal; lia|].
    split; [simpl; lia|]. split; [exact I | reflexivity].
  - simpl digits58. destruct (Z.eqb_spec n 0) as [->|Hnz].
    + exists EmptyString. split; [reflexivity|]. split; [intros a; simpl; f_equal; lia|].
      split; [simpl; lia|]. split; [exact I | reflexivity].
    + assert (Hpow : 58 ^ Z.of_nat (S fuel) = 58 * 58 ^ Z.of_nat fuel)
        by (rewrite Nat2Z.inj_succ, Z.pow_succ_r by lia; reflexivity).
      assert (Hq : 0 <= n / 58 < 58 ^ Z.of_nat fuel).
      { split; [apply Z.div_pos; lia|]. apply Z.div_lt_upper_bound; lia. }
      assert (Hr : 0 <= n mod 58 < 58) by (apply Z.mod_pos_bound; lia).
      destruct (char58_digit58 _ Hr) as (c & Hc & Hd).
      destruct (IH (n / 58) (char58 (n mod 58) +:+ acc) Hq)
        as (s & Hs & Hval & Hlt & Hhead & Hzero).
      exists (s +:+ String c EmptyString).
      assert (Hlen : Z.of_nat (String.length (s +:+ String c EmptyString)) =
                     Z.of_nat (String.length s) + 1)
        by (rewrite string_app_length; simpl; lia).
      assert (Hdiv : n = 58 * (n / 58) + n mod 58) by (apply Z.div_mod; lia).
      split; [rewrite Hs, Hc, string_app_assoc; reflexivity|].
      split.
      { intros a. rewrite value58_app, Hval. simpl. rewrite Hd. f_equal.
        rewrite Hlen, Z.pow_add_r by lia. lia. }
      split; [rewrite Hlen, Z.pow_add_r by lia; lia|].
      split; [|intros ->; contradiction].
      destruct s as [|c0 s].
      * simpl. intros ->.
        assert (Hz : n / 58 = 0).
        { specialize (Hval 0). simpl in Hval. injection Hval as Hval. lia. }
        change (digit58 "1"%char) with (Some 0) in Hd. injection Hd as Hd. lia.
      * exact Hhead.
Qed.

Lemma leading_ones_ones (z : nat) (s : string) :
  headed s -> leading_ones (ones z +:+ s) = (z, s).
Proof.
  intros Hs. induction z as [|z IH]; simpl.
  - destruct s as [|c s]; [reflexivity|]. simpl in Hs.
    destruct c as [[] [] [] [] [] [] [] []]; try reflexivity. contradiction Hs; reflexivity.
  - rewrite IH. reflexivity.
Qed.

Lemma number256_snoc (l : list Z) (b : Z) : number256 (l ++ [b]) = number256 l * 256 + b.
Proof. unfold number256. rewrite fold_left_app. reflexivity. Qed.

Lemma number256_bound (l : list Z) :
  Forall byte l -> 0 <= number256 l < 256 ^ Z.of_nat (List.length l).
Proof.
  induction l as [|b l IH] using rev_ind; intros Hl.
  - unfold number256. simpl. lia.
  - apply Forall_app in Hl as [Hl Hb]. inversion Hb as [|? ? Hb' _]; subst.
    unfold byte in Hb'. specialize (IH Hl).
    rewrite number256_snoc, length_app. simpl List.length.
    replace (Z.of_nat (List.length l + 1)) with (Z.of_nat (List.length l) + 1) by lia.
    rewrite Z.pow_add_r by lia. lia.
Qed.

Lemma number256_pos (l : list Z) (b : Z) :
  Forall byte (b :: l) -> b <> 0 -> 0 < number256 (b :: l).
Proof.
  induction l as [|c l IH] using rev_ind; intros Hl Hb.
  - inversion Hl as [|? ? Hb' _]; subst. unfold byte in Hb'. unfold number256. simpl. lia.
  - change (b :: l ++ [c])%list with ((b :: l) ++ [c])%list in Hl |- *.
    apply Forall_app in Hl as [Hl Hc]. inversion Hc as [|? ? Hc' _]; subst.
    unfold byte in Hc'. rewrite number256_snoc. specialize (IH Hl Hb). lia.
Qed.

Lemma be_bytes_spec (l : list Z) : forall fuel acc,
  Forall byte l -> (forall b l', l = b :: l' -> b <> 0) ->
  number256 l < 256 ^ Z.of_nat fuel ->
  be_bytes fuel (number256 l) acc = (l ++ acc)%list.
Proof.
  induction l as [|b l IH] using rev_ind; intros fuel acc Hl Hhead Hfuel.
  - unfold number256. simpl. destruct fuel; reflexivity.
  - apply Forall_app in Hl as [Hl Hb]. inversion Hb as [|? ? Hb' _]; subst.
    unfold byte in Hb'.
    assert (Hnl := number256_bound l Hl).
    assert (Hpos : 0 < number256 l * 256 + b).
    { destruct l as [|c l].
      - unfold number256. simpl. specialize (Hhead b [] eq_refl). lia.
      - assert (0 < number256 (c :: l))
          by (apply number256_pos; [exact Hl | apply (Hhead c (l ++ [b])%list); reflexivity]).
        lia. }
    rewrite number256_snoc in Hfuel |- *.
    destruct fuel as [|fuel]; [simpl in Hfuel; lia|].
    simpl be_bytes.
    destruct (Z.eqb_spec (number256 l * 256 + b) 0) as [E|_]; [lia|].
    replace ((number256 l * 256 + b) / 256) with (number256 l)
      by (apply Z.div_unique with (r := b); lia).
    replace ((number256 l * 256 + b) mod 256) with b
      by (apply Z.mod_unique with (q := number256 l); lia).
    rewrite IH.
    + rewrite <- app_assoc. reflexivity.
    + exact Hl.
    + intros c l' E. apply (Hhead c (l' ++ [b])%list). rewrite E. reflexivity.
    + rewrite Nat2Z.inj_succ, Z.pow_succ_r in Hfuel by lia. lia.
Qed.

Lemma leading_zeros_spec (l : list Z) :
  exists z rest,
    leading_zeros l = (z, rest) /\ l = (repeat 0 z ++ rest)%list /\
    (forall b l', rest = b :: l' -> b <> 0).
Proof.
  induction l as [|b l IH].
  - exists O, []. split; [reflexivity|]. split; [reflexivity|]. intros b l' E. discriminate E.
  - simpl. destruct (Z.eqb_spec b 0) as [->|Hb].
    + destruct IH as (z & rest & -> & Hl & Hr). exists (S z), rest.
      split; [reflexivity|]. split; [simpl; rewrite <- Hl; reflexivity | exact Hr].
    + exists O, (b :: l). split; [reflexivity|]. split; [reflexivity|].
      intros c l' E. injection E as <- _. exact Hb.
Qed.

Lemma pow_256_58 (n : nat) : 256 ^ Z.of_nat n <= 58 ^ Z.of_nat (2 * n).
Proof.
  induction n as [|n IH]; [simpl; lia|].
  replace (Z.of_nat (2 * S n)) with (Z.of_nat (2 * n) + 2) by lia.
  rewrite Nat2Z.inj_succ, Z.pow_succ_r, Z.pow_add_r by lia.
  change (58 ^ 2) with 3364. assert (0 < 256 ^ Z.of_nat n) by (apply Z.pow_pos_nonneg; lia).
  lia.
Qed.

Lemma pow_58_256 (n : nat) : 58 ^ Z.of_nat n <= 256 ^ Z.of_nat n.
Proof. apply Z.pow_le_mono_l. lia. Qed.

(** What [bs58.encode] writes, [bs58.decode] reads back. *)
Lemma bs58_round_trip (bytes : list Z) :
  Forall byte bytes -> bs58_decode (bs58_encode bytes) = Some bytes.
Proof.
  intros Hbytes. unfold bs58_encode.
  destruct (leading_zeros_spec bytes) as (z & rest & -> & Hsplit & Hhead).
  assert (Hrest : Forall byte rest).
  { rewrite Hsplit in Hbytes. apply Forall_app in Hbytes as [_ H]. exact H. }
  fold (number256 rest).
  assert (Hbound := number256_bound rest Hrest).
  destruct (digits58_spec (2 * List.length rest) (number256 rest) EmptyString)
    as (s & Hs & Hval & Hlt & Hheaded & _).
  { split; [lia|]. eapply Z.lt_le_trans; [apply Hbound | apply pow_256_58]. }
  assert (Hnil : s +:+ EmptyString = s).
  { clear. induction s as [|c s IH]; [reflexivity|].
    change (String c (s +:+ EmptyString) = String c s). f_equal. exact IH. }
  rewrite Hnil in Hs. cbv zeta. rewrite Hs. unfold bs58_decode.
  assert (Hv0 := Hval 0). rewrite Z.mul_0_l, Z.add_0_l in Hv0.
  rewrite (leading_ones_ones z s Hheaded), Hv0.
  rewrite be_bytes_spec.
  - rewrite app_nil_r, Hsplit. reflexivity.
  - exact Hrest.
  - exact Hhead.
  - eapply Z.lt_le_trans; [exact Hlt | apply pow_58_256].
Qed.

(** * The fallback key of the minting flow *)

(** X20.  When the caller gives no signing key and PUMPFUN_PRIVATE_KEY is
    unset or empty, [createPumpFunToken] hands the hard-coded text to
    [createToken], which cannot decode it: the call returns the failure
    object with the error 'Non-base58 character', no mint key is generated
    and nothing is uploaded or submitted. *)
Theorem X20_fallback_key_never_mints (env : gmap string string) (sdk : Sdk)
    (submit : Keypair -> Keypair -> Json -> World -> (string + string * Json) * World)
    (imagePath : string) (rpcUrl : Json) (fields : gmap string Json) (w : World) :
  truthy (prop (JObj fields) "name") = true ->
  truthy (prop (JObj fields) "symbol") = true ->
  truthy (prop (JObj fields) "privateKey") = false ->
  truthy (env_get env "PUMPFUN_PRIVATE_KEY") = false ->
  Pumpfun.createPumpFunToken env sdk (Mint.createToken sdk submit) imagePath rpcUrl fields w =
    (Returned (Mint.failed "Non-base58 character" JUndefined), w).
Proof.
  intros Hname Hsymbol Hkey Henv.
  rewrite createPumpFunToken_reaches by assumption.
  assert (Hselected : Pumpfun.selectPrivateKey env (JObj fields) = JStr Pumpfun.hardcodedKey).
  { unfold Pumpfun.selectPrivateKey, js_or. rewrite Hkey, Henv. reflexivity. }
  rewrite Hselected. unfold Mint.createToken.
  replace (prop (Pumpfun.tokenOptions env sdk imagePath rpcUrl (JObj fields)
                   (JStr Pumpfun.hardcodedKey) (clock w)) "privateKey")
    with (JStr Pumpfun.hardcodedKey) by reflexivity.
  reflexivity.
Qed.

Lemma X20_fallback_key_witness :
  Pumpfun.createPumpFunToken ∅ Demo.sdk
    (Mint.createToken Demo.sdk (fun _ _ _ w => (inl "sig", w))) "random.png" JUndefined
    {[ "name" := JStr "Token"; "symbol" := JStr "TKN" ]} Demo.world =
    (Returned (Mint.failed "Non-base58 character" JUndefined), Demo.world).
Proof.
  apply (X20_fallback_key_never_mints ∅ Demo.sdk (fun _ _ _ w => (inl "sig", w))
           "random.png" JUndefined {[ "name" := JStr "Token"; "symbol" := JStr "TKN" ]}
           Demo.world); reflexivity.
Defined.

(** * A wallet that has just been created *)

(** X21.  The two texts [createWallet] returns fit [transferSol]: the
    address decodes to the public key of the generated key pair and the
    private key to its secret key, so a transfer from the new address passes
    the check of the key against the sender and, with a valid recipient,
    asks the ledger for a blockhash.  The SDK is taken to generate keys of
    bytes with a public key of 32 bytes, and to rebuild a key pair from its
    secret key. *)
Theorem X21_created_wallet_signs (remote : Remote) (sdk : Sdk) (api : SolanaAPI.t)
    (w : World) (c : Connection) (to : string) (toPk : PublicKey) (amount : Number) :
  let keypair := Keypair_generate sdk (generated w) in
  Forall byte (secretKey keypair) ->
  Forall byte (pk_bytes (publicKey keypair)) ->
  List.length (pk_bytes (publicKey keypair)) = 32%nat ->
  Keypair_fromSecretKey sdk (secretKey keypair) = Returned keypair ->
  SolanaAPI.connection api = Some c ->
  PublicKey_new to = Returned toPk ->
  SystemProgram_transfer sdk (publicKey keypair) toPk (Nmul amount (num LAMPORTS_PER_SOL)) =
    Returned tt ->
  exists address key,
    SolanaAPI.createWallet sdk (api, w) =
      (Returned (obj [ ("publicKey", JStr address); ("privateKey", JStr key) ]),
       (api, next_keypair w)) /\
    PublicKey_new address = Returned (publicKey keypair) /\
    SolanaAPI.decodeKey key = Returned (secretKey keypair) /\
    (calls w ++ [(rpcEndpoint c, getLatestBlockhash)])%list `prefix_of`
      calls (snd (snd (SolanaAPI.transferSol remote sdk address to amount key
                         (api, next_keypair w)))).
Proof.
  intros keypair Hsecret Hpublic Hlen Hrebuild Hc Hto Hix.
  exists (toBase58 (publicKey keypair)), (bs58_encode (secretKey keypair)).
  assert (Haddress : PublicKey_new (toBase58 (publicKey keypair)) =
                     Returned (publicKey keypair)).
  { unfold PublicKey_new, toBase58. rewrite (bs58_round_trip _ Hpublic), Hlen.
    destruct (publicKey keypair). reflexivity. }
  assert (Hkey : SolanaAPI.decodeKey (bs58_encode (secretKey keypair)) =
                 Returned (secretKey keypair)).
  { unfold SolanaAPI.decodeKey. rewrite (bs58_round_trip _ Hsecret). reflexivity. }
  split; [reflexivity|]. split; [exact Haddress|]. split; [exact Hkey|].
  unfold SolanaAPI.transferSol.
  unfold SolanaAPI.call, rpc, try_catch, bind, lift, throw, this, ret.
  rewrite Haddress, Hto, Hkey, Hrebuild. cbv beta iota.
  rewrite String.eqb_refl. cbn [negb]. cbv beta iota. rewrite Hix, Hc. cbv beta iota.
  destruct (r_getLatestBlockhash remote _ (rpcEndpoint c)) as [latest|m0];
    [|simpl; reflexivity].
  cbv beta iota zeta.
  destruct (signAndSerialize sdk _) as [[]|m0]; [|simpl; reflexivity].
  cbv beta iota. rewrite ?Hc. cbv beta iota.
  destruct (r_send remote _ (rpcEndpoint c) _) as [signature|m0];
    [|simpl; apply prefix_app_r; reflexivity].
  cbv beta iota. rewrite ?Hc. cbv beta iota.
  destruct (r_confirmTransaction remote _ (rpcEndpoint c) _) as [[]|m0];
    simpl; do 2 apply prefix_app_r; reflexivity.
Qed.

Lemma X21_created_wallet_witness :
  exists address key,
    SolanaAPI.createWallet Demo.sdk (Demo.api, Demo.world) =
      (Returned (obj [ ("publicKey", JStr address); ("privateKey", JStr key) ]),
       (Demo.api, next_keypair Demo.world)) /\
    PublicKey_new address = Returned (publicKey (Keypair_generate Demo.sdk 0)) /\
    SolanaAPI.decodeKey key = Returned (secretKey (Keypair_generate Demo.sdk 0)) /\
    (calls Demo.world ++ [(rpcEndpoint Demo.mainnet, getLatestBlockhash)])%list `prefix_of`
      calls (snd (snd (SolanaAPI.transferSol (Demo.remote Demo.always Demo.always None)
                         Demo.sdk address Demo.bob (num 1) key
                         (Demo.api, next_keypair Demo.world)))).
Proof.
  apply (X21_created_wallet_signs (Demo.remote Demo.always Demo.always None) Demo.sdk
           Demo.api Demo.world Demo.mainnet Demo.bob {| pk_bytes := repeat 2 32 |} (num 1)).
  - change (Forall byte (repeat 7 32 ++ repeat 1 32)%list).
    apply Forall_forall. intros b Hb. apply list_elem_of_In, in_app_or in Hb.
    destruct Hb as [Hb|Hb]; apply repeat_spec in Hb; subst b; unfold byte; lia.
  - change (Forall byte (repeat 1 32)).
    apply Forall_forall. intros b Hb. apply list_elem_of_In, repeat_spec in Hb.
    subst b. unfold byte. lia.
  - reflexivity.
  - reflexivity.
  - reflexivity.
  - vm_compute. reflexivity.
  - reflexivity.
Defined.

(** * The network status of solana.js *)

(** X22.  [getNetworkStatus] of solana.js is all or nothing.  It asks for
    the version, the slot, the block time of that slot and the supply, in
    this order.  The first query that fails ends the call: no later query
    is sent and the error thrown is 'Failed to get network status: '
    followed by the message of that failure.  When the four queries are
    answered, the status carries the module's network name and what the
    ledger gave; the block time is the ISO text of the block time in
    milliseconds, of the epoch when the ledger has no block time for the
    slot, and a block time that is not a valid date makes the call throw
    after the four queries. *)
Theorem X22_legacy_status_all_or_nothing (remote : Remote) (sdk : Sdk) (m : Legacy.t)
    (w : World) (c : Connection) :
  Legacy.connection m = Some c ->
  let n := List.length (calls w) in
  let e := rpcEndpoint c in
  (forall message,
     r_getVersion remote n e = Thrown message ->
     exists w',
       Legacy.getNetworkStatus remote sdk (m, w) =
         (Thrown ("Failed to get network status: " +:+ message), (m, w')) /\
       calls w' = (calls w ++ [(e, getVersion)])%list) /\
  (forall version message,
     r_getVersion remote n e = Returned version ->
     r_getSlot remote (S n) e = Thrown message ->
     exists w',
       Legacy.getNetworkStatus remote sdk (m, w) =
         (Thrown ("Failed to get network status: " +:+ message), (m, w')) /\
       calls w' = (calls w ++ [(e, getVersion); (e, getSlot)])%list) /\
  (forall version slot message,
     r_getVersion remote n e = Returned version ->
     r_getSlot remote (S n) e = Returned slot ->
     r_getBlockTime remote (S (S n)) e slot = Thrown message ->
     exists w',
       Legacy.getNetworkStatus remote sdk (m, w) =
         (Thrown ("Failed to get network status: " +:+ message), (m, w')) /\
       calls w' = (calls w ++ [(e, getVersion); (e, getSlot); (e, getBlockTime slot)])%list) /\
  (forall version slot blockTime message,
     r_getVersion remote n e = Returned version ->
     r_getSlot remote (S n) e = Returned slot ->
     r_getBlockTime remote (S (S n)) e slot = Returned blockTime ->
     r_getSupply remote (S (S (S n))) e = Thrown message ->
     exists w',
       Legacy.getNetworkStatus remote sdk (m, w) =
         (Thrown ("Failed to get network status: " +:+ message), (m, w')) /\
       calls w' = (calls w ++ statusSteps e slot)%list) /\
  (forall version slot blockTime supply,
     r_getVersion remote n e = Returned version ->
     r_getSlot remote (S n) e = Returned slot ->
     r_getBlockTime remote (S (S n)) e slot = Returned blockTime ->
     r_getSupply remote (S (S (S n))) e = Returned supply ->
     exists w',
       calls w' = (calls w ++ statusSteps e slot)%list /\
       (forall iso,
          toISOString sdk (Nmul (num (default 0 blockTime)) (num 1000)) = Returned iso ->
          Legacy.getNetworkStatus remote sdk (m, w) =
            (Returned
               (obj [ ("network", JStr (Legacy.network m));
                      ("version", version);
                      ("currentSlot", jnum slot);
                      ("blockTime", JStr iso);
                      ("totalSupply", JNum (Ndiv (num (fst supply)) LAMPORTS_PER_SOL));
                      ("circulatingSupply",
                       JNum (Ndiv (num (snd supply)) LAMPORTS_PER_SOL)) ]),
             (m, w'))) /\
       (forall message,
          toISOString sdk (Nmul (num (default 0 blockTime)) (num 1000)) = Thrown message ->
          Legacy.getNetworkStatus remote sdk (m, w) =
            (Thrown ("Failed to get network status: " +:+ message), (m, w')))).
Proof.
  intros Hc n e.
  assert (Hrun := legacy_status_run remote sdk c m w Hc). cbv zeta in Hrun.
  fold n in Hrun. fold e in Hrun.
  split; [|split; [|split; [|split]]].
  - intros message E. rewrite Hrun, E. eexists. split; reflexivity.
  - intros version message E1 E2. rewrite Hrun, E1, E2. eexists. split; [reflexivity|].
    simpl. rewrite <- !app_assoc. reflexivity.
  - intros version slot message E1 E2 E3. rewrite Hrun, E1, E2, E3.
    eexists. split; [reflexivity|]. simpl. rewrite <- !app_assoc. reflexivity.
  - intros version slot blockTime message E1 E2 E3 E4. rewrite Hrun, E1, E2, E3, E4.
    eexists. split; [reflexivity|]. simpl. rewrite <- !app_assoc. reflexivity.
  - intros version slot blockTime supply E1 E2 E3 E4. rewrite Hrun, E1, E2, E3, E4.
    eexists. split; [|split].
    2:{ intros iso E5. rewrite E5. reflexivity. }
    2:{ intros message E5. rewrite E5. reflexivity. }
    simpl. rewrite <- !app_assoc. reflexivity.
Qed.

Lemma X22_legacy_status_witness :
  (exists w',
     Legacy.getNetworkStatus Demo.versionDown Demo.sdk (Demo.legacy, Demo.world) =
       (Thrown ("Failed to get network status: " +:+ "fetch failed"), (Demo.legacy, w')) /\
     calls w' = [(mainnet1, getVersion)]) /\
  (exists w',
     calls w' = statusSteps mainnet1 250 /\
     Legacy.getNetworkStatus (Demo.remote Demo.always Demo.always None) Demo.sdk
       (Demo.legacy, Demo.world) =
       (Returned
          (obj [ ("network", JStr "mainnet-beta");
                 ("version", obj [ ("solana-core", JStr "1.18.0") ]);
                 ("currentSlot", jnum 250);
                 ("blockTime", JStr "1700000000000");
                 ("totalSupply", JNum (Ndiv (num 5000000000) LAMPORTS_PER_SOL));
                 ("circulatingSupply", JNum (Ndiv (num 4000000000) LAMPORTS_PER_SOL)) ]),
        (Demo.legacy, w'))).
Proof.
  split.
  - destruct (X22_legacy_status_all_or_nothing Demo.versionDown Demo.sdk Demo.legacy
                Demo.world Demo.mainnet eq_refl) as (H & _).
    apply (H "fetch failed"). reflexivity.
  - destruct (X22_legacy_status_all_or_nothing (Demo.remote Demo.always Demo.always None)
                Demo.sdk Demo.legacy Demo.world Demo.mainnet eq_refl)
      as (_ & _ & _ & _ & H).
    destruct (H (obj [ ("solana-core", JStr "1.18.0") ]) 250 (Some 1700000000)
                (5000000000, 4000000000) eq_refl eq_refl eq_refl eq_refl)
      as (w' & Hcalls & Hok & _).
    exists w'. split; [exact Hcalls|].
    apply (Hok "1700000000000"). vm_compute. reflexivity.
Defined.

(** * The tools of the stdio server *)

Lemma prefix_app (label text : string) : String.prefix label (label +:+ text) = true.
Proof.
  induction label as [|a label IH].
  - change (EmptyString +:+ text) with text. destruct text; reflexivity.
  - change (String.prefix (String a label) (String a (label +:+ text)) = true).
    simpl. destruct (ascii_dec a a) as [_|Hne]; [exact IH | contradiction].
Qed.

Section ToolsReply.
Variable label : string.

(** A tool made of a handler call inside [try], returned as content, and a
    [catch] that returns an error text. *)
Lemma replies_handler {A} (handler : M (SolanaAPI.t * World) A) (k : A -> Json) :
  replies label
    (try_catch (let* x := handler in ret (Content (k x)))
               (fun message => ret (IsError (label +:+ message)))).
Proof.
  intros st. unfold try_catch, bind, ret.
  destruct (handler st) as [[x|m] st'].
  - eexists _, _. split; [reflexivity | exact I].
  - eexists _, _. split; [reflexivity | apply prefix_app].
Qed.

Lemma replies_refusal : replies label (ret InvalidParams).
Proof. intros st. eexists _, _. split; reflexivity. Qed.

End ToolsReply.

(** X23.  No tool of the stdio server throws.  In every state and for every
    argument object a tool either refuses the arguments, changing nothing,
    or returns the content its handler produced, or returns an error text
    that begins with the tool's own label. *)
Theorem X23_tools_always_reply (cfg : Config) (remote : Remote) (sdk : Sdk) :
  replies "Error getting network status: " (Server.tool_getNetworkStatus cfg remote sdk) /\
  (forall args, replies "Error getting balance: " (Server.tool_getBalance remote args)) /\
  (forall args,
     replies "Error getting account info: " (Server.tool_getAccountInfo remote args)) /\
  (forall args,
     replies "Error getting transactions: " (Server.tool_getTransactions remote sdk args)) /\
  (forall args, replies "Error transferring SOL: " (Server.tool_transferSol remote sdk args)) /\
  replies "Error creating wallet: " (Server.tool_createWallet sdk).
Proof.
  split; [|split; [|split; [|split; [|split]]]].
  - unfold Server.tool_getNetworkStatus. apply (replies_handler _ _ (fun x => x)).
  - intros args. unfold Server.tool_getBalance.
    destruct (z_string 32 44 (prop args "address"));
      [apply (replies_handler _ _ (fun x => x)) | apply replies_refusal].
  - intros args. unfold Server.tool_getAccountInfo.
    destruct (z_string 32 44 (prop args "address"));
      [apply (replies_handler _ _ (fun x => x)) | apply replies_refusal].
  - intros args. unfold Server.tool_getTransactions.
    destruct (z_string 32 44 (prop args "address")); [|apply replies_refusal].
    destruct (z_limit (prop args "limit"));
      [apply (replies_handler _ _ (fun x => x)) | apply replies_refusal].
  - intros args. unfold Server.tool_transferSol.
    destruct (z_string 32 44 (prop args "from")); [|apply replies_refusal].
    destruct (z_string 32 44 (prop args "to")); [|apply replies_refusal].
    destruct (z_positive (prop args "amount")); [|apply replies_refusal].
    destruct (z_string 87 88 (prop args "privateKey"));
      [apply (replies_handler _ _ (fun x => x)) | apply replies_refusal].
  - unfold Server.tool_createWallet. apply (replies_handler _ _ (fun x => x)).
Qed.
